(** * katportalclient: the websocket client of [client.py]

    A shallow embedding of [KATPortalClient]: the cache of JSON-RPC requests
    that is resent after a reconnect, the table of pending requests, the
    dispatch of inbound websocket frames and the download of sensor
    histories; and of its HTTP side the sitemap and the list of schedule
    blocks.

    Python objects that the client mutates in place become fields of one
    record, [client]; a method becomes a function from the client before the
    call to the client after it.  A tornado coroutine that suspends (on a
    [yield]) takes, for each suspension, the list of things the IOLoop runs
    before the coroutine is resumed. *)

From Stdlib Require Import QArith ZArith Ascii String List.
From stdpp Require Import base option list gmap strings pretty.

Set Warnings "-register-all".

Close Scope Q_scope.
Open Scope string_scope.
Open Scope list_scope.

(** ** Exceptions and results *)

Inductive exn : Type :=
| IndexError
| KeyError
| TypeError
| ValueError
| HTTPError
| Exception (msg : string)
| SensorHistoryRequestError (msg : string).

Inductive res (A : Type) : Type :=
| Ok (a : A)
| Raise (e : exn).
Arguments Ok {A} a.
Arguments Raise {A} e.

Definition res_bind {A B} (m : res A) (k : A -> res B) : res B :=
  match m with
  | Ok a => k a
  | Raise e => Raise e
  end.

Declare Scope res_scope.
Delimit Scope res_scope with res.
Notation "'do' x <- m ; k" := (res_bind m (fun x => k))
  (at level 10, x name, m at level 100, k at level 200) : res_scope.
Open Scope res_scope.

#[global] Instance exn_eq_dec : EqDecision exn.
Proof. solve_decision. Defined.

#[global] Instance res_eq_dec {A} `{EqDecision A} : EqDecision (res A).
Proof. solve_decision. Defined.

(** [l[i]] for a non-negative index. *)
Definition py_index {A} (l : list A) (i : nat) : res A :=
  match l !! i with
  | Some x => Ok x
  | None => Raise IndexError
  end.

(** ** JSON-RPC requests *)

(** The values the client puts in [params]: a namespace or sensor name or
    strategy (a string), a list of subscription strings, the
    [persist_to_redis] flag, and [None] for an omitted argument. *)
Inductive pyval : Type :=
| PNone
| PBool (b : bool)
| PStr (s : string)
| PStrs (l : list string).

#[global] Instance pyval_eq_dec : EqDecision pyval.
Proof. solve_decision. Defined.

(** Python's [==] on these values. *)
Definition py_eq (a b : pyval) : bool := bool_decide (a = b).

(** Modelled from the spec: [request.py], which declares [JSONRPCRequest],
    is not part of the sources.  A Channel Request is
    {method, params: ordered sequence of values, id: unique string},
    immutable after construction. *)
Record JSONRPCRequest : Type := mkRequest {
  id : string;
  method : string;
  params : list pyval
}.

#[global] Instance JSONRPCRequest_eq_dec : EqDecision JSONRPCRequest.
Proof. solve_decision. Defined.

(** Modelled from the spec: [JSONRPCRequest.method_and_params_hash] is
    declared in the missing [request.py].  Identity and equality for
    deduplication are derived from (method, params) only, not from id. *)
Definition method_and_params_hash (r : JSONRPCRequest) : string * list pyval :=
  (method r, params r).

(** ** The cache of requests ([_ws_jsonrpc_cache]) *)

Module Ledger.

(** The loop of the [unsubscribe] branch: the cached subscribes with the
    params of the request. *)
Definition unsubscribe_matches (jsonrpc_request : JSONRPCRequest)
    (cache : list JSONRPCRequest) : list JSONRPCRequest :=
  filter (fun req => method req = "subscribe" /\
                     params req = params jsonrpc_request) cache.

(** The condition of the loop of the [set_sampling_strat*] branch; the
    indexing raises when a list is too short, and [and] evaluates from the
    left. *)
Definition strategy_match (jsonrpc_request req : JSONRPCRequest) : res bool :=
  if bool_decide (method req = method jsonrpc_request) then
    do r0 <- py_index (params req) 0;
    do j0 <- py_index (params jsonrpc_request) 0;
    if py_eq r0 j0 then
      do r1 <- py_index (params req) 1;
      do j1 <- py_index (params jsonrpc_request) 1;
      Ok (py_eq r1 j1)
    else Ok false
  else Ok false.

Fixpoint strategy_matches (jsonrpc_request : JSONRPCRequest)
    (cache : list JSONRPCRequest) : res (list JSONRPCRequest) :=
  match cache with
  | [] => Ok []
  | req :: rest =>
      do b <- strategy_match jsonrpc_request req;
      do tl <- strategy_matches jsonrpc_request rest;
      Ok (if b then req :: tl else tl)
  end.

(** The loop of the last branch: is there a cached request with the same
    method and params? *)
Definition duplicate_found (jsonrpc_request : JSONRPCRequest)
    (cache : list JSONRPCRequest) : bool :=
  existsb (fun req => bool_decide (method_and_params_hash req =
                                   method_and_params_hash jsonrpc_request))
          cache.

(** [cache.remove(req)] takes out the first element equal to [req] and
    raises [ValueError] when there is none.  A request object has no
    comparison of its own, so equal means the same object; with the id
    unique to the object that is equality of the three fields. *)
Fixpoint py_remove (req : JSONRPCRequest) (cache : list JSONRPCRequest)
    : res (list JSONRPCRequest) :=
  match cache with
  | [] => Raise ValueError
  | x :: rest =>
      if bool_decide (x = req) then Ok rest
      else do rest' <- py_remove req rest; Ok (x :: rest')
  end.

(** [for req in requests_to_remove: cache.remove(req)] *)
Fixpoint remove_all (requests_to_remove cache : list JSONRPCRequest)
    : res (list JSONRPCRequest) :=
  match requests_to_remove with
  | [] => Ok cache
  | req :: rest =>
      do cache' <- py_remove req cache;
      remove_all rest cache'
  end.

Definition _cache_jsonrpc_request (cache : list JSONRPCRequest)
    (jsonrpc_request : JSONRPCRequest) : res (list JSONRPCRequest) :=
  if bool_decide (method jsonrpc_request = "unsubscribe") then
    remove_all (unsubscribe_matches jsonrpc_request cache) cache
  else
    do clearing <-
      (if String.prefix "set_sampling_strat" (method jsonrpc_request) then
         do strategy <- py_index (params jsonrpc_request) 2;
         Ok (py_eq strategy (PStr "none"))
       else Ok false);
    if clearing : bool then
      do requests_to_remove <- strategy_matches jsonrpc_request cache;
      remove_all requests_to_remove cache
    else if duplicate_found jsonrpc_request cache then Ok cache
    else Ok (cache ++ [jsonrpc_request]).

(** The states of the cache: it starts empty, every subscribe, unsubscribe
    and strategy call records its request, and [disconnect] empties it. *)
Inductive reachable : list JSONRPCRequest -> Prop :=
| reachable_init : reachable []
| reachable_record cache req cache' :
    reachable cache ->
    _cache_jsonrpc_request cache req = Ok cache' ->
    reachable cache'
| reachable_disconnect cache :
    reachable cache -> reachable [].

(** The requests of the last branch, which are appended unless cached. *)
Definition appended (jsonrpc_request : JSONRPCRequest) : Prop :=
  method jsonrpc_request <> "unsubscribe" /\
  (String.prefix "set_sampling_strat" (method jsonrpc_request) = true ->
   exists strategy, params jsonrpc_request !! 2%nat = Some strategy /\
                    strategy <> PStr "none").

(** How many cached entries have the method and params of a request. *)
Definition entries_like (jsonrpc_request : JSONRPCRequest)
    (cache : list JSONRPCRequest) : nat :=
  length (filter (fun req => method_and_params_hash req =
                             method_and_params_hash jsonrpc_request) cache).

End Ledger.

(** ** Inbound data *)

(** What [json.loads] returns.  An object is the list of its items, and a
    number is an integer: the fields the client reads (ids, counters and
    millisecond timestamps) are integers on the wire. *)
Inductive json : Type :=
| JNull
| JBool (b : bool)
| JInt (z : Z)
| JStr (s : string)
| JArr (items : list json)
| JObj (fields : list (string * json)).

(** [if v:] *)
Definition json_truthy (v : json) : bool :=
  match v with
  | JNull => false
  | JBool b => b
  | JInt z => negb (z =? 0)%Z
  | JStr s => negb (bool_decide (s = ""))
  | JArr items => negb (bool_decide (items = []))
  | JObj fields => negb (bool_decide (fields = []))
  end.

Fixpoint assoc (k : string) (fields : list (string * json)) : option json :=
  match fields with
  | [] => None
  | (k', v) :: rest => if bool_decide (k' = k) then Some v else assoc k rest
  end.

(** [v[k]] for a string key [k]. *)
Definition json_getitem (v : json) (k : string) : res json :=
  match v with
  | JObj fields =>
      match assoc k fields with
      | Some x => Ok x
      | None => Raise KeyError
      end
  | _ => Raise TypeError
  end.

(** [v.get(k, None)] on a dict. *)
Definition json_get (fields : list (string * json)) (k : string) : json :=
  match assoc k fields with
  | Some x => x
  | None => JNull
  end.

Definition is_json_str (s : string) (v : json) : bool :=
  match v with
  | JStr s' => bool_decide (s' = s)
  | _ => false
  end.

(** [k in v] for a string [k]: a key of a dict, an element of a list, a
    substring of a string. *)
Definition json_contains (k : string) (v : json) : res bool :=
  match v with
  | JObj fields => Ok (bool_decide (is_Some (assoc k fields)))
  | JArr items => Ok (existsb (is_json_str k) items)
  | JStr s => Ok (bool_decide (is_Some (String.index 0 k s)))
  | _ => Raise TypeError
  end.

(** [len(v)] *)
Definition json_len (v : json) : res nat :=
  match v with
  | JArr items => Ok (length items)
  | JObj fields => Ok (length fields)
  | JStr s => Ok (String.length s)
  | _ => Raise TypeError
  end.

(** [v[i]] for an integer index [i] within [0, len). *)
Definition json_item (v : json) (i : nat) : res json :=
  match v with
  | JArr items => py_index items i
  | JObj _ => Raise KeyError
  | JStr s =>
      match String.get i s with
      | Some a => Ok (JStr (String a EmptyString))
      | None => Raise IndexError
      end
  | _ => Raise TypeError
  end.

Definition SAMPLE_HISTORY_REQUEST_MULTIPLIER_TO_SEC : Q := 1000.

(** [v / SAMPLE_HISTORY_REQUEST_MULTIPLIER_TO_SEC]; a bool is an int.  The
    quotient is exact here.  The code divides by the float [1000.0]: its
    quotient is rounded, and the division raises [OverflowError] for an
    integer too large for a float.  Nothing below is stated about the value
    of a timestamp or about the order of two timestamps. *)
Definition to_sec (v : json) : res Q :=
  match v with
  | JInt z => Ok (inject_Z z / SAMPLE_HISTORY_REQUEST_MULTIPLIER_TO_SEC)%Q
  | JBool b =>
      Ok (inject_Z (if b then 1 else 0)
          / SAMPLE_HISTORY_REQUEST_MULTIPLIER_TO_SEC)%Q
  | _ => Raise TypeError
  end.

(** [n + v] for an int [n]. *)
Definition int_add (n : Z) (v : json) : res Z :=
  match v with
  | JInt z => Ok (n + z)%Z
  | JBool b => Ok (n + (if b then 1 else 0))%Z
  | _ => Raise TypeError
  end.

(** [str(v)] of an id: a string is itself, an integer its decimal digits.
    The other shapes have no modelled [str]. *)
Definition py_str (v : json) : option string :=
  match v with
  | JStr s => Some s
  | JInt z => Some (pretty z)
  | JNull => Some "None"
  | JBool b => Some (if b then "True" else "False")
  | _ => None
  end.

(** [s.split(':', 1)[0]] *)
Fixpoint before_colon (s : string) : string :=
  match s with
  | EmptyString => EmptyString
  | String a rest =>
      if bool_decide (a = ":"%char) then EmptyString
      else String a (before_colon rest)
  end.

(** A websocket frame as the callback sees it: [None] when the connection
    closed, else a text that [json.loads] rejects or parses. *)
Inductive frame : Type :=
| FClosed
| FMalformed (raw : string)
| FJson (msg : json).

(** ** Sensor samples *)

Inductive sample : Type :=
| SensorSample (timestamp : Q) (value status : json)
| SensorSampleValueTs (timestamp value_timestamp : Q) (value status : json).

Definition sample_timestamp (s : sample) : Q :=
  match s with
  | SensorSample t _ _ => t
  | SensorSampleValueTs t _ _ _ => t
  end.

(** An argument that receives a bool from one caller and a number of
    seconds from another. *)
Inductive pynum : Type :=
| PyBool (b : bool)
| PyNum (q : Q).

Definition pynum_truthy (v : pynum) : bool :=
  match v with
  | PyBool b => b
  | PyNum q => negb (Qeq_bool q 0)
  end.

(** The per-query [state] dict of [sensor_history]. *)
Record history_state : Type := mkHistoryState {
  sensor : string;
  done_event : bool;
  num_samples_pending : Z;
  include_value_ts : pynum;
  samples : list sample
}.

Definition MAX_SAMPLES_PER_HISTORY_QUERY : Z := 1000000.
Definition SAMPLE_HISTORY_CHUNK_SIZE : Z := 43200.
Definition WS_RECONNECT_INTERVAL : Z := 15.

(** The query string of the request for the samples. *)
Record history_params : Type := mkHistoryParams {
  p_sensor : string;
  p_time_type : string;
  p_start : Q;
  p_end : Q;
  p_namespace : string;
  p_request_in_chunks : Z;
  p_chunk_size : Z;
  p_limit : Z
}.

(** ** The client *)

(** A future of [_send]: unresolved, or holding a result or an exception. *)
Inductive future_state : Type :=
| FPending
| FResult (v : json)
| FException (e : exn).

(** What [write_message] is given: a serialised request or the heart beat. *)
Inductive wire_text : Type :=
| WRequest (req : JSONRPCRequest)
| WPing.

(** The argument of the update callback: the text of a frame that could not
    be parsed, or a parsed value. *)
Inductive update : Type :=
| UpdRaw (raw : string)
| UpdJson (v : json).

(** The calls of the logger. *)
Inductive log_record : Type :=
| LogConnecting
| LogReconnected
| LogCouldNotConnect
| LogRetryingConnection
| LogFailedToConnect
| LogClearedCache
| LogDisconnected
| LogResending (req : JSONRPCRequest)
| LogResent (result : json)
| LogServerDisconnected
| LogMessageReceived (msg : json)
| LogErrorProcessing
| LogIgnoringMessage
| LogIgnoringUnexpected (msg_result : json)
| LogNoMatchingPending (msg : json)
| LogFailedToSend
| LogHistoryRequest
| LogHistoryDone (fetched : nat)
| LogMaxSampleLimit
| LogPingOnClosed.

Record client : Type := mkClient {
  _ws : option nat;  (* the open websocket connection, [None] when there is none *)
  _ws_connecting_lock : bool;  (* is the lock of [_connect] held? *)
  _on_update : bool;  (* was an [on_update_callback] given? *)
  _pending_requests : gmap string nat;  (* request id to future *)
  futures : list future_state;  (* the futures made by [_send], by reference *)
  _sensor_history_states : gmap string history_state;  (* namespace to state *)
  _disconnect_issued : bool;
  _ws_jsonrpc_cache : list JSONRPCRequest;
  _heart_beat_timer : bool;  (* is the periodic callback running? *)
  written : list (nat * wire_text);  (* [write_message] calls, oldest first *)
  closed : list nat;  (* connections closed by the client *)
  updates : list update;  (* calls of the update callback put on the IOLoop *)
  call_later : list Z;  (* delays of the [_connect(True)] retries put on the IOLoop *)
  fetched : list history_params;  (* requests for samples, oldest first *)
  log : list log_record  (* oldest first *)
}.

(** Assignment to one field. *)
Definition set_ws (v : option nat) (c : client) : client :=
  mkClient v (_ws_connecting_lock c) (_on_update c) (_pending_requests c) (futures c) (_sensor_history_states c) (_disconnect_issued c) (_ws_jsonrpc_cache c) (_heart_beat_timer c) (written c) (closed c) (updates c) (call_later c) (fetched c) (log c).
Definition set_ws_connecting_lock (v : bool) (c : client) : client :=
  mkClient (_ws c) v (_on_update c) (_pending_requests c) (futures c) (_sensor_history_states c) (_disconnect_issued c) (_ws_jsonrpc_cache c) (_heart_beat_timer c) (written c) (closed c) (updates c) (call_later c) (fetched c) (log c).
Definition set_on_update (v : bool) (c : client) : client :=
  mkClient (_ws c) (_ws_connecting_lock c) v (_pending_requests c) (futures c) (_sensor_history_states c) (_disconnect_issued c) (_ws_jsonrpc_cache c) (_heart_beat_timer c) (written c) (closed c) (updates c) (call_later c) (fetched c) (log c).
Definition set_pending_requests (v : gmap string nat) (c : client) : client :=
  mkClient (_ws c) (_ws_connecting_lock c) (_on_update c) v (futures c) (_sensor_history_states c) (_disconnect_issued c) (_ws_jsonrpc_cache c) (_heart_beat_timer c) (written c) (closed c) (updates c) (call_later c) (fetched c) (log c).
Definition set_futures (v : list future_state) (c : client) : client :=
  mkClient (_ws c) (_ws_connecting_lock c) (_on_update c) (_pending_requests c) v (_sensor_history_states c) (_disconnect_issued c) (_ws_jsonrpc_cache c) (_heart_beat_timer c) (written c) (closed c) (updates c) (call_later c) (fetched c) (log c).
Definition set_sensor_history_states (v : gmap string history_state) (c : client) : client :=
  mkClient (_ws c) (_ws_connecting_lock c) (_on_update c) (_pending_requests c) (futures c) v (_disconnect_issued c) (_ws_jsonrpc_cache c) (_heart_beat_timer c) (written c) (closed c) (updates c) (call_later c) (fetched c) (log c).
Definition set_disconnect_issued (v : bool) (c : client) : client :=
  mkClient (_ws c) (_ws_connecting_lock c) (_on_update c) (_pending_requests c) (futures c) (_sensor_history_states c) v (_ws_jsonrpc_cache c) (_heart_beat_timer c) (written c) (closed c) (updates c) (call_later c) (fetched c) (log c).
Definition set_ws_jsonrpc_cache (v : list JSONRPCRequest) (c : client) : client :=
  mkClient (_ws c) (_ws_connecting_lock c) (_on_update c) (_pending_requests c) (futures c) (_sensor_history_states c) (_disconnect_issued c) v (_heart_beat_timer c) (written c) (closed c) (updates c) (call_later c) (fetched c) (log c).
Definition set_heart_beat_timer (v : bool) (c : client) : client :=
  mkClient (_ws c) (_ws_connecting_lock c) (_on_update c) (_pending_requests c) (futures c) (_sensor_history_states c) (_disconnect_issued c) (_ws_jsonrpc_cache c) v (written c) (closed c) (updates c) (call_later c) (fetched c) (log c).
Definition set_written (v : list (nat * wire_text)) (c : client) : client :=
  mkClient (_ws c) (_ws_connecting_lock c) (_on_update c) (_pending_requests c) (futures c) (_sensor_history_states c) (_disconnect_issued c) (_ws_jsonrpc_cache c) (_heart_beat_timer c) v (closed c) (updates c) (call_later c) (fetched c) (log c).
Definition set_closed (v : list nat) (c : client) : client :=
  mkClient (_ws c) (_ws_connecting_lock c) (_on_update c) (_pending_requests c) (futures c) (_sensor_history_states c) (_disconnect_issued c) (_ws_jsonrpc_cache c) (_heart_beat_timer c) (written c) v (updates c) (call_later c) (fetched c) (log c).
Definition set_updates (v : list update) (c : client) : client :=
  mkClient (_ws c) (_ws_connecting_lock c) (_on_update c) (_pending_requests c) (futures c) (_sensor_history_states c) (_disconnect_issued c) (_ws_jsonrpc_cache c) (_heart_beat_timer c) (written c) (closed c) v (call_later c) (fetched c) (log c).
Definition set_call_later (v : list Z) (c : client) : client :=
  mkClient (_ws c) (_ws_connecting_lock c) (_on_update c) (_pending_requests c) (futures c) (_sensor_history_states c) (_disconnect_issued c) (_ws_jsonrpc_cache c) (_heart_beat_timer c) (written c) (closed c) (updates c) v (fetched c) (log c).
Definition set_fetched (v : list history_params) (c : client) : client :=
  mkClient (_ws c) (_ws_connecting_lock c) (_on_update c) (_pending_requests c) (futures c) (_sensor_history_states c) (_disconnect_issued c) (_ws_jsonrpc_cache c) (_heart_beat_timer c) (written c) (closed c) (updates c) (call_later c) v (log c).
Definition set_log (v : list log_record) (c : client) : client :=
  mkClient (_ws c) (_ws_connecting_lock c) (_on_update c) (_pending_requests c) (futures c) (_sensor_history_states c) (_disconnect_issued c) (_ws_jsonrpc_cache c) (_heart_beat_timer c) (written c) (closed c) (updates c) (call_later c) (fetched c) v.

Definition add_log (r : log_record) (c : client) : client :=
  set_log (log c ++ [r]) c.

(** [__init__] *)
Definition new_client (on_update_callback : bool) : client :=
  mkClient None false on_update_callback ∅ [] ∅ false [] false [] [] [] [] [] [].

Definition is_connected (c : client) : bool :=
  bool_decide (is_Some (_ws c)).

(** ** Sending and the table of pending requests *)

Definition not_connected_error : exn :=
  Exception "Failed to send request! Not connected.".

(** [_send]: the client afterwards and the future returned. *)
Definition _send (c : client) (req : JSONRPCRequest) : client * nat :=
  let future := length (futures c) in
  match _ws c with
  | Some conn =>
      let req_id := id req in
      let c := set_futures (futures c ++ [FPending]) c in
      let c := set_pending_requests (<[req_id := future]> (_pending_requests c)) c in
      let c := set_written (written c ++ [(conn, WRequest req)]) c in
      (c, future)
  | None =>
      let c := set_futures (futures c ++ [FException not_connected_error]) c in
      let c := add_log LogFailedToSend c in
      (c, future)
  end.

(** [future.set_result(v)]; the future keeps the last result it is given. *)
Definition set_result (future : nat) (v : json) (c : client) : client :=
  set_futures (<[future := FResult v]> (futures c)) c.

(** [_process_json_rpc_message].  It is a coroutine without a [yield] that
    its caller does not wait for: an exception inside ends it silently. *)
Definition _process_json_rpc_message (c : client) (msg : json)
    (msg_id : string) : client :=
  match _pending_requests c !! msg_id with
  | Some future =>
      match msg with
      | JObj fields =>
          let error := json_get fields "error" in
          let result := json_get fields "result" in
          if json_truthy error then set_result future error c
          else set_result future result c
      | _ => c
      end
  | None => add_log (LogNoMatchingPending msg) c
  end.

(** [_send_heart_beat] *)
Definition _send_heart_beat (c : client) : client :=
  match _ws c with
  | Some conn => set_written (written c ++ [(conn, WPing)]) c
  | None => add_log LogPingOnClosed c
  end.

(** [disconnect] *)
Definition disconnect (c : client) : client :=
  let c := if _heart_beat_timer c then set_heart_beat_timer false c else c in
  let c := set_disconnect_issued true c in
  let c := set_ws_jsonrpc_cache [] c in
  let c := add_log LogClearedCache c in
  match _ws c with
  | Some conn =>
      let c := set_closed (closed c ++ [conn]) c in
      let c := set_ws None c in
      add_log LogDisconnected c
  | None => c
  end.

(** ** Messages published through redis *)

(** One element of a [msg_data] list: a sample when it has six fields,
    nothing otherwise. *)
Definition convert_sample (include_value_ts : bool) (row : json)
    : res (option sample) :=
  do n <- json_len row;
  if bool_decide (n = 6%nat) then
    if include_value_ts then
      do f0 <- json_item row 0;
      do timestamp <- to_sec f0;
      do f1 <- json_item row 1;
      do value_timestamp <- to_sec f1;
      do value <- json_item row 3;
      do status <- json_item row 5;
      Ok (Some (SensorSampleValueTs timestamp value_timestamp value status))
    else
      do f0 <- json_item row 0;
      do timestamp <- to_sec f0;
      do value <- json_item row 3;
      do status <- json_item row 5;
      Ok (Some (SensorSample timestamp value status))
  else Ok None.

(** The loop over [msg_data]: the samples of the state and [num_received]
    when the loop ends, or the exception that ends it. *)
Fixpoint receive_samples (include_value_ts : bool) (msg_data : list json)
    (acc : list sample) (num_received : Z) : list sample * res Z :=
  match msg_data with
  | [] => (acc, Ok num_received)
  | s :: rest =>
      match convert_sample include_value_ts s with
      | Raise e => (acc, Raise e)
      | Ok None => receive_samples include_value_ts rest acc num_received
      | Ok (Some x) =>
          receive_samples include_value_ts rest (acc ++ [x]) (num_received + 1)
      end
  end.

Definition set_samples (l : list sample) (st : history_state) : history_state :=
  mkHistoryState (sensor st) (done_event st) (num_samples_pending st)
                 (include_value_ts st) l.

Definition set_num_samples_pending (n : Z) (st : history_state) : history_state :=
  mkHistoryState (sensor st) (done_event st) n (include_value_ts st)
                 (samples st).

Definition set_done_event (st : history_state) : history_state :=
  mkHistoryState (sensor st) true (num_samples_pending st)
                 (include_value_ts st) (samples st).

(** The inform message with the synchronisation information. *)
Definition receive_inform (st : history_state) (msg_data : json)
    : history_state :=
  match
    (do inform <- json_getitem msg_data "inform_data";
     do num_new_samples <- json_getitem inform "num_samples_to_be_published";
     do pending <- int_add (num_samples_pending st) num_new_samples;
     Ok (inform, pending))
  with
  | Raise _ => st
  | Ok (inform, pending) =>
      let st := set_num_samples_pending pending st in
      match json_getitem inform "done" with
      | Raise _ => st
      | Ok done => if json_truthy done then set_done_event st else st
      end
  end.

(** The body of [if namespace in self._sensor_history_states]: the state
    afterwards, and the warning when the message is neither kind. *)
Definition receive_history (st : history_state) (msg_data : json)
    : history_state * bool :=
  match msg_data with
  | JObj fields =>
      if bool_decide (is_Some (assoc "inform_type" fields)) &&
         is_json_str "sample_history" (json_get fields "inform_type")
      then (receive_inform st msg_data, false)
      else (st, true)
  | JArr items =>
      match receive_samples (pynum_truthy (include_value_ts st)) items
                            (samples st) 0 with
      | (acc, Raise _) => (set_samples acc st, false)
      | (acc, Ok num_received) =>
          (set_num_samples_pending (num_samples_pending st - num_received)
             (set_samples acc st), false)
      end
  | _ => (st, true)
  end.

(** [if not processed:] *)
Definition not_processed (c : client) (msg_result : json) : client :=
  if _on_update c then set_updates (updates c ++ [UpdJson msg_result]) c
  else add_log LogIgnoringMessage c.

(** [_process_redis_message].  Like [_process_json_rpc_message] it is a
    coroutine that nobody waits for: where an exception ends it the client
    is left as it is at that point, [processed] is not assigned and
    nothing follows. *)
Definition _process_redis_message (c : client) (msg : json) (msg_id : string)
    : client :=
  match json_getitem msg "result" with
  | Raise _ => c
  | Ok msg_result =>
      if bool_decide (msg_id = "redis-pubsub-init") then c
      else
        match json_contains "msg_channel" msg_result with
        | Raise _ => c
        | Ok false => not_processed c msg_result
        | Ok true =>
            match json_getitem msg_result "msg_channel" with
            | Ok (JStr channel) =>
                let namespace := before_colon channel in
                match _sensor_history_states c !! namespace with
                | None => not_processed c msg_result
                | Some state =>
                    match json_getitem msg_result "msg_data" with
                    | Raise _ => c
                    | Ok msg_data =>
                        let '(state', warn) := receive_history state msg_data in
                        let c := set_sensor_history_states
                                   (<[namespace := state']>
                                      (_sensor_history_states c)) c in
                        if warn then add_log (LogIgnoringUnexpected msg_result) c
                        else c
                    end
                end
            | _ => c
            end
        end
  end.

(** ** Coroutines *)

(** How a run of a coroutine ends: it returns, it raises, or it is still
    suspended when the run that is described ends. *)
Inductive outcome (A : Type) : Type :=
| Returned (a : A)
| Raised (e : exn)
| Suspended.
Arguments Returned {A} a.
Arguments Raised {A} e.
Arguments Suspended {A}.

(** What runs on the IOLoop while a coroutine is suspended: the websocket
    delivers a frame, or the application calls [disconnect]. *)
Inductive event : Type :=
| EvFrame (msg : frame)
| EvDisconnect.

(** [except Exception:] of [_websocket_message], with the value of [msg]
    at the time. *)
Definition on_exception (c : client) (msg : update) : client :=
  let c := add_log LogErrorProcessing c in
  if _on_update c then set_updates (updates c ++ [msg]) c
  else add_log LogIgnoringMessage c.

(** The body of [_websocket_message], given how its two inner coroutines
    run: [reconnect] for [self._connect(reconnecting=True)] and [resend] for
    [self._resend_subscriptions()].  The result is [None] where the model
    stops: the id is a list or a dict, whose [str] is not modelled, or an
    inner coroutine is not described. *)
Definition websocket_message_with
    (reconnect resend : client -> option (client * outcome unit))
    (c : client) (msg : frame) : option (client * outcome unit) :=
  match msg with
  | FClosed =>
      let c := add_log LogServerDisconnected c in
      if _disconnect_issued c then Some (c, Returned tt)
      else
        let c := match _ws c with
                 | Some conn => set_ws None (set_closed (closed c ++ [conn]) c)
                 | None => c
                 end in
        reconnect c
  | FMalformed raw => Some (on_exception c (UpdRaw raw), Returned tt)
  | FJson msg =>
      let c := add_log (LogMessageReceived msg) c in
      match json_getitem msg "id" with
      | Raise _ => Some (on_exception c (UpdJson msg), Returned tt)
      | Ok v =>
          match py_str v with
          | None => None
          | Some msg_id =>
              if String.prefix "redis-pubsub" msg_id then
                Some (_process_redis_message c msg msg_id, Returned tt)
              else if String.prefix "redis-reconnect" msg_id then
                match resend c with
                | Some (c, Raised _) =>
                    Some (on_exception c (UpdJson msg), Returned tt)
                | r => r
                end
              else Some (_process_json_rpc_message c msg msg_id, Returned tt)
          end
      end
  end.

(** An event between two steps of a suspended coroutine.  A frame whose
    handler starts a coroutine of its own, a reconnect or a resend of the
    subscriptions, is where the description of a run stops. *)
Definition handle_event (c : client) (ev : event) : option client :=
  match ev with
  | EvFrame msg =>
      match websocket_message_with (fun _ => None) (fun _ => None) c msg with
      | Some (c', Returned _) => Some c'
      | _ => None
      end
  | EvDisconnect => Some (disconnect c)
  end.

Definition future_outcome (c : client) (future : nat) : outcome json :=
  match futures c !! future with
  | Some (FResult v) => Returned v
  | Some (FException e) => Raised e
  | _ => Suspended
  end.

(** The events that run before the coroutine is resumed. *)
Fixpoint run_events (c : client) (events : list event)
    : client * bool :=
  match events with
  | [] => (c, true)
  | ev :: rest =>
      match handle_event c ev with
      | Some c' => run_events c' rest
      | None => (c, false)
      end
  end.

(** [yield future]: a future that is done resumes the coroutine at once;
    otherwise the events run, and the coroutine resumes with what the
    future holds then. *)
Definition await (c : client) (future : nat) (events : list event)
    : client * outcome json :=
  match future_outcome c future with
  | Suspended =>
      match run_events c events with
      | (c', true) => (c', future_outcome c' future)
      | (c', false) => (c', Suspended)
      end
  | done => (c, done)
  end.

(** The loop of [_resend_subscriptions_and_strategies] over the requests
    [reqs]; [script] has the events of each [yield] in turn. *)
Fixpoint resend (reqs : list JSONRPCRequest) (script : list (list event))
    (c : client) : client * outcome unit :=
  match reqs with
  | [] => (c, Returned tt)
  | req :: rest =>
      let c := add_log (LogResending req) c in
      let '(c, future) := _send c req in
      match await c future (hd [] script) with
      | (c, Returned result) =>
          resend rest (tl script) (add_log (LogResent result) c)
      | (c, Raised e) => (c, Raised e)
      | (c, Suspended) => (c, Suspended)
      end
  end.

Definition _resend_subscriptions_and_strategies (script : list (list event))
    (c : client) : client * outcome unit :=
  resend (_ws_jsonrpc_cache c) script c.

Definition _resend_subscriptions (script : list (list event)) (c : client)
    : client * outcome unit :=
  resend (filter (fun req => method req = "subscribe") (_ws_jsonrpc_cache c))
         script c.

(** [except Exception:] of [_connect] *)
Definition connect_failed (reconnecting : bool) (c : client) : client :=
  let c := add_log LogCouldNotConnect c in
  if reconnecting then
    let c := add_log LogRetryingConnection c in
    set_call_later (call_later c ++ [WS_RECONNECT_INTERVAL]) c
  else c.

(** [_connect].  [connect_result] is what [websocket_connect] gives when it
    is called: a connection, or [None] for an exception; nothing else runs
    while it is awaited.  [script] has the events of the resend.  The URL,
    [self.sitemap['websocket']], is taken to be at hand: the client has its
    sitemap, whose request is modelled apart, in [sitemap] below. *)
Definition _connect (reconnecting : bool) (connect_result : option nat)
    (script : list (list event)) (c : client) : client * outcome unit :=
  if _ws_connecting_lock c then (c, Suspended)
  else
    let c := set_disconnect_issued false c in
    if is_connected c then (c, Returned tt)
    else
      let c := add_log LogConnecting c in
      let c := if _heart_beat_timer c then set_heart_beat_timer false c
               else c in
      let '(c, r) :=
        match connect_result with
        | None => (connect_failed reconnecting c, Returned tt)
        | Some conn =>
            let c := set_ws (Some conn) c in
            if reconnecting then
              match _resend_subscriptions_and_strategies script
                      (set_ws_connecting_lock true c) with
              | (c, Returned _) =>
                  let c := set_ws_connecting_lock false c in
                  let c := add_log LogReconnected c in
                  (set_heart_beat_timer true c, Returned tt)
              | (c, Raised _) =>
                  (connect_failed reconnecting (set_ws_connecting_lock false c),
                   Returned tt)
              | (c, Suspended) => (c, Suspended)
              end
            else (set_heart_beat_timer true c, Returned tt)
        end in
      match r with
      | Returned _ =>
          if negb (is_connected c) && negb reconnecting
          then (add_log LogFailedToConnect c, Returned tt)
          else (c, Returned tt)
      | _ => (c, r)
      end.

Definition connect (connect_result : option nat) (c : client)
    : client * outcome unit :=
  _connect false connect_result [] c.

(** What the environment does during a reconnect. *)
Record reconnect_oracle : Type := mkReconnectOracle {
  connect_result : option nat;
  resend_script : list (list event)
}.

(** [_websocket_message], the callback of the websocket. *)
Definition _websocket_message (o : reconnect_oracle) (c : client)
    (msg : frame) : option (client * outcome unit) :=
  websocket_message_with
    (fun c => Some (_connect true (connect_result o) (resend_script o) c))
    (fun c => Some (_resend_subscriptions (resend_script o) c))
    c msg.

(** ** Subscriptions and sampling strategies *)

(** The common body of [subscribe], [unsubscribe], [set_sampling_strategy]
    and [set_sampling_strategies]: send, wait for the result, cache. *)
Definition send_and_cache (req : JSONRPCRequest) (events : list event)
    (c : client) : client * outcome json :=
  let '(c, future) := _send c req in
  match await c future events with
  | (c, Returned result) =>
      match Ledger._cache_jsonrpc_request (_ws_jsonrpc_cache c) req with
      | Ok cache => (set_ws_jsonrpc_cache cache c, Returned result)
      | Raise e => (c, Raised e)
      end
  | r => r
  end.

(** In each of them [req_id] is the id that the constructor of
    [JSONRPCRequest] draws. *)
Definition subscribe (namespace : string) (sub_strings : pyval)
    (req_id : string) (events : list event) (c : client)
    : client * outcome json :=
  send_and_cache (mkRequest req_id "subscribe" [PStr namespace; sub_strings])
                 events c.

Definition unsubscribe (namespace : string) (unsub_strings : pyval)
    (req_id : string) (events : list event) (c : client)
    : client * outcome json :=
  send_and_cache
    (mkRequest req_id "unsubscribe" [PStr namespace; unsub_strings]) events c.

Definition set_sampling_strategy (namespace sensor_name : string)
    (strategy_and_params : string) (persist_to_redis : bool)
    (req_id : string) (events : list event) (c : client)
    : client * outcome json :=
  send_and_cache
    (mkRequest req_id "set_sampling_strategy"
       [PStr namespace; PStr sensor_name; PStr strategy_and_params;
        PBool persist_to_redis]) events c.

Definition set_sampling_strategies (namespace : string) (filters : pyval)
    (strategy_and_params : string) (persist_to_redis : bool)
    (req_id : string) (events : list event) (c : client)
    : client * outcome json :=
  send_and_cache
    (mkRequest req_id "set_sampling_strategies"
       [PStr namespace; filters; PStr strategy_and_params;
        PBool persist_to_redis]) events c.

(** ** Sensor histories *)

(** [sorted(samples, key=sort_by_timestamp)], on the exact timestamps of
    [to_sec].  The keys of the code are floats, and with a key that is not
    a number [sorted] gives no order; so nothing below is stated about the
    order of the result, only about the samples in it. *)
Fixpoint insert_sample (x : sample) (l : list sample) : list sample :=
  match l with
  | [] => [x]
  | y :: rest =>
      if Qle_bool (sample_timestamp x) (sample_timestamp y) then x :: l
      else y :: insert_sample x rest
  end.

Definition sorted_by_timestamp (l : list sample) : list sample :=
  foldr insert_sample [] l.

(** What the environment does during one [sensor_history] call. *)
Record history_oracle : Type := mkHistoryOracle {
  h_namespace : string;                  (* [str(uuid.uuid4())] *)
  h_connect_result : option nat;
  h_subscribe_id : string;
  h_subscribe_events : list event;
  h_fetch_events : list event;           (* while the HTTP request runs *)
  h_fetch_result : res json;             (* [json.loads(response.body)] *)
  h_download_events : list (Q * event);  (* with the seconds since the wait
                                            for [done_event] began *)
  h_unsubscribe_id : string;
  h_unsubscribe_events : list event
}.

Definition is_done (c : client) (namespace : string) : bool :=
  match _sensor_history_states c !! namespace with
  | Some state => done_event state
  | None => false
  end.

Inductive wait_result : Type :=
| Woken
| TimedOut
| StillWaiting.

(** [yield state['done_event'].wait(timeout=timeout_delta)]: an event that
    is set resumes the coroutine at once.  Otherwise the events run in
    turn; the wait times out when the event is not set and the next thing
    to happen is at or after the timeout, or nothing happens any more. *)
Fixpoint wait_events (c : client) (namespace : string) (timeout_sec : Q)
    (events : list (Q * event)) : client * wait_result :=
  match events with
  | [] => (c, if is_done c namespace then Woken else TimedOut)
  | (t, ev) :: rest =>
      if negb (is_done c namespace) && Qle_bool timeout_sec t
      then (c, TimedOut)
      else
        match handle_event c ev with
        | Some c' => wait_events c' namespace timeout_sec rest
        | None => (c, StillWaiting)
        end
  end.

Definition wait_done (c : client) (namespace : string) (timeout_sec : Q)
    (events : list (Q * event)) : client * wait_result :=
  if is_done c namespace then (c, Woken)
  else wait_events c namespace timeout_sec events.

(** [isinstance(data, dict) and data['result'] == 'success'] *)
Definition request_accepted (data : json) : res bool :=
  match data with
  | JObj _ =>
      do result <- json_getitem data "result";
      Ok (is_json_str "success" result)
  | _ => Ok false
  end.

Definition timed_out_error : exn :=
  SensorHistoryRequestError "Sensor history request timed out".

(** The message of this one goes on with the body of the response. *)
Definition request_error : exn :=
  SensorHistoryRequestError "Error requesting sensor history".

(** The end of [sensor_history], from [sort_by_timestamp] on. *)
Definition history_finish (namespace : string) (o : history_oracle)
    (c : client) : client * outcome (list sample) :=
  let result :=
    sorted_by_timestamp
      (match _sensor_history_states c !! namespace with
       | Some state => samples state
       | None => []
       end) in
  let c := if (MAX_SAMPLES_PER_HISTORY_QUERY <=? Z.of_nat (length result))%Z
           then add_log LogMaxSampleLimit c else c in
  match unsubscribe namespace (PStrs ["*"]) (h_unsubscribe_id o)
                    (h_unsubscribe_events o) c with
  | (c, Returned _) =>
      (set_sensor_history_states (delete namespace (_sensor_history_states c)) c,
       Returned result)
  | (c, Raised e) => (c, Raised e)
  | (c, Suspended) => (c, Suspended)
  end.

(** The part of [sensor_history] from the HTTP request to the end of the
    wait for [done_event]. *)
Definition history_download (sensor_name : string)
    (start_time_sec end_time_sec timeout_sec : Q) (o : history_oracle)
    (c : client) : client * outcome (list sample) :=
  let namespace := h_namespace o in
  let params :=
    mkHistoryParams sensor_name "ms"
      (start_time_sec * SAMPLE_HISTORY_REQUEST_MULTIPLIER_TO_SEC)%Q
      (end_time_sec * SAMPLE_HISTORY_REQUEST_MULTIPLIER_TO_SEC)%Q
      namespace 1 SAMPLE_HISTORY_CHUNK_SIZE MAX_SAMPLES_PER_HISTORY_QUERY in
  let c := set_fetched (fetched c ++ [params]) c in
  let c := add_log LogHistoryRequest c in
  match run_events c (h_fetch_events o) with
  | (c, false) => (c, Suspended)
  | (c, true) =>
      match res_bind (h_fetch_result o) request_accepted with
      | Raise e => (c, Raised e)
      | Ok false => (c, Raised request_error)
      | Ok true =>
          match wait_done c namespace timeout_sec (h_download_events o) with
          | (c, Woken) =>
              let fetched_samples :=
                match _sensor_history_states c !! namespace with
                | Some state => length (samples state)
                | None => 0%nat
                end in
              history_finish namespace o (add_log (LogHistoryDone fetched_samples) c)
          | (c, TimedOut) => (c, Raised timed_out_error)
          | (c, StillWaiting) => (c, Suspended)
          end
      end
  end.

Definition default_timeout_sec : Q := 300.

(** [sensor_history] *)
Definition sensor_history (sensor_name : string)
    (start_time_sec end_time_sec : Q) (include_value_ts : pynum)
    (timeout_sec : Q) (o : history_oracle) (c : client)
    : client * outcome (list sample) :=
  let state := mkHistoryState sensor_name false 0 include_value_ts [] in
  let namespace := h_namespace o in
  let c := set_sensor_history_states
             (<[namespace := state]> (_sensor_history_states c)) c in
  match connect (h_connect_result o) c with
  | (c, Returned _) =>
      match subscribe namespace (PStrs ["*"]) (h_subscribe_id o)
                      (h_subscribe_events o) c with
      | (c, Returned _) =>
          history_download sensor_name start_time_sec end_time_sec
                           timeout_sec o c
      | (c, Raised e) => (c, Raised e)
      | (c, Suspended) => (c, Suspended)
      end
  | (c, Raised e) => (c, Raised e)
  | (c, Suspended) => (c, Suspended)
  end.

(** What the environment does during one [sensors_histories] call:
    the clock when the call starts, the result of [sensor_names], and for
    each sensor the clock at the top of the loop and the call of
    [sensor_history]. *)
Record histories_oracle : Type := mkHistoriesOracle {
  request_start_sec : Q;
  sensor_names_result : res (list string);
  per_sensor : list (Q * history_oracle)
}.

(** The loop of [sensors_histories]; the call passes four positional
    arguments, so [timeout_left_sec] is the fourth parameter of
    [sensor_history] and its fifth takes the default. *)
Fixpoint histories_loop (sensors : list string)
    (start_time_sec end_time_sec timeout_sec request_start_sec : Q)
    (runs : list (Q * history_oracle)) (histories : gmap string (list sample))
    (c : client) : client * outcome (gmap string (list sample)) :=
  match sensors with
  | [] => (c, Returned histories)
  | sensor :: rest =>
      match runs with
      | [] => (c, Suspended)
      | (now, o) :: runs' =>
          let elapsed_time_sec := (now - request_start_sec)%Q in
          let timeout_left_sec := (timeout_sec - elapsed_time_sec)%Q in
          match sensor_history sensor start_time_sec end_time_sec
                  (PyNum timeout_left_sec) default_timeout_sec o c with
          | (c, Returned history) =>
              histories_loop rest start_time_sec end_time_sec timeout_sec
                request_start_sec runs' (<[sensor := history]> histories) c
          | (c, Raised e) => (c, Raised e)
          | (c, Suspended) => (c, Suspended)
          end
      end
  end.

(** [sensors_histories].  The names that [sensor_names(filters)] finds are
    in the oracle; the body has no use for [include_value_ts]. *)
Definition sensors_histories (filters : pyval)
    (start_time_sec end_time_sec : Q)
    (include_value_ts : bool) (timeout_sec : Q) (o : histories_oracle)
    (c : client) : client * outcome (gmap string (list sample)) :=
  match sensor_names_result o with
  | Raise e => (c, Raised e)
  | Ok sensors =>
      histories_loop sensors start_time_sec end_time_sec timeout_sec
        (request_start_sec o) (per_sensor o) ∅ c
  end.

(** The loop as the documentation of [sensors_histories] has it: each
    sensor is asked with the flag of the caller and the time that is left. *)
Fixpoint histories_loop_documented (sensors : list string)
    (start_time_sec end_time_sec : Q) (include_value_ts : bool)
    (timeout_sec request_start_sec : Q)
    (runs : list (Q * history_oracle)) (histories : gmap string (list sample))
    (c : client) : client * outcome (gmap string (list sample)) :=
  match sensors with
  | [] => (c, Returned histories)
  | sensor :: rest =>
      match runs with
      | [] => (c, Suspended)
      | (now, o) :: runs' =>
          let timeout_left_sec := (timeout_sec - (now - request_start_sec))%Q in
          match sensor_history sensor start_time_sec end_time_sec
                  (PyBool include_value_ts) timeout_left_sec o c with
          | (c, Returned history) =>
              histories_loop_documented rest start_time_sec end_time_sec
                include_value_ts timeout_sec request_start_sec runs'
                (<[sensor := history]> histories) c
          | (c, Raised e) => (c, Raised e)
          | (c, Suspended) => (c, Suspended)
          end
      end
  end.

Definition sensors_histories_documented (filters : pyval)
    (start_time_sec end_time_sec : Q)
    (include_value_ts : bool) (timeout_sec : Q) (o : histories_oracle)
    (c : client) : client * outcome (gmap string (list sample)) :=
  match sensor_names_result o with
  | Raise e => (c, Raised e)
  | Ok sensors =>
      histories_loop_documented sensors start_time_sec end_time_sec
        include_value_ts timeout_sec (request_start_sec o) (per_sensor o) ∅ c
  end.

(** ** Other requests *)

(** [add]; the two arguments go into the request as they are. *)
Definition add (x y : pyval) (req_id : string) (events : list event)
    (c : client) : client * outcome json :=
  let '(c, future) := _send c (mkRequest req_id "add" [x; y]) in
  await c future events.

(** ** The sitemap *)

(** [s.lower()] of a byte string. *)
Definition ascii_lower (a : ascii) : ascii :=
  let n := N_of_ascii a in
  if ((65 <=? n) && (n <=? 90))%N then ascii_of_N (n + 32) else a.

Fixpoint lower (s : string) : string :=
  match s with
  | EmptyString => EmptyString
  | String a rest => String (ascii_lower a) (lower rest)
  end.

(** What [json.loads] makes of the body of a response. *)
Inductive http_body : Type :=
| Unparsable
| Parsed (v : json).

(** The [result] dict that [_get_sitemap] starts from. *)
Definition sitemap_defaults : gmap string json :=
  list_to_map [("authorization", JStr ""); ("websocket", JStr "");
               ("historic_sensor_values", JStr ""); ("schedule_blocks", JStr "");
               ("sub_nr", JStr ""); ("subarray_sensor_values", JStr "");
               ("target_descriptions", JStr "")].

(** [d.update(v)].  A dict overwrites and adds its items; a value that
    cannot be iterated raises [TypeError], and a string that is not empty
    [ValueError], for its elements are not pairs.  The result is [None]
    for a list with elements, whose pairs are not modelled. *)
Definition dict_update (d : gmap string json) (v : json)
    : option (res (gmap string json)) :=
  match v with
  | JObj fields => Some (Ok (foldr (fun kv m => <[kv.1 := kv.2]> m) d fields))
  | JStr s => Some (if bool_decide (s = "") then Ok d else Raise ValueError)
  | JArr [] => Some (Ok d)
  | JArr (_ :: _) => None
  | JNull | JBool _ | JInt _ => Some (Raise TypeError)
  end.

(** [url.lower().startswith('http://') or url.lower().startswith('https://')] *)
Definition is_http (url : string) : bool :=
  String.prefix "http://" (lower url) || String.prefix "https://" (lower url).

(** [_get_sitemap].  [fetch] is what [http_client.fetch(url)] followed by
    [json.loads] gives when it is called; a body that [json.loads] rejects
    with [JSONError] is [Unparsable].  The result has the URLs that were
    fetched, and the sitemap or the exception that leaves the method; it is
    [None] where [dict_update] is. *)
Definition _get_sitemap (fetch : string -> res http_body) (url : string)
    : list string * option (res (gmap string json)) :=
  let result := sitemap_defaults in
  if is_http url then
    ([url],
     match fetch url with
     | Raise HTTPError | Raise KeyError => Some (Ok result)
     | Raise e => Some (Raise e)
     | Ok Unparsable => Some (Ok result)
     | Ok (Parsed response) =>
         match json_getitem response "client" with
         | Raise KeyError => Some (Ok result)
         | Raise e => Some (Raise e)
         | Ok client => dict_update result client
         end
     end)
  else ([], Some (Ok (<["websocket" := JStr url]> result))).

(** The fields of the client that the [sitemap] property uses, and the
    URLs that have been fetched, oldest first. *)
Record portal : Type := mkPortal {
  _url : string;
  _sitemap : option (gmap string json);
  requests : list string
}.

(** The [sitemap] property; [if not self._sitemap] takes an empty dict for
    [None]. *)
Definition sitemap (fetch : string -> res http_body) (p : portal)
    : portal * option (res (gmap string json)) :=
  match _sitemap p with
  | Some m =>
      if bool_decide (m = ∅) then
        let '(urls, r) := _get_sitemap fetch (_url p) in
        match r with
        | Some (Ok m') => (mkPortal (_url p) (Some m') (requests p ++ urls), r)
        | _ => (mkPortal (_url p) (_sitemap p) (requests p ++ urls), r)
        end
      else (p, Some (Ok m))
  | None =>
      let '(urls, r) := _get_sitemap fetch (_url p) in
      match r with
      | Some (Ok m') => (mkPortal (_url p) (Some m') (requests p ++ urls), r)
      | _ => (mkPortal (_url p) (_sitemap p) (requests p ++ urls), r)
      end
  end.

(** ** Schedule blocks *)

(** [v == n] for an int [n]; a bool is an int. *)
Definition json_eq_int (v : json) (n : Z) : bool :=
  match v with
  | JInt z => (z =? n)%Z
  | JBool b => ((if b then 1 else 0) =? n)%Z
  | _ => false
  end.

(** [for x in v]: the elements of a list, the keys of a dict, the
    characters of a string.  The keys come in no order that is known; the
    loop below raises on the first element that is a string. *)
Definition json_iter (v : json) : res (list json) :=
  match v with
  | JArr items => Ok items
  | JObj fields => Ok (JStr <$> fields.*1)
  | JStr s =>
      Ok ((fun a => JStr (String a EmptyString)) <$> list_ascii_of_string s)
  | _ => Raise TypeError
  end.

(** The loop of [_extract_schedule_blocks]; [and] evaluates from the left. *)
Fixpoint schedule_blocks_loop (schedule_blocks : list json)
    (subarray_number : Z) (results : list json) : res (list json) :=
  match schedule_blocks with
  | [] => Ok results
  | schedule_block :: rest =>
      do sub_nr <- json_getitem schedule_block "sub_nr";
      do observation <-
        (if json_eq_int sub_nr subarray_number then
           do type <- json_getitem schedule_block "type";
           Ok (is_json_str "OBSERVATION" type)
         else Ok false);
      if observation : bool then
        do id_code <- json_getitem schedule_block "id_code";
        schedule_blocks_loop rest subarray_number (results ++ [id_code])
      else schedule_blocks_loop rest subarray_number results
  end.

(** [_extract_schedule_blocks]; [loads] is [json.loads], which is given the
    text of the response and then [data['result']], whatever that is. *)
Definition _extract_schedule_blocks (loads : json -> res json)
    (json_text : string) (subarray_number : Z) : res (list json) :=
  do data <- loads (JStr json_text);
  do result <- json_getitem data "result";
  if json_truthy result then
    do schedule_blocks <- loads result;
    do blocks <- json_iter schedule_blocks;
    schedule_blocks_loop blocks subarray_number []
  else Ok [].

(** ** Example data *)

(** What a response resolves its future with: the error when there is one,
    else the result. *)
Definition response_payload (fields : list (string * json)) : json :=
  if json_truthy (json_get fields "error") then json_get fields "error"
  else json_get fields "result".

(** An id that is neither a publication nor a notice that the portal has
    connected to redis again. *)
Definition plain_id (msg_id : string) : Prop :=
  String.prefix "redis-pubsub" msg_id = false /\
  String.prefix "redis-reconnect" msg_id = false.

Definition example_subscribe : JSONRPCRequest :=
  mkRequest "a1" "subscribe" [PStr "ns"; PStrs ["x"]].

Definition example_strategy : JSONRPCRequest :=
  mkRequest "a2" "set_sampling_strategy"
    [PStr "ns"; PStr "s"; PStr "period 1"; PBool false].

(** A client with an open connection and nothing else. *)
Definition connected_client : client :=
  set_ws (Some 1%nat) (new_client true).

Definition example_response : json :=
  JObj [("id", JStr "a1"); ("result", JInt 1)].

Definition example_error_response : json :=
  JObj [("id", JStr "a1");
        ("error", JObj [("code", JInt (-32601));
                        ("message", JStr "Method not found")])].

(** The client after a request has been sent on an open connection and its
    response has arrived. *)
Definition answered (c : client) (req : JSONRPCRequest)
    (fields : list (string * json)) : client :=
  set_result (length (futures c)) (response_payload fields)
    (add_log (LogMessageReceived (JObj fields)) (fst (_send c req))).

(** The frame that answers [req], with [fields] next to the id. *)
Definition response_to (req : JSONRPCRequest) (fields : list (string * json))
    : list (string * json) :=
  ("id", JStr (id req)) :: fields.

(** The script of a resend in which every request in turn gets its
    response, and nothing else happens. *)
Definition answers (reqs : list JSONRPCRequest)
    (payloads : list (list (string * json))) : list (list event) :=
  zip_with (fun req fields => [EvFrame (FJson (JObj (response_to req fields)))])
           reqs payloads.

(** The client after the requests have been resent and answered in turn. *)
Fixpoint resent (reqs : list JSONRPCRequest)
    (payloads : list (list (string * json))) (c : client) : client :=
  match reqs, payloads with
  | req :: reqs', fields :: payloads' =>
      resent reqs' payloads'
        (add_log (LogResent (response_payload (response_to req fields)))
           (answered (add_log (LogResending req) c) req
                     (response_to req fields)))
  | _, _ => c
  end.

(** A cache of three requests and a client connected with it. *)
Definition example_strategies : JSONRPCRequest :=
  mkRequest "a3" "set_sampling_strategies"
    [PStr "ns"; PStr "m063"; PStr "event"; PBool false].

Definition example_cache : list JSONRPCRequest :=
  [example_subscribe; example_strategy; example_strategies].

Definition subscribed_client : client :=
  set_heart_beat_timer true (set_ws_jsonrpc_cache example_cache connected_client).

(** A reconnect on connection 2 during which the application calls
    [disconnect] after the first response has arrived and before the
    resend goes on. *)
Definition disconnected_meanwhile : reconnect_oracle :=
  mkReconnectOracle (Some 2%nat)
    [[EvFrame (FJson example_response); EvDisconnect]].

(** A row of samples as the portal publishes it, and the message that
    carries rows to the namespace [ns]. *)
Definition example_row : json :=
  JArr [JInt 1476164224429; JInt 1476164223640; JInt 1476164224429354;
        JStr "5.07571614843"; JStr "anc_mean_wind_speed"; JStr "nominal"].

(** A message published on the channel [channel]. *)
Definition publication (channel : string) (msg_data : json) : json :=
  JObj [("id", JStr "redis-pubsub");
        ("result", JObj [("msg_channel", JStr channel);
                         ("msg_data", msg_data)])].

Definition samples_message (ns : string) (rows : list json) : json :=
  publication (ns ++ ":anc_mean_wind_speed") (JArr rows).

(** The inform message that announces [n] samples. *)
Definition inform_message (ns : string) (n : Z) (done : bool) : json :=
  publication (ns ++ ":anc_mean_wind_speed")
    (JObj [("inform_type", JStr "sample_history");
           ("inform_data",
            JObj [("num_samples_to_be_published", JInt n);
                  ("done", JBool done)])]).

(** A [sensor_history] call on the namespace ["ns-1"]: both requests are
    answered, the portal accepts the query, and the [download] events follow. *)
Definition history_run (download : list (Q * event)) : history_oracle :=
  mkHistoryOracle "ns-1" None
    "q1" [EvFrame (FJson (JObj [("id", JStr "q1"); ("result", JInt 1)]))]
    [] (Ok (JObj [("result", JStr "success")]))
    download
    "q2" [EvFrame (FJson (JObj [("id", JStr "q2"); ("result", JInt 1)]))].

(** One row arrives after a second; the message with [done] arrives
    [late] seconds after the wait began. *)
Definition done_after (late : Q) : list (Q * event) :=
  [(1%Q, EvFrame (FJson (inform_message "ns-1" 1 false)));
   (2%Q, EvFrame (FJson (samples_message "ns-1" [example_row])));
   (late, EvFrame (FJson (inform_message "ns-1" 0 true)))].

Definition example_histories : histories_oracle :=
  mkHistoriesOracle 1000%Q (Ok ["anc_mean_wind_speed"])
    [(1002%Q, history_run (done_after 50%Q))].

Definition example_sample : sample :=
  SensorSample (1476164224429 # 1000) (JStr "5.07571614843") (JStr "nominal").

(** [n] rows arrive in one message, and then the message with [done]. *)
Definition flood (n : nat) : list (Q * event) :=
  [(1%Q, EvFrame (FJson (samples_message "ns-1" (repeat example_row n))));
   (2%Q, EvFrame (FJson (inform_message "ns-1" 0 true)))].

(** The client after a publication for a registered namespace. *)
Definition published (c : client) (namespace : string) (st : history_state)
    (channel : string) (msg_data : json) : client :=
  let c := add_log (LogMessageReceived (publication channel msg_data)) c in
  let c' := set_sensor_history_states
              (<[namespace := fst (receive_history st msg_data)]>
                 (_sensor_history_states c)) c in
  if snd (receive_history st msg_data)
  then add_log (LogIgnoringUnexpected
                  (JObj [("msg_channel", JStr channel);
                         ("msg_data", msg_data)])) c'
  else c'.

(** What the events and the waits leave as it is: the log only grows, the
    requests for samples and the writes to the websocket are the same, and
    every registered history state stays registered. *)
Definition steady (c c' : client) : Prop :=
  log c `prefix_of` log c' /\
  fetched c `prefix_of` fetched c' /\
  written c' = written c /\
  (forall ns, is_Some (_sensor_history_states c !! ns) ->
              is_Some (_sensor_history_states c' !! ns)) /\
  (forall future e, futures c' !! future = Some (FException e) ->
                    futures c !! future = Some (FException e)).

(** The same, but for the requests [reqs] written to the websocket. *)
Definition wrote (c c' : client) (reqs : list JSONRPCRequest) : Prop :=
  log c `prefix_of` log c' /\
  fetched c `prefix_of` fetched c' /\
  (snd <$> written c') = (snd <$> written c) ++ (WRequest <$> reqs) /\
  (forall ns, is_Some (_sensor_history_states c !! ns) ->
              is_Some (_sensor_history_states c' !! ns)).

(** The cache of the client is only ever changed by recording a request
    and by [disconnect]. *)
Definition cache_kept (c c' : client) : Prop :=
  Ledger.reachable (_ws_jsonrpc_cache c) ->
  Ledger.reachable (_ws_jsonrpc_cache c').

(** The entries that a strategy of ["none"] for [namespace] and [target]
    takes out of the cache. *)
Definition strategy_of (m : string) (namespace target : pyval)
    (req : JSONRPCRequest) : Prop :=
  method req = m /\ params req !! 0%nat = Some namespace /\
  params req !! 1%nat = Some target.

#[global] Instance strategy_of_dec m namespace target req :
  Decision (strategy_of m namespace target req).
Proof. unfold strategy_of. apply _. Defined.

(** What a frame that only reaches the update callback leaves as it is. *)
Definition only_notified (c c' : client) (upd : update) : Prop :=
  updates c' = (if _on_update c then updates c ++ [upd] else updates c) /\
  _ws c' = _ws c /\
  futures c' = futures c /\
  _pending_requests c' = _pending_requests c /\
  _sensor_history_states c' = _sensor_history_states c /\
  _ws_jsonrpc_cache c' = _ws_jsonrpc_cache c /\
  written c' = written c /\
  closed c' = closed c /\
  call_later c' = call_later c.

(** A download that is done stays done. *)
Definition done_kept (c c' : client) : Prop :=
  forall namespace, is_done c namespace = true -> is_done c' namespace = true.

(** The cache is as it was, or [disconnect] has emptied it. *)
Definition cache_same_or_cleared (c c' : client) : Prop :=
  _ws_jsonrpc_cache c' = _ws_jsonrpc_cache c \/ _ws_jsonrpc_cache c' = [].

(** The keys of [sitemap_defaults]. *)
Definition endpoints : list string :=
  ["authorization"; "websocket"; "historic_sensor_values"; "schedule_blocks";
   "sub_nr"; "subarray_sensor_values"; "target_descriptions"].

(** The id of a schedule block that is an observation of the subarray. *)
Definition observation_of (subarray_number : Z) (schedule_block : json)
    : option json :=
  match schedule_block with
  | JObj fields =>
      if json_eq_int (json_get fields "sub_nr") subarray_number &&
         is_json_str "OBSERVATION" (json_get fields "type")
      then assoc "id_code" fields
      else None
  | _ => None
  end.

(** A schedule block with the fields that the loop reads. *)
Definition complete_block (schedule_block : json) : Prop :=
  exists fields,
    schedule_block = JObj fields /\
    is_Some (assoc "sub_nr" fields) /\
    is_Some (assoc "type" fields) /\
    is_Some (assoc "id_code" fields).

Arguments answered : simpl never.
Arguments response_to : simpl never.

(** * Properties *)

(** ** The cache of requests *)

Section LedgerFacts.
Import Ledger.

Lemma py_remove_first (P : JSONRPCRequest -> Prop) pre x l :
  Forall (fun y => ~ P y) pre -> P x ->
  py_remove x (pre ++ x :: l) = Ok (pre ++ l).
Proof.
  intros Hpre Hx. induction Hpre as [|y pre Hy _ IH]; simpl.
  - by rewrite bool_decide_eq_true_2.
  - rewrite bool_decide_eq_false_2; [|by intros ->].
    by rewrite IH.
Qed.

(** Taking out, one by one, the entries that a loop over the cache has
    selected leaves the entries that it has not selected, in their order,
    and never raises. *)
Lemma remove_all_filter (P : JSONRPCRequest -> Prop)
    `{!forall x, Decision (P x)} l :
  remove_all (filter P l) l = Ok (filter (fun x => ~ P x) l).
Proof.
  enough (forall pre, Forall (fun y => ~ P y) pre ->
            remove_all (filter P l) (pre ++ l)
            = Ok (pre ++ filter (fun x => ~ P x) l)) as Hgen
    by exact (Hgen [] (Forall_nil_2 _)).
  induction l as [|x l IH]; intros pre Hpre.
  - by rewrite !filter_nil.
  - destruct (decide (P x)) as [Hx|Hx].
    + rewrite filter_cons_True by done.
      rewrite (filter_cons_False (fun x => ~ P x)) by tauto.
      simpl. rewrite (py_remove_first P) by done. simpl. by apply IH.
    + rewrite filter_cons_False by done.
      rewrite (filter_cons_True (fun x => ~ P x)) by done.
      rewrite (cons_middle x pre), app_assoc.
      rewrite IH; [by rewrite <- app_assoc|].
      apply Forall_app; split; [done|]. by apply Forall_singleton.
Qed.

Lemma strategy_matches_filter jr cache sel :
  strategy_matches jr cache = Ok sel ->
  sel = filter (fun req => strategy_match jr req = Ok true) cache.
Proof.
  revert sel. induction cache as [|req rest IH]; intros sel; simpl.
  - by intros [= <-].
  - destruct (strategy_match jr req) as [b|e] eqn:Hb; simpl; [|done].
    destruct (strategy_matches jr rest) as [tl|e] eqn:Htl; simpl; [|done].
    intros [= <-]. rewrite (IH tl eq_refl).
    destruct b.
    + by rewrite filter_cons_True.
    + rewrite filter_cons_False; [done|]. rewrite Hb. by intros [=].
Qed.

(** Every result of recording is the cache filtered, or the cache with the
    request at the end when no entry has its method and params. *)
Lemma cache_request_cases cache jr cache' :
  _cache_jsonrpc_request cache jr = Ok cache' ->
  (exists (P : JSONRPCRequest -> Prop) (_ : forall x, Decision (P x)),
      cache' = filter P cache) \/
  (cache' = cache ++ [jr] /\ entries_like jr cache = 0%nat /\ appended jr).
Proof.
  unfold _cache_jsonrpc_request, unsubscribe_matches.
  case_bool_decide as Hun.
  { rewrite remove_all_filter. intros [= <-]. left. by eexists _, _. }
  destruct (String.prefix "set_sampling_strat" (method jr)) eqn:Hpre; simpl.
  - unfold py_index. destruct (params jr !! 2%nat) as [strategy|] eqn:Hs;
      simpl; [|done].
    unfold py_eq. case_bool_decide as Hnone.
    + destruct (strategy_matches jr cache) as [sel|] eqn:Hsel; simpl; [|done].
      rewrite (strategy_matches_filter _ _ _ Hsel), remove_all_filter.
      intros [= <-]. left. by eexists _, _.
    + destruct (duplicate_found jr cache) eqn:Hdup.
      * intros [= <-]. left.
        exists (fun _ => True), _. clear. induction cache as [|x l IH]; [done|].
        by rewrite filter_cons_True, <- IH.
      * intros [= <-]. right. split; [done|]. split.
        -- unfold entries_like. unfold duplicate_found in Hdup.
           induction cache as [|x l IH]; [done|]. simpl in Hdup.
           apply orb_false_iff in Hdup as [Hx Hl].
           apply bool_decide_eq_false in Hx.
           rewrite filter_cons_False by done. by apply IH.
        -- split; [done|]. intros _. by exists strategy.
  - destruct (duplicate_found jr cache) eqn:Hdup.
    + intros [= <-]. left.
      exists (fun _ => True), _. clear. induction cache as [|x l IH]; [done|].
      by rewrite filter_cons_True, <- IH.
    + intros [= <-]. right. split; [done|]. split.
      * unfold entries_like. unfold duplicate_found in Hdup.
        induction cache as [|x l IH]; [done|]. simpl in Hdup.
        apply orb_false_iff in Hdup as [Hx Hl].
        apply bool_decide_eq_false in Hx.
        rewrite filter_cons_False by done. by apply IH.
      * split; [done|]. intros Htrue. congruence.
Qed.

Lemma entries_like_filter (P : JSONRPCRequest -> Prop)
    `{!forall x, Decision (P x)} r cache :
  (entries_like r (filter P cache) <= entries_like r cache)%nat.
Proof.
  unfold entries_like. induction cache as [|x l IH]; [done|].
  destruct (decide (P x)).
  - rewrite (filter_cons_True P) by done.
    destruct (decide (method_and_params_hash x = method_and_params_hash r)).
    + rewrite !filter_cons_True by done. simpl. lia.
    + by rewrite !filter_cons_False by done.
  - rewrite (filter_cons_False P) by done.
    destruct (decide (method_and_params_hash x = method_and_params_hash r)).
    + rewrite filter_cons_True by done. simpl. lia.
    + by rewrite filter_cons_False by done.
Qed.

Lemma entries_like_snoc r cache x :
  entries_like r (cache ++ [x]) =
  (entries_like r cache +
   if decide (method_and_params_hash x = method_and_params_hash r)
   then 1 else 0)%nat.
Proof.
  unfold entries_like. rewrite filter_app, length_app. f_equal.
  case_decide.
  - by rewrite filter_cons_True.
  - by rewrite filter_cons_False.
Qed.

Lemma entries_like_hash r1 r2 cache :
  method_and_params_hash r1 = method_and_params_hash r2 ->
  entries_like r1 cache = entries_like r2 cache.
Proof. unfold entries_like. by intros ->. Qed.

Lemma reachable_at_most_one cache :
  reachable cache -> forall r, (entries_like r cache <= 1)%nat.
Proof.
  assert (Hnil : forall r, (entries_like r [] <= 1)%nat)
    by (intros r; unfold entries_like; rewrite filter_nil; simpl; lia).
  induction 1 as [|cache req cache' _ IH Hrec|]; intros r; [done| |done].
  destruct (cache_request_cases _ _ _ Hrec) as [(P & HP & ->)|(-> & Hnone & _)].
  - etrans; [apply entries_like_filter|apply IH].
  - rewrite entries_like_snoc. case_decide as Heq.
    + rewrite <- (entries_like_hash _ _ _ Heq), Hnone. lia.
    + specialize (IH r). lia.
Qed.

Lemma appended_recorded cache jr :
  appended jr ->
  _cache_jsonrpc_request cache jr =
  Ok (if duplicate_found jr cache then cache else cache ++ [jr]).
Proof.
  intros [Hun Hstrat]. unfold _cache_jsonrpc_request.
  rewrite bool_decide_eq_false_2 by done.
  destruct (String.prefix "set_sampling_strat" (method jr)); simpl.
  - destruct (Hstrat eq_refl) as (strategy & Hs & Hnone).
    unfold py_index. rewrite Hs. simpl. unfold py_eq.
    rewrite bool_decide_eq_false_2 by done.
    by destruct (duplicate_found jr cache).
  - by destruct (duplicate_found jr cache).
Qed.

Lemma duplicate_found_entries jr cache :
  duplicate_found jr cache = true <-> (0 < entries_like jr cache)%nat.
Proof.
  unfold duplicate_found, entries_like.
  induction cache as [|x l IH]; simpl; [split; [done|lia]|].
  case_bool_decide as Hx; simpl.
  - rewrite filter_cons_True by done. simpl. split; [lia|done].
  - by rewrite filter_cons_False by done.
Qed.

Lemma appended_hash r1 r2 :
  method_and_params_hash r1 = method_and_params_hash r2 ->
  appended r1 -> appended r2.
Proof.
  unfold method_and_params_hash, appended. intros [= Hm Hp].
  by rewrite Hm, Hp.
Qed.

Lemma duplicate_found_hash r1 r2 cache :
  method_and_params_hash r1 = method_and_params_hash r2 ->
  duplicate_found r1 cache = duplicate_found r2 cache.
Proof. unfold duplicate_found. by intros ->. Qed.

(** No unsubscribe is ever cached. *)
Lemma reachable_no_unsubscribe cache :
  reachable cache -> forall req, req ∈ cache -> method req <> "unsubscribe".
Proof.
  induction 1 as [|cache jr cache' _ IH Hrec|]; intros req Hin.
  - by apply elem_of_nil in Hin.
  - destruct (cache_request_cases _ _ _ Hrec)
      as [(P & HP & ->)|(-> & _ & Happ)].
    + apply list_elem_of_filter in Hin as [_ Hin]. by apply IH.
    + apply elem_of_app in Hin as [Hin|Hin]; [by apply IH|].
      apply list_elem_of_singleton in Hin as ->. apply Happ.
  - by apply elem_of_nil in Hin.
Qed.

End LedgerFacts.

Lemma strategy_match_total jr req namespace target rest :
  params jr = namespace :: target :: rest ->
  (method req = method jr -> (2 <= length (params req))%nat) ->
  Ledger.strategy_match jr req
  = Ok (bool_decide (strategy_of (method jr) namespace target req)).
Proof.
  intros Hjr Hlen. unfold Ledger.strategy_match.
  case_bool_decide as Hm.
  - specialize (Hlen Hm). rewrite Hjr.
    destruct req as [i m ps]. simpl in *.
    destruct ps as [|r0 [|r1 rs]]; simpl in Hlen; try lia.
    simpl. unfold py_eq.
    case_bool_decide as H0; simpl.
    + subst r0. case_bool_decide as H1; simpl.
      * subst r1. by rewrite bool_decide_eq_true_2.
      * rewrite bool_decide_eq_false_2; [done|].
        intros (_ & _ & [= ?]). done.
    + rewrite bool_decide_eq_false_2; [done|].
      intros (_ & [= ?] & _). done.
  - rewrite bool_decide_eq_false_2; [done|]. by intros [? _].
Qed.

Lemma strategy_matches_total jr namespace target rest cache :
  params jr = namespace :: target :: rest ->
  Forall (fun req => method req = method jr ->
                     (2 <= length (params req))%nat) cache ->
  Ledger.strategy_matches jr cache
  = Ok (filter (strategy_of (method jr) namespace target) cache).
Proof.
  intros Hjr Hall. induction Hall as [|req cache Hreq _ IH]; [done|].
  simpl. rewrite (strategy_match_total jr req namespace target rest Hjr Hreq).
  simpl. rewrite IH. simpl. case_bool_decide.
  - by rewrite filter_cons_True.
  - by rewrite filter_cons_False.
Qed.

(** C5.  In every state of the cache that recording requests and
    disconnecting can reach, at most one entry has a given method and
    params.  In particular two requests with the same method and params,
    of the kind that the cache keeps, recorded one after the other, leave
    exactly one entry with that method and params. *)
Theorem ledger_at_most_one_entry (cache : list JSONRPCRequest) :
  Ledger.reachable cache ->
  (forall r, (Ledger.entries_like r cache <= 1)%nat) /\
  (forall r1 r2,
      method_and_params_hash r1 = method_and_params_hash r2 ->
      Ledger.appended r1 ->
      exists cache1 cache2,
        Ledger._cache_jsonrpc_request cache r1 = Ok cache1 /\
        Ledger._cache_jsonrpc_request cache1 r2 = Ok cache2 /\
        Ledger.entries_like r1 cache2 = 1%nat).
Proof.
  intros Hreach. split; [by apply reachable_at_most_one|].
  intros r1 r2 Hhash Happ.
  pose proof (appended_recorded cache r1 Happ) as H1.
  set (cache1 := if Ledger.duplicate_found r1 cache then cache
                 else cache ++ [r1]) in H1.
  assert (Hone : Ledger.entries_like r1 cache1 = 1%nat).
  { subst cache1. destruct (Ledger.duplicate_found r1 cache) eqn:Hdup.
    - apply duplicate_found_entries in Hdup.
      pose proof (reachable_at_most_one cache Hreach r1). lia.
    - rewrite entries_like_snoc, decide_True by done.
      destruct (Ledger.entries_like r1 cache) eqn:Hn; [done|].
      assert (Ledger.duplicate_found r1 cache = true) as Hd; [|congruence].
      apply duplicate_found_entries. lia. }
  exists cache1, cache1. split; [done|]. split; [|done].
  rewrite (appended_recorded cache1 r2 (appended_hash _ _ Hhash Happ)).
  rewrite <- (duplicate_found_hash r1 r2 _ Hhash).
  assert (Ledger.duplicate_found r1 cache1 = true) as ->; [|done].
  apply duplicate_found_entries. lia.
Qed.

Lemma example_cache_reachable :
  Ledger.reachable [example_subscribe; example_strategy].
Proof.
  eapply Ledger.reachable_record with (req := example_strategy).
  - eapply Ledger.reachable_record with (req := example_subscribe).
    + apply Ledger.reachable_init.
    + reflexivity.
  - reflexivity.
Qed.

Lemma ledger_at_most_one_entry_witness :
  Ledger.reachable [example_subscribe; example_strategy] /\
  (forall r, (Ledger.entries_like r [example_subscribe; example_strategy]
              <= 1)%nat).
Proof.
  split; [exact example_cache_reachable|].
  exact (proj1 (ledger_at_most_one_entry
                  [example_subscribe; example_strategy]
                  example_cache_reachable)).
Defined.

(** C6.  For every params [p]: recording a subscribe with params [p] and
    then an unsubscribe with the same params leaves the cache without any
    subscribe with params [p] and without any unsubscribe; what is left is
    the cache from before, less its subscribes with params [p]. *)
Theorem subscribe_then_unsubscribe_cancels (cache : list JSONRPCRequest)
    (p : list pyval) (id1 id2 : string) :
  Ledger.reachable cache ->
  exists cache1 cache2,
    Ledger._cache_jsonrpc_request cache (mkRequest id1 "subscribe" p)
      = Ok cache1 /\
    Ledger._cache_jsonrpc_request cache1 (mkRequest id2 "unsubscribe" p)
      = Ok cache2 /\
    (forall req, req ∈ cache2 ->
                 ~ (method req = "subscribe" /\ params req = p)) /\
    (forall req, req ∈ cache2 -> method req <> "unsubscribe") /\
    cache2 = filter (fun req => ~ (method req = "subscribe" /\
                                   params req = p)) cache.
Proof.
  intros Hreach.
  assert (Happ : Ledger.appended (mkRequest id1 "subscribe" p)).
  { split; [done|]. simpl. done. }
  pose proof (appended_recorded cache _ Happ) as H1.
  set (sub := mkRequest id1 "subscribe" p) in *.
  set (cache1 := if Ledger.duplicate_found sub cache then cache
                 else cache ++ [sub]) in H1.
  set (keep := fun req : JSONRPCRequest =>
                 ~ (method req = "subscribe" /\ params req = p)).
  assert (H2 : Ledger._cache_jsonrpc_request cache1
                 (mkRequest id2 "unsubscribe" p) = Ok (filter keep cache)).
  { unfold Ledger._cache_jsonrpc_request, Ledger.unsubscribe_matches.
    simpl. rewrite remove_all_filter. f_equal.
    subst cache1. destruct (Ledger.duplicate_found sub cache); [done|].
    rewrite filter_app, filter_cons_False, filter_nil, app_nil_r; [done|].
    unfold sub. simpl. tauto. }
  exists cache1, (filter keep cache). split; [done|]. split; [done|].
  split; [|split; [|done]].
  - intros req Hin. by apply list_elem_of_filter in Hin as [Hk _].
  - intros req Hin. apply list_elem_of_filter in Hin as [_ Hin].
    by apply (reachable_no_unsubscribe cache).
Qed.

Lemma subscribe_then_unsubscribe_cancels_witness :
  Ledger.reachable [example_subscribe; example_strategy] /\
  exists cache1 cache2,
    Ledger._cache_jsonrpc_request [example_subscribe; example_strategy]
      (mkRequest "b1" "subscribe" [PStr "ns"; PStrs ["x"]]) = Ok cache1 /\
    Ledger._cache_jsonrpc_request cache1
      (mkRequest "b2" "unsubscribe" [PStr "ns"; PStrs ["x"]]) = Ok cache2 /\
    (forall req, req ∈ cache2 ->
                 ~ (method req = "subscribe" /\
                    params req = [PStr "ns"; PStrs ["x"]])) /\
    (forall req, req ∈ cache2 -> method req <> "unsubscribe") /\
    cache2 = filter (fun req => ~ (method req = "subscribe" /\
                                   params req = [PStr "ns"; PStrs ["x"]]))
               [example_subscribe; example_strategy].
Proof.
  split; [exact example_cache_reachable|].
  exact (subscribe_then_unsubscribe_cancels
           [example_subscribe; example_strategy]
           [PStr "ns"; PStrs ["x"]] "b1" "b2" example_cache_reachable).
Defined.

(** ** Sending and the table of pending requests *)

Lemma is_connected_false c : is_connected c = false <-> _ws c = None.
Proof.
  unfold is_connected. case_bool_decide as Hws.
  - destruct Hws as [conn ->]. split; congruence.
  - destruct (_ws c); [|done]. exfalso. apply Hws. eauto.
Qed.

Lemma is_connected_ws c :
  is_connected c = match _ws c with Some _ => true | None => false end.
Proof.
  unfold is_connected. destruct (_ws c).
  - apply bool_decide_eq_true_2. eauto.
  - apply bool_decide_eq_false_2. by intros [? ?].
Qed.

Lemma future_outcome_new c fs st :
  futures c = fs ++ [st] ->
  future_outcome c (length fs) =
  match st with
  | FPending => Suspended
  | FResult v => Returned v
  | FException e => Raised e
  end.
Proof.
  intros Hf. unfold future_outcome. rewrite Hf.
  rewrite list_lookup_middle by done. by destruct st.
Qed.

Lemma send_not_connected c req :
  _ws c = None ->
  futures (fst (_send c req)) !! snd (_send c req)
  = Some (FException not_connected_error) /\
  (forall events,
      await (fst (_send c req)) (snd (_send c req)) events
      = (fst (_send c req), Raised not_connected_error)) /\
  written (fst (_send c req)) = written c /\
  _pending_requests (fst (_send c req)) = _pending_requests c.
Proof.
  intros Hws. unfold _send. rewrite Hws. simpl.
  assert (Hlook : (futures c ++ [FException not_connected_error])
                    !! length (futures c)
                  = Some (FException not_connected_error))
    by by apply list_lookup_middle.
  split; [done|]. split; [|done].
  intros events. unfold await, future_outcome. simpl. by rewrite Hlook.
Qed.

(** C7.  A request sent while the client is not connected fails at once:
    the future that [_send] returns already holds the exception "not
    connected", so that a coroutine that yields it is resumed with the
    exception before anything else runs; nothing is written to the
    websocket and the table of pending requests is as it was. *)
Theorem send_while_disconnected (c : client) (req : JSONRPCRequest) :
  is_connected c = false ->
  let c' := fst (_send c req) in
  let future := snd (_send c req) in
  futures c' !! future = Some (FException not_connected_error) /\
  (forall events, await c' future events = (c', Raised not_connected_error)) /\
  written c' = written c /\
  _pending_requests c' = _pending_requests c.
Proof.
  intros Hdis. apply is_connected_false in Hdis.
  by apply send_not_connected.
Qed.

Lemma send_while_disconnected_witness :
  is_connected (new_client true) = false /\
  written (fst (_send (new_client true) example_subscribe)) = [] /\
  _pending_requests (fst (_send (new_client true) example_subscribe)) = ∅.
Proof.
  split; [reflexivity|].
  exact (proj2 (proj2 (send_while_disconnected (new_client true)
                         example_subscribe eq_refl))).
Defined.

Lemma process_response c fields msg_id future :
  _pending_requests c !! msg_id = Some future ->
  _process_json_rpc_message c (JObj fields) msg_id
  = set_result future (response_payload fields) c.
Proof.
  intros Hp. unfold _process_json_rpc_message, response_payload.
  rewrite Hp. by destruct (json_truthy (json_get fields "error")).
Qed.

Lemma set_result_lookup c future v :
  (future < length (futures c))%nat ->
  futures (set_result future v c) !! future = Some (FResult v).
Proof. intros Hlt. simpl. by apply list_lookup_insert_eq. Qed.

(** C4 as it is written fails: the entry of the request is still in the
    table of pending requests after the matching response has resolved its
    future, and after a disconnect. *)
Lemma pending_entry_not_removed :
  let c1 := fst (_send connected_client example_subscribe) in
  let c2 := _process_json_rpc_message c1 example_response "a1" in
  futures c2 !! 0%nat = Some (FResult (JInt 1)) /\
  _pending_requests c2 !! "a1" = Some 0%nat /\
  _pending_requests (disconnect c2) !! "a1" = Some 0%nat.
Proof. vm_compute. done. Qed.

(** C4, amended.  A request sent while the client is connected gets one
    pending future, stored in the table under the id of the request and
    unresolved; the matching response resolves that future.  Neither the
    response nor a disconnect takes an entry out of the table. *)
Theorem pending_requests_are_kept (c : client) :
  (forall req,
      is_connected c = true ->
      let c' := fst (_send c req) in
      let future := snd (_send c req) in
      _pending_requests c' = <[id req := future]> (_pending_requests c) /\
      futures c' !! future = Some FPending) /\
  (forall msg msg_id,
      _pending_requests (_process_json_rpc_message c msg msg_id)
      = _pending_requests c) /\
  (forall fields msg_id future,
      _pending_requests c !! msg_id = Some future ->
      (future < length (futures c))%nat ->
      futures (_process_json_rpc_message c (JObj fields) msg_id) !! future
      = Some (FResult (response_payload fields))) /\
  _pending_requests (disconnect c) = _pending_requests c.
Proof.
  split; [|split; [|split]].
  - intros req Hconn. unfold is_connected in Hconn.
    apply bool_decide_eq_true in Hconn as [conn Hws].
    unfold _send. rewrite Hws. simpl. split; [done|].
    by apply list_lookup_middle.
  - intros msg msg_id. unfold _process_json_rpc_message.
    destruct (_pending_requests c !! msg_id); [|done].
    destruct msg; try done.
    by destruct (json_truthy (json_get fields "error")).
  - intros fields msg_id future Hp Hlt.
    rewrite (process_response _ _ _ _ Hp). by apply set_result_lookup.
  - unfold disconnect.
    destruct (_heart_beat_timer c); simpl; by destruct (_ws c).
Qed.

Lemma pending_requests_are_kept_witness :
  is_connected connected_client = true /\
  _pending_requests (fst (_send connected_client example_subscribe))
  = <["a1" := 0%nat]> ∅ /\
  _pending_requests
    (_process_json_rpc_message (fst (_send connected_client example_subscribe))
       example_response "a1")
  = _pending_requests (fst (_send connected_client example_subscribe)).
Proof.
  split; [reflexivity|]. split.
  - exact (proj1 (proj1 (pending_requests_are_kept connected_client)
                    example_subscribe eq_refl)).
  - exact (proj1 (proj2 (pending_requests_are_kept
                           (fst (_send connected_client example_subscribe))))
             example_response "a1").
Defined.

(** ** Responses *)

(** A frame with a plain id goes to [_process_json_rpc_message]. *)
Lemma handle_response c fields msg_id :
  assoc "id" fields = Some (JStr msg_id) ->
  plain_id msg_id ->
  handle_event c (EvFrame (FJson (JObj fields)))
  = Some (_process_json_rpc_message
            (add_log (LogMessageReceived (JObj fields)) c)
            (JObj fields) msg_id).
Proof.
  intros Hid [Hpub Hrec]. unfold handle_event, websocket_message_with.
  unfold json_getitem. rewrite Hid. simpl. by rewrite Hpub, Hrec.
Qed.

Lemma send_connected c conn req :
  _ws c = Some conn ->
  _send c req =
  (set_written (written c ++ [(conn, WRequest req)])
     (set_pending_requests (<[id req := length (futures c)]>
                              (_pending_requests c))
        (set_futures (futures c ++ [FPending]) c)),
   length (futures c)).
Proof. intros Hws. unfold _send. by rewrite Hws. Qed.

Lemma await_response c conn req fields :
  _ws c = Some conn ->
  assoc "id" fields = Some (JStr (id req)) ->
  plain_id (id req) ->
  await (fst (_send c req)) (snd (_send c req))
        [EvFrame (FJson (JObj fields))]
  = (answered c req fields, Returned (response_payload fields)).
Proof.
  intros Hws Hid Hplain. unfold answered.
  rewrite (send_connected _ _ _ Hws). simpl.
  unfold await.
  erewrite future_outcome_new by reflexivity.
  unfold run_events. rewrite (handle_response _ _ _ Hid Hplain).
  erewrite process_response by (simpl; apply lookup_insert_eq).
  f_equal. unfold future_outcome. simpl.
  rewrite list_lookup_insert_eq; [done|].
  rewrite length_app. simpl. lia.
Qed.

Lemma send_and_cache_response c conn req fields :
  _ws c = Some conn ->
  assoc "id" fields = Some (JStr (id req)) ->
  plain_id (id req) ->
  send_and_cache req [EvFrame (FJson (JObj fields))] c
  = match Ledger._cache_jsonrpc_request (_ws_jsonrpc_cache c) req with
    | Ok cache => (set_ws_jsonrpc_cache cache (answered c req fields),
                   Returned (response_payload fields))
    | Raise e => (answered c req fields, Raised e)
    end.
Proof.
  intros Hws Hid Hplain. unfold send_and_cache.
  pose proof (await_response c conn req fields Hws Hid Hplain) as Haw.
  destruct (_send c req) as [c1 future] eqn:Hsend. simpl in Haw.
  rewrite Haw.
  assert (_ws_jsonrpc_cache (answered c req fields) = _ws_jsonrpc_cache c)
    as ->; [|done].
  unfold answered. rewrite (send_connected _ _ _ Hws). done.
Qed.







(** ** Reconnecting *)

(** C10.  Every call of [connect] that gets the lock clears
    [_disconnect_issued], whatever [websocket_connect] does afterwards.  So
    after a [connect] that failed the flag is off, and a null frame seen
    then makes [_websocket_message] call [_connect(reconnecting=True)]; when
    that attempt fails too, another one is put on the IOLoop. *)
Theorem connect_clears_disconnect_issued (c : client)
    (attempt : option nat) :
  _ws_connecting_lock c = false ->
  _disconnect_issued (fst (connect attempt c)) = false /\
  (is_connected c = false ->
   let c' := fst (connect None c) in
   snd (connect None c) = Returned tt /\
   is_connected c' = false /\
   _disconnect_issued c' = false /\
   forall o,
     _websocket_message o c' FClosed
     = Some (_connect true (connect_result o) (resend_script o)
               (add_log LogServerDisconnected c')) /\
     (connect_result o = None ->
      exists c'',
        _websocket_message o c' FClosed = Some (c'', Returned tt) /\
        call_later c'' = call_later c' ++ [WS_RECONNECT_INTERVAL])).
Proof.
  intros Hlock. split.
  - unfold connect, _connect. rewrite Hlock.
    rewrite !is_connected_ws. simpl.
    destruct (_ws c) eqn:Hws; [done|].
    destruct attempt as [conn|]; simpl;
      destruct (_heart_beat_timer c); simpl;
      rewrite ?is_connected_ws; simpl; rewrite ?Hws; done.
  - intros Hdis. rewrite is_connected_ws in Hdis.
    destruct (_ws c) eqn:Hws; [done|]. clear Hdis.
    destruct (connect None c) as [c' r] eqn:Hc'. cbn [fst snd].
    assert (r = Returned tt /\ _ws c' = None /\ _disconnect_issued c' = false
            /\ _ws_connecting_lock c' = false) as (-> & Hws' & Hflag' & Hlock').
    { unfold connect, _connect in Hc'. rewrite Hlock in Hc'.
      rewrite !is_connected_ws in Hc'. simpl in Hc'. rewrite Hws in Hc'.
      destruct (_heart_beat_timer c); simpl in Hc';
        rewrite ?is_connected_ws in Hc'; simpl in Hc'; rewrite ?Hws in Hc';
        simpl in Hc'; injection Hc' as <- <-; done. }
    split; [done|]. split; [by rewrite is_connected_ws, Hws'|].
    split; [done|]. intros o.
    assert (Heq : _websocket_message o c' FClosed
              = Some (_connect true (connect_result o) (resend_script o)
                        (add_log LogServerDisconnected c'))).
    { unfold _websocket_message, websocket_message_with. simpl.
      by rewrite Hflag', Hws'. }
    split; [done|].
    intros Hfail.
    assert (Hrc : exists c'',
               _connect true None (resend_script o)
                        (add_log LogServerDisconnected c')
               = (c'', Returned tt) /\
               call_later c'' = call_later c' ++ [WS_RECONNECT_INTERVAL]).
    { unfold _connect. simpl.
      rewrite Hlock'. rewrite !is_connected_ws. simpl. rewrite Hws'.
      destruct (_heart_beat_timer c'); simpl;
        rewrite ?is_connected_ws; simpl; rewrite ?Hws'; simpl; by eexists. }
    destruct Hrc as (c'' & Hrc & Hlater). exists c''.
    by rewrite Heq, Hfail, Hrc.
Qed.

Lemma connect_clears_disconnect_issued_witness :
  _ws_connecting_lock (disconnect connected_client) = false /\
  _disconnect_issued (disconnect connected_client) = true /\
  _disconnect_issued (fst (connect None (disconnect connected_client)))
  = false.
Proof.
  split; [reflexivity|]. split; [reflexivity|].
  exact (proj1 (connect_clears_disconnect_issued (disconnect connected_client)
                  None eq_refl)).
Defined.

(** What a request that is sent and answered changes. *)
Lemma answered_fields c conn req fields :
  _ws c = Some conn ->
  _ws (answered c req fields) = Some conn /\
  written (answered c req fields) = written c ++ [(conn, WRequest req)] /\
  log (answered c req fields) = log c ++ [LogMessageReceived (JObj fields)] /\
  _ws_jsonrpc_cache (answered c req fields) = _ws_jsonrpc_cache c /\
  _ws_connecting_lock (answered c req fields) = _ws_connecting_lock c /\
  _heart_beat_timer (answered c req fields) = _heart_beat_timer c /\
  _disconnect_issued (answered c req fields) = _disconnect_issued c /\
  call_later (answered c req fields) = call_later c /\
  closed (answered c req fields) = closed c.
Proof.
  intros Hws. unfold answered. rewrite (send_connected _ _ _ Hws).
  simpl. by rewrite Hws.
Qed.

Lemma response_to_id req fields :
  assoc "id" (response_to req fields) = Some (JStr (id req)).
Proof. done. Qed.

Lemma resend_answers reqs : forall payloads c conn,
  _ws c = Some conn ->
  length payloads = length reqs ->
  Forall (fun req => plain_id (id req)) reqs ->
  resend reqs (answers reqs payloads) c = (resent reqs payloads c, Returned tt).
Proof.
  induction reqs as [|req reqs IH]; intros payloads c conn Hws Hlen Hplain.
  - by destruct payloads.
  - destruct payloads as [|fields payloads]; [done|].
    apply Forall_cons in Hplain as [Hreq Hplain].
    simpl.
    pose proof (await_response (add_log (LogResending req) c) conn req
                  (response_to req fields) Hws (response_to_id _ _) Hreq)
      as Haw.
    destruct (_send (add_log (LogResending req) c) req) as [c1 future].
    simpl in Haw. rewrite Haw.
    apply (IH payloads _ conn).
    + exact (proj1 (answered_fields (add_log (LogResending req) c) conn req
                      (response_to req fields) Hws)).
    + simpl in Hlen. lia.
    + done.
Qed.

Lemma resent_fields reqs : forall payloads c conn,
  _ws c = Some conn ->
  length payloads = length reqs ->
  let c' := resent reqs payloads c in
  _ws c' = Some conn /\
  written c' = written c ++ ((fun req => (conn, WRequest req)) <$> reqs) /\
  (forall r, r ∈ log c -> r ∈ log c') /\
  (forall i req fields,
      reqs !! i = Some req -> payloads !! i = Some fields ->
      LogResent (response_payload (response_to req fields)) ∈ log c') /\
  _ws_jsonrpc_cache c' = _ws_jsonrpc_cache c /\
  _ws_connecting_lock c' = _ws_connecting_lock c /\
  _heart_beat_timer c' = _heart_beat_timer c /\
  _disconnect_issued c' = _disconnect_issued c /\
  call_later c' = call_later c /\
  closed c' = closed c.
Proof.
  induction reqs as [|req reqs IH]; intros payloads c conn Hws Hlen.
  - destruct payloads; [|done]. simpl. rewrite app_nil_r.
    repeat split; done.
  - destruct payloads as [|fields payloads]; [done|]. simpl.
    set (c1 := add_log _ (answered _ req _)).
    destruct (answered_fields (add_log (LogResending req) c) conn req
                (response_to req fields) Hws)
      as (Hws1 & Hwr1 & Hlog1 & Hca1 & Hlk1 & Hhb1 & Hdi1 & Hcl1 & Hcd1).
    assert (Hws1' : _ws c1 = Some conn) by done.
    assert (Hlen' : length payloads = length reqs) by (simpl in Hlen; lia).
    destruct (IH payloads c1 conn Hws1' Hlen')
      as (Hws2 & Hwr2 & Hmono & Hlog2 & Hca2 & Hlk2 & Hhb2 & Hdi2 & Hcl2 & Hcd2).
    subst c1. simpl in *.
    split; [done|]. split.
    { rewrite Hwr2, Hwr1. by rewrite <- app_assoc. }
    split.
    { intros r Hr. apply Hmono. rewrite Hlog1, !elem_of_app. auto. }
    split.
    { intros [|i] req' fields' Hreq' Hfields'; simpl in *.
      - injection Hreq' as <-. injection Hfields' as <-.
        apply Hmono. rewrite elem_of_app, list_elem_of_singleton. auto.
      - by apply (Hlog2 i). }
    repeat split; congruence.
Qed.

(** C3 as it is written fails.  The client is connected with three cached
    requests; the connection closes and the client reconnects on
    connection 2.  The first request is resent and answered; then the
    application disconnects, so that sending the second request fails.  The
    exception ends the loop: the third request is never resent, and
    [_connect] takes the failure for a failed connection and asks for
    another attempt. *)
Lemma resend_stops_at_a_failed_send :
  exists c',
    _websocket_message disconnected_meanwhile subscribed_client FClosed
    = Some (c', Returned tt) /\
    _ws_jsonrpc_cache subscribed_client
    = [example_subscribe; example_strategy; example_strategies] /\
    written c' = [(2%nat, WRequest example_subscribe)] /\
    log c' = [LogServerDisconnected; LogConnecting;
              LogResending example_subscribe;
              LogMessageReceived example_response;
              LogClearedCache; LogDisconnected; LogResent (JInt 1);
              LogResending example_strategy; LogFailedToSend;
              LogCouldNotConnect; LogRetryingConnection] /\
    call_later c' = [WS_RECONNECT_INTERVAL] /\
    _heart_beat_timer c' = false.
Proof. eexists. vm_compute. repeat split; reflexivity. Qed.

Lemma resend_not_connected req rest script c :
  _ws c = None ->
  exists c', resend (req :: rest) script c = (c', Raised not_connected_error) /\
             written c' = written c.
Proof.
  intros Hws. simpl.
  destruct (send_not_connected (add_log (LogResending req) c) req Hws)
    as (_ & Haw & Hwr & _).
  destruct (_send (add_log (LogResending req) c) req) as [c1 future].
  simpl in Haw, Hwr. rewrite Haw. by exists c1.
Qed.

Lemma resend_waits conn req rest script c :
  _ws c = Some conn ->
  exists c', resend (req :: rest) ([] :: script) c = (c', Suspended) /\
             written c' = written c ++ [(conn, WRequest req)].
Proof.
  intros Hws. simpl.
  rewrite (send_connected (add_log (LogResending req) c) conn req Hws).
  unfold await. erewrite future_outcome_new by reflexivity. simpl.
  erewrite future_outcome_new by reflexivity. by eexists.
Qed.

(** C3, amended.  After a connection that closed, with a new connection
    made and every resent request answered in turn, whether by a result
    or by an error: every cached request has been written to the new
    connection, in the order of the cache, each result has been logged,
    and the client is connected with the heart beat running and the cache
    as before.  A request is written only when the one before has been
    answered.  A send that fails because the client is not connected ends
    the resend with its exception, and nothing more is written. *)
Theorem resend_after_reconnect (c : client) (o : reconnect_oracle)
    (conn : nat) (payloads : list (list (string * json))) :
  _ws_connecting_lock c = false ->
  _disconnect_issued c = false ->
  connect_result o = Some conn ->
  resend_script o = answers (_ws_jsonrpc_cache c) payloads ->
  length payloads = length (_ws_jsonrpc_cache c) ->
  Forall (fun req => plain_id (id req)) (_ws_jsonrpc_cache c) ->
  (exists c',
      _websocket_message o c FClosed = Some (c', Returned tt) /\
      _ws c' = Some conn /\
      written c' = written c ++ ((fun req => (conn, WRequest req))
                                   <$> _ws_jsonrpc_cache c) /\
      (forall i req fields,
          _ws_jsonrpc_cache c !! i = Some req ->
          payloads !! i = Some fields ->
          LogResent (response_payload (response_to req fields)) ∈ log c') /\
      LogReconnected ∈ log c' /\
      _heart_beat_timer c' = true /\
      _ws_jsonrpc_cache c' = _ws_jsonrpc_cache c /\
      call_later c' = call_later c) /\
  (forall conn' req rest script c0,
      _ws c0 = Some conn' ->
      exists c1, resend (req :: rest) ([] :: script) c0 = (c1, Suspended) /\
                 written c1 = written c0 ++ [(conn', WRequest req)]) /\
  (forall req rest script c0,
      _ws c0 = None ->
      exists c1, resend (req :: rest) script c0
                 = (c1, Raised not_connected_error) /\
                 written c1 = written c0).
Proof.
  intros Hlock Hflag Hconn Hscript Hlen Hplain.
  split; [|split; [intros; by eapply resend_waits
                  |intros; by apply resend_not_connected]].
  unfold _websocket_message, websocket_message_with. simpl.
  rewrite Hflag, Hconn, Hscript.
  set (c0 := match _ws c with
             | Some conn0 => set_ws None (set_closed (closed c ++ [conn0])
                                            (add_log LogServerDisconnected c))
             | None => add_log LogServerDisconnected c
             end).
  assert (Hc0 : _ws c0 = None /\ _ws_connecting_lock c0 = false /\
                _ws_jsonrpc_cache c0 = _ws_jsonrpc_cache c /\
                written c0 = written c /\ call_later c0 = call_later c)
    by (subst c0; destruct (_ws c) eqn:Hws; simpl; rewrite ?Hws, ?Hlock;
        repeat split; reflexivity).
  destruct Hc0 as (Hws0 & Hlock0 & Hcache0 & Hwr0 & Hcl0).
  unfold _connect. rewrite Hlock0, is_connected_ws. simpl. rewrite Hws0.
  unfold _resend_subscriptions_and_strategies.
  set (c1 := set_ws_connecting_lock true _).
  assert (Hc1 : _ws c1 = Some conn /\ _ws_jsonrpc_cache c1 = _ws_jsonrpc_cache c
                /\ written c1 = written c /\ call_later c1 = call_later c).
  { subst c1. destruct (_heart_beat_timer c0); simpl; by rewrite Hcache0. }
  destruct Hc1 as (Hws1 & Hcache1 & Hwr1 & Hcl1).
  rewrite Hcache1.
  rewrite (resend_answers _ payloads c1 conn Hws1 Hlen Hplain).
  destruct (resent_fields (_ws_jsonrpc_cache c) payloads c1 conn Hws1 Hlen)
    as (Hws2 & Hwr2 & Hmono & Hlog2 & Hca2 & _ & _ & _ & Hcl2 & _).
  simpl. rewrite is_connected_ws. simpl. rewrite Hws2. simpl.
  eexists. split; [done|]. simpl.
  split; [done|]. split; [by rewrite Hwr2, Hwr1|].
  split; [intros i req fields Hi Hp; apply elem_of_app; left; by eapply Hlog2|].
  split; [apply elem_of_app; right; by apply list_elem_of_singleton|].
  split; [done|]. split; congruence.
Qed.

Lemma resend_after_reconnect_witness :
  exists c',
    _websocket_message
      (mkReconnectOracle (Some 2%nat)
         (answers example_cache
            [[("result", JInt 1)];
             [("error", JStr "unknown sensor")];
             [("result", JInt 3)]]))
      subscribed_client FClosed = Some (c', Returned tt) /\
    written c' = [(2%nat, WRequest example_subscribe);
                  (2%nat, WRequest example_strategy);
                  (2%nat, WRequest example_strategies)].
Proof.
  destruct (proj1 (resend_after_reconnect subscribed_client
              (mkReconnectOracle (Some 2%nat)
                 (answers example_cache
                    [[("result", JInt 1)];
                     [("error", JStr "unknown sensor")];
                     [("result", JInt 3)]]))
              2%nat
              [[("result", JInt 1)];
               [("error", JStr "unknown sensor")];
               [("result", JInt 3)]]
              eq_refl eq_refl eq_refl eq_refl eq_refl
              ltac:(repeat constructor)))
    as (c' & Hrun & _ & Hwritten & _).
  exists c'. split; [exact Hrun|exact Hwritten].
Defined.

(** ** What a call leaves as it is *)

Ltac steady_leaf :=
  split; [|split; [|split; [|split]]]; simpl;
  [repeat apply prefix_app_r; reflexivity
  |repeat apply prefix_app_r; reflexivity
  |reflexivity
  |intros ? ?; assumption
  |intros ? ? ?; assumption].

Lemma steady_refl c : steady c c.
Proof. steady_leaf. Qed.

Lemma steady_trans c1 c2 c3 : steady c1 c2 -> steady c2 c3 -> steady c1 c3.
Proof.
  intros (Hl1 & Hf1 & Hw1 & Hs1 & Hx1) (Hl2 & Hf2 & Hw2 & Hs2 & Hx2).
  (split; [|split; [|split; [|split]]]);
    [by etrans|by etrans|congruence|auto|auto].
Qed.

Lemma set_result_steady c future v : steady c (set_result future v c).
Proof.
  split; [|split; [|split; [|split]]]; simpl; try done.
  intros fut e Hfut.
  apply list_lookup_insert_Some in Hfut as [(_ & Hx & _)|[_ Hfut]]; done.
Qed.

Lemma disconnect_steady c : steady c (disconnect c).
Proof.
  unfold disconnect.
  destruct (_heart_beat_timer c); simpl; destruct (_ws c); steady_leaf.
Qed.

Lemma process_json_rpc_steady c msg msg_id :
  steady c (_process_json_rpc_message c msg msg_id).
Proof.
  unfold _process_json_rpc_message.
  destruct (_pending_requests c !! msg_id); [|steady_leaf].
  destruct msg; try apply steady_refl.
  destruct (json_truthy (json_get fields "error")); apply set_result_steady.
Qed.

Lemma not_processed_steady c v : steady c (not_processed c v).
Proof. unfold not_processed. destruct (_on_update c); steady_leaf. Qed.

Lemma on_exception_steady c v : steady c (on_exception c v).
Proof. unfold on_exception. simpl. destruct (_on_update c); steady_leaf. Qed.

Lemma process_redis_steady c msg msg_id :
  steady c (_process_redis_message c msg msg_id).
Proof.
  unfold _process_redis_message.
  destruct (json_getitem msg "result") as [msg_result|]; [|apply steady_refl].
  case_bool_decide; [apply steady_refl|].
  destruct (json_contains "msg_channel" msg_result) as [[|]|];
    [|apply not_processed_steady|apply steady_refl].
  destruct (json_getitem msg_result "msg_channel") as [[| | |channel| |]|];
    try apply steady_refl.
  destruct (_sensor_history_states c !! before_colon channel) as [state|] eqn:Hst;
    [|apply not_processed_steady].
  destruct (json_getitem msg_result "msg_data") as [msg_data|];
    [|apply steady_refl].
  destruct (receive_history state msg_data) as [state' warn].
  assert (Hkeep : forall ns,
            is_Some (_sensor_history_states c !! ns) ->
            is_Some (<[before_colon channel := state']>
                        (_sensor_history_states c) !! ns)).
  { intros ns Hns. destruct (decide (before_colon channel = ns)) as [->|Hne].
    - rewrite lookup_insert_eq. eauto.
    - by rewrite lookup_insert_ne. }
  destruct warn; (split; [|split; [|split; [|split]]]); simpl; try done;
    repeat apply prefix_app_r; reflexivity.
Qed.

Lemma handle_event_steady c ev c' :
  handle_event c ev = Some c' -> steady c c'.
Proof.
  destruct ev as [msg|]; simpl.
  - destruct msg as [|raw|msg]; simpl.
    + destruct (_disconnect_issued c); [|by destruct (_ws c)].
      intros [= <-]. steady_leaf.
    + intros [= <-]. eapply steady_trans; [|apply on_exception_steady].
      apply steady_refl.
    + destruct (json_getitem msg "id") as [v|].
      * destruct (py_str v) as [msg_id|]; [|done].
        destruct (String.prefix "redis-pubsub" msg_id).
        { intros [= <-]. eapply steady_trans; [|apply process_redis_steady].
          steady_leaf. }
        destruct (String.prefix "redis-reconnect" msg_id); [done|].
        intros [= <-]. eapply steady_trans; [|apply process_json_rpc_steady].
        steady_leaf.
      * intros [= <-]. eapply steady_trans; [|apply on_exception_steady].
        steady_leaf.
  - intros [= <-]. apply disconnect_steady.
Qed.

Lemma run_events_steady events : forall c, steady c (fst (run_events c events)).
Proof.
  induction events as [|ev rest IH]; intros c; simpl; [apply steady_refl|].
  destruct (handle_event c ev) as [c'|] eqn:Hev; [|apply steady_refl].
  eapply steady_trans; [eapply handle_event_steady; exact Hev|apply IH].
Qed.

Lemma wait_events_steady ns timeout events :
  forall c, steady c (fst (wait_events c ns timeout events)).
Proof.
  induction events as [|[t ev] rest IH]; intros c; simpl; [apply steady_refl|].
  destruct (negb (is_done c ns) && Qle_bool timeout t); [apply steady_refl|].
  destruct (handle_event c ev) as [c'|] eqn:Hev; [|apply steady_refl].
  eapply steady_trans; [eapply handle_event_steady; exact Hev|apply IH].
Qed.

Lemma wait_done_steady ns timeout events c :
  steady c (fst (wait_done c ns timeout events)).
Proof.
  unfold wait_done. destruct (is_done c ns); [apply steady_refl|].
  apply wait_events_steady.
Qed.

Lemma await_steady c future events : steady c (fst (await c future events)).
Proof.
  unfold await. destruct (future_outcome c future); try apply steady_refl.
  pose proof (run_events_steady events c) as Hrun.
  by destruct (run_events c events) as [c' []].
Qed.

Lemma steady_wrote c c' : steady c c' -> wrote c c' [].
Proof.
  intros (Hl & Hf & Hw & Hs & _). split; [done|]. split; [done|].
  split; [|done]. by rewrite Hw, app_nil_r.
Qed.

Lemma wrote_trans c1 c2 c3 l1 l2 :
  wrote c1 c2 l1 -> wrote c2 c3 l2 -> wrote c1 c3 (l1 ++ l2).
Proof.
  intros (Hl1 & Hf1 & Hw1 & Hs1) (Hl2 & Hf2 & Hw2 & Hs2).
  split; [by etrans|]. split; [by etrans|]. split; [|auto].
  by rewrite Hw2, Hw1, fmap_app, app_assoc.
Qed.

Lemma wrote_steady c1 c2 c3 l :
  wrote c1 c2 l -> steady c2 c3 -> wrote c1 c3 l.
Proof.
  intros H1 H2. rewrite <- (app_nil_r l).
  eapply wrote_trans; [exact H1|by apply steady_wrote].
Qed.

(** [_send] writes the request when the client is connected, and then the
    future is unresolved; otherwise it writes nothing and the future holds
    the exception. *)
Lemma send_wrote c req :
  (wrote c (fst (_send c req)) [req] /\
   future_outcome (fst (_send c req)) (snd (_send c req)) = Suspended) \/
  (wrote c (fst (_send c req)) [] /\
   future_outcome (fst (_send c req)) (snd (_send c req))
   = Raised not_connected_error).
Proof.
  unfold _send. destruct (_ws c) as [conn|]; simpl; [left|right].
  - split; [|by erewrite future_outcome_new by reflexivity].
    split; [reflexivity|]. split; [reflexivity|]. split; [|done].
    simpl. by rewrite fmap_app.
  - split; [|by erewrite future_outcome_new by reflexivity].
    split; [by apply prefix_app_r|]. split; [reflexivity|]. split; [|done].
    simpl. by rewrite app_nil_r.
Qed.

(** The three ways in which sending a request and recording it ends. *)
Lemma send_and_cache_wrote req events c :
  let c' := fst (send_and_cache req events c) in
  match snd (send_and_cache req events c) with
  | Returned _ => wrote c c' [req]
  | Raised e =>
      (wrote c c' [] /\ e = not_connected_error) \/
      (wrote c c' [req] /\ exists cache,
          Ledger._cache_jsonrpc_request cache req = Raise e)
  | Suspended => wrote c c' [req]
  end.
Proof.
  unfold send_and_cache.
  pose proof (send_wrote c req) as Hsend.
    destruct (_send c req) as [c1 future]. simpl in Hsend.
  pose proof (await_steady c1 future events) as Haw.
  unfold await in *.
  destruct Hsend as [[Hw Hfut]|[Hw Hfut]]; rewrite Hfut in *; simpl.
  - destruct (run_events c1 events) as [c2 [|]]; simpl in *.
    + destruct (future_outcome c2 future) as [result|e|] eqn:Hout; simpl.
      * destruct (Ledger._cache_jsonrpc_request (_ws_jsonrpc_cache c2) req)
          as [cache|e] eqn:Hcache; simpl.
        -- eapply wrote_steady; [exact Hw|].
           eapply steady_trans; [exact Haw|]. steady_leaf.
        -- right. split; [by eapply wrote_steady|]. eauto.
      * exfalso. unfold future_outcome in Hout, Hfut.
        destruct (futures c2 !! future) as [[]|] eqn:Hf2; try done.
        injection Hout as ->.
        destruct Haw as (_ & _ & _ & _ & Hx). apply Hx in Hf2.
        by rewrite Hf2 in Hfut.
      * by eapply wrote_steady.
    + by eapply wrote_steady.
  - left. by split.
Qed.

(** [connect] writes nothing. *)
Lemma connect_steady attempt c : steady c (fst (connect attempt c)).
Proof.
  unfold connect, _connect.
  destruct (_ws_connecting_lock c); [apply steady_refl|].
  rewrite is_connected_ws. simpl.
  destruct (_ws c) eqn:Hws; [steady_leaf|].
  destruct attempt as [conn|]; simpl;
    destruct (_heart_beat_timer c); simpl;
    rewrite ?is_connected_ws; simpl; rewrite ?Hws; simpl; steady_leaf.
Qed.

Lemma unsubscribe_recorded cache rid p :
  exists cache',
    Ledger._cache_jsonrpc_request cache (mkRequest rid "unsubscribe" p)
    = Ok cache'.
Proof.
  unfold Ledger._cache_jsonrpc_request, Ledger.unsubscribe_matches. simpl.
  rewrite remove_all_filter. eauto.
Qed.

Lemma subscribe_recorded cache rid p :
  exists cache',
    Ledger._cache_jsonrpc_request cache (mkRequest rid "subscribe" p)
    = Ok cache'.
Proof.
  rewrite appended_recorded; [eauto|]. split; [done|]. simpl. done.
Qed.

(** When the end of [sensor_history] raises, nothing has been written;
    when it returns, the warning has been logged if the result is as long
    as the maximum. *)
Lemma history_finish_wrote namespace o c :
  let c' := fst (history_finish namespace o c) in
  match snd (history_finish namespace o c) with
  | Returned result =>
      log c `prefix_of` log c' /\ fetched c `prefix_of` fetched c' /\
      ((MAX_SAMPLES_PER_HISTORY_QUERY <= Z.of_nat (length result))%Z ->
       LogMaxSampleLimit ∈ log c')
  | Raised _ => wrote c c' []
  | Suspended => True
  end.
Proof.
  unfold history_finish.
  set (result := sorted_by_timestamp _).
  set (c1 := if (_ <=? _)%Z then _ else c).
  assert (Hc1 : steady c c1) by (subst c1; case_match; steady_leaf).
  assert (Hmax : (MAX_SAMPLES_PER_HISTORY_QUERY <= Z.of_nat (length result))%Z
                 -> LogMaxSampleLimit ∈ log c1).
  { intros Hle. subst c1. rewrite (proj2 (Z.leb_le _ _) Hle). simpl.
    apply elem_of_app. right. by apply list_elem_of_singleton. }
  unfold unsubscribe.
  pose proof (send_and_cache_wrote
                (mkRequest (h_unsubscribe_id o) "unsubscribe"
                   [PStr namespace; PStrs ["*"]])
                (h_unsubscribe_events o) c1) as Hun.
  destruct (send_and_cache _ (h_unsubscribe_events o) c1) as [c2 [r|e|]];
    simpl in *; [| |done].
  - destruct Hun as (Hl & Hf & _). destruct Hc1 as (Hl1 & Hf1 & _).
    split; [by etrans|]. split; [by etrans|].
    intros Hle. destruct Hl as [k ->]. apply elem_of_app. left. auto.
  - destruct Hun as [[Hw _]|[_ [cache Hcache]]].
    + rewrite <- (app_nil_l []).
      eapply wrote_trans; [by apply steady_wrote|exact Hw].
    + destruct (unsubscribe_recorded cache (h_unsubscribe_id o)
                  [PStr namespace; PStrs ["*"]]) as [cache' Hok].
      congruence.
Qed.

Lemma history_download_wrote sensor_name start_time_sec end_time_sec
    timeout_sec o c :
  let r := history_download sensor_name start_time_sec end_time_sec
             timeout_sec o c in
  match snd r with
  | Returned result =>
      ((MAX_SAMPLES_PER_HISTORY_QUERY <= Z.of_nat (length result))%Z ->
       LogMaxSampleLimit ∈ log (fst r)) /\
      exists p, p ∈ fetched (fst r) /\ p_sensor p = sensor_name /\
                p_namespace p = h_namespace o /\
                p_limit p = MAX_SAMPLES_PER_HISTORY_QUERY
  | Raised _ => wrote c (fst r) []
  | Suspended => True
  end.
Proof.
  unfold history_download.
  set (c1 := add_log LogHistoryRequest _).
  assert (Hc1 : steady c c1) by (subst c1; steady_leaf).
  assert (Hp : exists p, p ∈ fetched c1 /\ p_sensor p = sensor_name /\
                         p_namespace p = h_namespace o /\
                         p_limit p = MAX_SAMPLES_PER_HISTORY_QUERY).
  { eexists. split; [subst c1; simpl; apply elem_of_app; right;
                     by apply list_elem_of_singleton|done]. }
  pose proof (run_events_steady (h_fetch_events o) c1) as Hrun.
  destruct (run_events c1 (h_fetch_events o)) as [c2 [|]]; simpl in *; [|done].
  assert (Hc2 : steady c c2) by (by eapply steady_trans).
  destruct (res_bind (h_fetch_result o) request_accepted) as [[|]|e]; simpl;
    [|by apply steady_wrote|by apply steady_wrote].
  pose proof (wait_done_steady (h_namespace o) timeout_sec
                (h_download_events o) c2) as Hwait.
  destruct (wait_done c2 (h_namespace o) timeout_sec (h_download_events o))
    as [c3 [| |]]; simpl in *; [| |done].
  - set (c4 := add_log (LogHistoryDone _) c3).
    assert (Hc4 : steady c c4).
    { eapply steady_trans; [exact Hc2|].
      eapply steady_trans; [exact Hwait|]. subst c4. steady_leaf. }
    pose proof (history_finish_wrote (h_namespace o) o c4) as Hfin.
    destruct (history_finish (h_namespace o) o c4) as [c5 [result|e|]];
      simpl in *; [| |done].
    + destruct Hfin as (Hl & Hf & Hmax). destruct Hc4 as (Hl4 & Hf4 & _).
      split; [done|].
      destruct Hp as (p & Hin & Hp). exists p. split; [|done].
      destruct Hc1 as (_ & Hf1 & _). destruct Hrun as (_ & Hf2 & _).
      destruct Hwait as (_ & Hf3 & _).
      assert (Hpre : fetched c1 `prefix_of` fetched c5).
      { etrans; [exact Hf2|]. etrans; [exact Hf3|]. exact Hf. }
      destruct Hpre as [k ->]. apply elem_of_app. by left.
    + rewrite <- (app_nil_l []).
      eapply wrote_trans; [by apply steady_wrote|exact Hfin].
  - apply steady_wrote. by eapply steady_trans.
Qed.

(** ** Sensor histories *)

Lemma handle_publication c namespace st channel msg_data :
  _sensor_history_states c !! namespace = Some st ->
  before_colon channel = namespace ->
  handle_event c (EvFrame (FJson (publication channel msg_data)))
  = Some (published c namespace st channel msg_data).
Proof.
  intros Hst Hns. unfold handle_event, websocket_message_with, published.
  simpl. unfold _process_redis_message. simpl. rewrite Hns, Hst.
  by destruct (receive_history st msg_data) as [st' []].
Qed.

Lemma receive_samples_repeat n : forall acc k,
  receive_samples false (repeat example_row n) acc k
  = (acc ++ repeat example_sample n, Ok (k + Z.of_nat n)%Z).
Proof.
  induction n as [|n IH]; intros acc k.
  - simpl. by rewrite app_nil_r, Z.add_0_r.
  - cbn [repeat receive_samples].
    change (convert_sample false example_row) with (Ok (Some example_sample)).
    cbv iota beta. rewrite IH. f_equal.
    + by rewrite <- app_assoc.
    + f_equal. lia.
Qed.

Lemma sorted_by_timestamp_length l :
  length (sorted_by_timestamp l) = length l.
Proof.
  unfold sorted_by_timestamp. induction l as [|x l IH]; [done|]. simpl.
  rewrite <- IH. generalize (foldr insert_sample [] l). clear.
  intros l. induction l as [|y l IH]; [done|]. simpl.
  destruct (Qle_bool (sample_timestamp x) (sample_timestamp y)); simpl;
    by rewrite ?IH.
Qed.

Lemma connect_connected attempt c conn :
  _ws c = Some conn -> _ws_connecting_lock c = false ->
  connect attempt c = (set_disconnect_issued false c, Returned tt).
Proof.
  intros Hws Hlock. unfold connect, _connect.
  rewrite Hlock, is_connected_ws. simpl. by rewrite Hws.
Qed.

Lemma published_fields c namespace st channel msg_data :
  _ws (published c namespace st channel msg_data) = _ws c /\
  _sensor_history_states (published c namespace st channel msg_data)
    !! namespace = Some (fst (receive_history st msg_data)).
Proof.
  unfold published. destruct (snd (receive_history st msg_data)); simpl;
    by rewrite lookup_insert_eq.
Qed.

Lemma history_finish_answered namespace o c conn st fields :
  _ws c = Some conn ->
  _sensor_history_states c !! namespace = Some st ->
  h_unsubscribe_events o = [EvFrame (FJson (JObj fields))] ->
  assoc "id" fields = Some (JStr (h_unsubscribe_id o)) ->
  plain_id (h_unsubscribe_id o) ->
  exists c',
    history_finish namespace o c
    = (c', Returned (sorted_by_timestamp (samples st))) /\
    ((MAX_SAMPLES_PER_HISTORY_QUERY
      <= Z.of_nat (length (sorted_by_timestamp (samples st))))%Z ->
     LogMaxSampleLimit ∈ log c').
Proof.
  intros Hws Hst Hev Hid Hplain. unfold history_finish. rewrite Hst, Hev.
  set (c1 := if (_ <=? _)%Z then _ else c).
  assert (Hws1 : _ws c1 = Some conn) by (subst c1; by case_match).
  unfold unsubscribe.
  erewrite (send_and_cache_response c1 conn) by done.
  destruct (unsubscribe_recorded (_ws_jsonrpc_cache c1) (h_unsubscribe_id o)
              [PStr namespace; PStrs ["*"]]) as [cache ->].
  eexists. split; [done|]. intros Hmax.
  change (LogMaxSampleLimit
            ∈ log (answered c1
                     (mkRequest (h_unsubscribe_id o) "unsubscribe"
                        [PStr namespace; PStrs ["*"]]) fields)).
  destruct (answered_fields c1 conn
              (mkRequest (h_unsubscribe_id o) "unsubscribe"
                 [PStr namespace; PStrs ["*"]]) fields Hws1)
    as (_ & _ & -> & _).
  apply elem_of_app. left. subst c1.
  rewrite (proj2 (Z.leb_le _ _) Hmax). simpl.
  apply elem_of_app. right. by apply list_elem_of_singleton.
Qed.

Lemma flood_run n c conn :
  _ws c = Some conn -> _ws_connecting_lock c = false ->
  exists c',
    sensor_history "anc_mean_wind_speed" 0 100 (PyBool false) 300
      (history_run (flood n)) c
    = (c', Returned (sorted_by_timestamp (repeat example_sample n))).
Proof.
  intros Hws Hlock. unfold sensor_history.
  cbn [history_run h_namespace h_connect_result h_subscribe_id
       h_subscribe_events].
  set (st0 := mkHistoryState _ _ _ _ _).
  rewrite (connect_connected _ _ conn) by done.
  unfold subscribe.
  erewrite (send_and_cache_response _ conn) by done.
  destruct (subscribe_recorded
              (_ws_jsonrpc_cache
                 (set_disconnect_issued false
                    (set_sensor_history_states
                       (<["ns-1":=st0]> (_sensor_history_states c)) c)))
              "q1" [PStr "ns-1"; PStrs ["*"]]) as [cache ->].
  set (c2 := set_ws_jsonrpc_cache cache _).
  assert (Hc2 : _ws c2 = Some conn /\
                _sensor_history_states c2 !! "ns-1" = Some st0).
  { subst c2. split.
    - exact (proj1 (answered_fields
                      (set_disconnect_issued false
                         (set_sensor_history_states
                            (<["ns-1":=st0]> (_sensor_history_states c)) c))
                      conn _ _ Hws)).
    - unfold answered. rewrite (send_connected _ conn) by done.
      simpl. apply lookup_insert_eq. }
  destruct Hc2 as [Hws2 Hst2]. clearbody c2.
  unfold history_download.
  cbn [history_run h_namespace h_fetch_events h_fetch_result
       h_download_events run_events res_bind].
  change (request_accepted (JObj [("result", JStr "success")])) with (Ok true).
  cbv iota.
  set (c3 := add_log LogHistoryRequest _).
  assert (Hc3 : _ws c3 = Some conn /\
                _sensor_history_states c3 !! "ns-1" = Some st0)
    by (subst c3; by split).
  destruct Hc3 as [Hws3 Hst3]. clearbody c3.
  unfold wait_done, is_done at 1. rewrite Hst3. cbn [done_event st0].
  unfold flood. cbn [wait_events].
  unfold is_done at 1. rewrite Hst3. cbn [done_event st0 negb andb].
  change (Qle_bool 300 1) with false. cbv iota.
  unfold samples_message, inform_message.
  rewrite (handle_publication c3 "ns-1" st0) by done.
  set (c4 := published c3 _ _ _ _).
  destruct (published_fields c3 "ns-1" st0 ("ns-1" ++ ":anc_mean_wind_speed")
              (JArr (repeat example_row n))) as [Hws4 Hst4].
  fold c4 in Hws4, Hst4. rewrite Hws3 in Hws4. clearbody c4.
  assert (Hrecv : receive_history st0 (JArr (repeat example_row n))
                  = (set_num_samples_pending (0 - (0 + Z.of_nat n))
                       (set_samples (repeat example_sample n) st0), false)).
  { unfold receive_history. cbn [include_value_ts st0 pynum_truthy samples].
    by rewrite receive_samples_repeat. }
  rewrite Hrecv in Hst4. cbn [fst] in Hst4.
  set (st1 := set_num_samples_pending _ _) in Hst4.
  unfold is_done at 1. rewrite Hst4. cbn [done_event st1 set_num_samples_pending
    set_samples st0 negb andb].
  change (Qle_bool 300 2) with false. cbv iota.
  rewrite (handle_publication c4 "ns-1" st1) by done.
  set (c5 := published c4 _ _ _ _).
  destruct (published_fields c4 "ns-1" st1 ("ns-1" ++ ":anc_mean_wind_speed")
              (JObj [("inform_type", JStr "sample_history");
                     ("inform_data",
                      JObj [("num_samples_to_be_published", JInt 0);
                            ("done", JBool true)])])) as [Hws5 Hst5].
  fold c5 in Hws5, Hst5. rewrite Hws4 in Hws5. clearbody c5.
  change (receive_history st1 _)
    with (set_done_event (set_num_samples_pending
                            (num_samples_pending st1 + 0) st1), false)
    in Hst5.
  cbn [fst] in Hst5. set (st2 := set_done_event _) in Hst5.
  unfold is_done. rewrite Hst5. cbn [done_event st2 set_done_event].
  destruct (history_finish_answered "ns-1"
              (history_run
                 [(1%Q, EvFrame (FJson (publication
                                          ("ns-1" ++ ":anc_mean_wind_speed")
                                          (JArr (repeat example_row n)))));
                  (2%Q, EvFrame (FJson (publication
                                          ("ns-1" ++ ":anc_mean_wind_speed")
                                          (JObj [("inform_type", JStr "sample_history");
                     ("inform_data",
                      JObj [("num_samples_to_be_published", JInt 0);
                            ("done", JBool true)])]))))])
              (add_log (LogHistoryDone (length (samples st2))) c5)
              conn st2 [("id", JStr "q2"); ("result", JInt 1)])
    as (c' & Hfin & Hmax); try done.
  exists c'. exact Hfin.
Qed.

(** C8 as it is written fails.  The portal publishes 1000001 rows for one
    query; [sensor_history] returns them all. *)
Lemma history_longer_than_the_maximum :
  exists c' result,
    sensor_history "anc_mean_wind_speed" 0 100 (PyBool false) 300
      (history_run (flood (Z.to_nat 1000001))) connected_client
    = (c', Returned result) /\
    (MAX_SAMPLES_PER_HISTORY_QUERY < Z.of_nat (length result))%Z.
Proof.
  destruct (flood_run (Z.to_nat 1000001) connected_client 1%nat
              eq_refl eq_refl) as [c' Hrun].
  exists c', (sorted_by_timestamp (repeat example_sample (Z.to_nat 1000001))).
  split; [exact Hrun|].
  rewrite sorted_by_timestamp_length, repeat_length, Z2Nat.id by lia.
  unfold MAX_SAMPLES_PER_HISTORY_QUERY. lia.
Qed.

(** C8, amended.  For every [sensor_history] call that returns: the
    request for the samples asked for at most
    [MAX_SAMPLES_PER_HISTORY_QUERY] samples, and the warning has been
    logged when the list returned has at least that many.  The client
    itself puts no bound on the list: for every length there is a call
    that returns a list of that length. *)
Theorem history_limit_is_left_to_the_portal (sensor_name : string)
    (start_time_sec end_time_sec : Q) (include_value_ts : pynum)
    (timeout_sec : Q) (o : history_oracle) (c c' : client)
    (result : list sample) :
  sensor_history sensor_name start_time_sec end_time_sec include_value_ts
                 timeout_sec o c = (c', Returned result) ->
  (exists p, p ∈ fetched c' /\ p_sensor p = sensor_name /\
             p_namespace p = h_namespace o /\
             p_limit p = MAX_SAMPLES_PER_HISTORY_QUERY) /\
  ((MAX_SAMPLES_PER_HISTORY_QUERY <= Z.of_nat (length result))%Z ->
   LogMaxSampleLimit ∈ log c') /\
  (forall n, exists o0 c1 result0,
      sensor_history "anc_mean_wind_speed" 0 100 (PyBool false) 300 o0
                     connected_client = (c1, Returned result0) /\
      length result0 = n).
Proof.
  intros Hrun. split; [|split].
  - unfold sensor_history in Hrun.
    destruct (connect _ _) as [c1 [[]|e|]]; [|done|done].
    destruct (subscribe _ _ _ _ c1) as [c2 [r|e|]]; [|done|done].
    pose proof (history_download_wrote sensor_name start_time_sec
                  end_time_sec timeout_sec o c2) as Hdl.
    rewrite Hrun in Hdl. simpl in Hdl. apply Hdl.
  - unfold sensor_history in Hrun.
    destruct (connect _ _) as [c1 [[]|e|]]; [|done|done].
    destruct (subscribe _ _ _ _ c1) as [c2 [r|e|]]; [|done|done].
    pose proof (history_download_wrote sensor_name start_time_sec
                  end_time_sec timeout_sec o c2) as Hdl.
    rewrite Hrun in Hdl. simpl in Hdl. apply Hdl.
  - intros n.
    destruct (flood_run n connected_client 1%nat eq_refl eq_refl)
      as [c1 Hflood].
    exists (history_run (flood n)), c1,
      (sorted_by_timestamp (repeat example_sample n)).
    split; [exact Hflood|].
    by rewrite sorted_by_timestamp_length, repeat_length.
Qed.

Lemma history_limit_is_left_to_the_portal_witness :
  exists p,
    p ∈ fetched (fst (sensor_history "anc_mean_wind_speed" 0 100
                        (PyBool false) 300 (history_run (done_after 40))
                        connected_client)) /\
    p_sensor p = "anc_mean_wind_speed" /\
    p_namespace p = "ns-1" /\
    p_limit p = MAX_SAMPLES_PER_HISTORY_QUERY.
Proof.
  refine (proj1 (history_limit_is_left_to_the_portal
                   "anc_mean_wind_speed" 0 100 (PyBool false) 300
                   (history_run (done_after 40)) connected_client _
                   [example_sample] _)).
  vm_compute. reflexivity.
Defined.

(** The failing input of C1: the query is accepted, one row arrives, and
    the message with [done] comes 400 seconds into a wait of 300.  The
    call raises the timeout; the state of the query, with the row, is
    still registered, the subscribe is still in the cache, and no
    unsubscribe has been written. *)
Lemma sensor_history_timeout_keeps_state :
  exists c',
    sensor_history "anc_mean_wind_speed" 0 100 (PyBool false) 300
      (history_run (done_after 400)) connected_client
    = (c', Raised timed_out_error) /\
    _sensor_history_states c' !! "ns-1"
    = Some (mkHistoryState "anc_mean_wind_speed" false 0 (PyBool false)
              [example_sample]) /\
    _ws_jsonrpc_cache c'
    = [mkRequest "q1" "subscribe" [PStr "ns-1"; PStrs ["*"]]] /\
    written c'
    = [(1%nat, WRequest (mkRequest "q1" "subscribe"
                           [PStr "ns-1"; PStrs ["*"]]))].
Proof. eexists. vm_compute. repeat split; reflexivity. Qed.

(** The same for every call and every exception: when [sensor_history]
    raises, the state of the query is still registered and nothing but
    the subscribe has been written. *)
Lemma sensor_history_raise_keeps_state sensor_name start_time_sec
    end_time_sec include_value_ts timeout_sec o c c' e :
  sensor_history sensor_name start_time_sec end_time_sec include_value_ts
                 timeout_sec o c = (c', Raised e) ->
  is_Some (_sensor_history_states c' !! h_namespace o) /\
  exists reqs,
    wrote c c' reqs /\
    (reqs = [] \/
     reqs = [mkRequest (h_subscribe_id o) "subscribe"
               [PStr (h_namespace o); PStrs ["*"]]]).
Proof.
  unfold sensor_history. intros Hrun.
  set (st := mkHistoryState _ _ _ _ _) in Hrun.
  set (c0 := set_sensor_history_states _ c) in Hrun.
  assert (Hc0 : steady c c0 /\
                is_Some (_sensor_history_states c0 !! h_namespace o)).
  { subst c0. split.
    - split; [|split; [|split; [|split]]]; simpl; try done.
      intros ns Hns. destruct (decide (h_namespace o = ns)) as [<-|Hne].
      + rewrite lookup_insert_eq. eauto.
      + by rewrite lookup_insert_ne.
    - simpl. rewrite lookup_insert_eq. eauto. }
  destruct Hc0 as [Hc0 Hst0].
  assert (Hkept : forall c1 reqs, wrote c0 c1 reqs ->
            is_Some (_sensor_history_states c1 !! h_namespace o) /\
            wrote c c1 reqs).
  { intros c1 reqs Hw. split; [by apply Hw|].
    rewrite <- (app_nil_l reqs).
    eapply wrote_trans; [by apply steady_wrote|exact Hw]. }
  pose proof (connect_steady (h_connect_result o) c0) as Hc1.
  destruct (connect _ c0) as [c1 [[]|e1|]]; simpl in Hc1; [| |done].
  - unfold subscribe in Hrun.
    pose proof (send_and_cache_wrote
                  (mkRequest (h_subscribe_id o) "subscribe"
                     [PStr (h_namespace o); PStrs ["*"]])
                  (h_subscribe_events o) c1) as Hsub.
    destruct (send_and_cache _ (h_subscribe_events o) c1) as [c2 [r|e2|]];
      simpl in Hsub; [| |done].
    + pose proof (history_download_wrote sensor_name start_time_sec
                    end_time_sec timeout_sec o c2) as Hdl.
      rewrite Hrun in Hdl. simpl in Hdl.
      destruct (Hkept c' [mkRequest (h_subscribe_id o) "subscribe"
                            [PStr (h_namespace o); PStrs ["*"]]])
        as [Hst Hw]; [|eauto].
      rewrite <- (app_nil_l [_]).
      eapply wrote_trans; [apply steady_wrote, Hc1|].
      rewrite <- (app_nil_r [_]). by eapply wrote_trans.
    + injection Hrun as <- <-.
      destruct Hsub as [[Hw _]|[Hw _]].
      * destruct (Hkept c2 []) as [Hst Hw']; [|eauto].
        rewrite <- (app_nil_l []).
        eapply wrote_trans; [apply steady_wrote, Hc1|exact Hw].
      * destruct (Hkept c2 [mkRequest (h_subscribe_id o) "subscribe"
                              [PStr (h_namespace o); PStrs ["*"]]])
          as [Hst Hw']; [|eauto].
        rewrite <- (app_nil_l [_]).
        eapply wrote_trans; [apply steady_wrote, Hc1|exact Hw].
  - injection Hrun as <- <-.
    destruct (Hkept c1 []) as [Hst Hw]; [by apply steady_wrote|eauto].
Qed.

(** The failing input of C2: one sensor, the flag of the caller off and
    ten seconds for the whole call, of which two have passed; the message
    with [done] comes 50 seconds into the wait.  [sensors_histories]
    returns samples with the value timestamp, after a wait longer than
    the time allowed; with the arguments in their places the call would
    have timed out, and with more time it would have returned samples
    without the value timestamp. *)
Lemma sensors_histories_misplaces_the_timeout :
  (exists c' histories,
      sensors_histories (PStr "anc_mean") 0 100 false 10 example_histories
                        connected_client
      = (c', Returned histories) /\
      histories !! "anc_mean_wind_speed"
      = Some [SensorSampleValueTs (1476164224429 # 1000)
                (1476164223640 # 1000) (JStr "5.07571614843")
                (JStr "nominal")]) /\
  snd (sensors_histories_documented (PStr "anc_mean") 0 100 false 10
         example_histories connected_client) = Raised timed_out_error /\
  (exists c' histories,
      sensors_histories_documented (PStr "anc_mean") 0 100 false 100
                                   example_histories connected_client
      = (c', Returned histories) /\
      histories !! "anc_mean_wind_speed" = Some [example_sample]).
Proof.
  split; [|split].
  - eexists _, _. split; [vm_compute; reflexivity|]. vm_compute. reflexivity.
  - vm_compute. reflexivity.
  - eexists _, _. split; [vm_compute; reflexivity|]. vm_compute. reflexivity.
Qed.

(** ** The cache inside the client *)

Lemma cache_kept_same c c' :
  _ws_jsonrpc_cache c' = _ws_jsonrpc_cache c -> cache_kept c c'.
Proof. unfold cache_kept. by intros ->. Qed.

Lemma cache_kept_trans c1 c2 c3 :
  cache_kept c1 c2 -> cache_kept c2 c3 -> cache_kept c1 c3.
Proof. unfold cache_kept. auto. Qed.

Lemma disconnect_cache c : cache_kept c (disconnect c).
Proof.
  assert (_ws_jsonrpc_cache (disconnect c) = []) as Hnil.
  { unfold disconnect. destruct (_heart_beat_timer c); simpl;
      by destruct (_ws c). }
  intros _. rewrite Hnil. constructor.
Qed.

Lemma process_json_rpc_cache c msg msg_id :
  _ws_jsonrpc_cache (_process_json_rpc_message c msg msg_id)
  = _ws_jsonrpc_cache c.
Proof.
  unfold _process_json_rpc_message. repeat case_match; reflexivity.
Qed.

Lemma process_redis_cache c msg msg_id :
  _ws_jsonrpc_cache (_process_redis_message c msg msg_id)
  = _ws_jsonrpc_cache c.
Proof.
  unfold _process_redis_message, not_processed.
  repeat case_match; reflexivity.
Qed.

Lemma on_exception_cache c v :
  _ws_jsonrpc_cache (on_exception c v) = _ws_jsonrpc_cache c.
Proof. unfold on_exception. simpl. by destruct (_on_update c). Qed.

Lemma handle_event_cache c ev c' :
  handle_event c ev = Some c' -> cache_kept c c'.
Proof.
  destruct ev as [msg|]; simpl.
  - intros Hev. apply cache_kept_same. revert Hev.
    destruct msg as [|raw|msg]; simpl.
    + destruct (_disconnect_issued c); [|by destruct (_ws c)].
      by intros [= <-].
    + intros [= <-]. apply on_exception_cache.
    + destruct (json_getitem msg "id") as [v|].
      * destruct (py_str v) as [msg_id|]; [|done].
        destruct (String.prefix "redis-pubsub" msg_id).
        { intros [= <-]. by rewrite process_redis_cache. }
        destruct (String.prefix "redis-reconnect" msg_id); [done|].
        intros [= <-]. by rewrite process_json_rpc_cache.
      * intros [= <-]. by rewrite on_exception_cache.
  - intros [= <-]. apply disconnect_cache.
Qed.

Lemma run_events_cache events : forall c,
  cache_kept c (fst (run_events c events)).
Proof.
  induction events as [|ev rest IH]; intros c; simpl; [by intros ?|].
  destruct (handle_event c ev) as [c'|] eqn:Hev; [|by intros ?].
  eapply cache_kept_trans; [eapply handle_event_cache; exact Hev|apply IH].
Qed.

Lemma wait_done_cache ns timeout events c :
  cache_kept c (fst (wait_done c ns timeout events)).
Proof.
  unfold wait_done. destruct (is_done c ns); [by intros ?|].
  revert c. induction events as [|[t ev] rest IH]; intros c; simpl;
    [by intros ?|].
  destruct (negb (is_done c ns) && Qle_bool timeout t); [by intros ?|].
  destruct (handle_event c ev) as [c'|] eqn:Hev; [|by intros ?].
  eapply cache_kept_trans; [eapply handle_event_cache; exact Hev|apply IH].
Qed.

Lemma await_cache c future events :
  cache_kept c (fst (await c future events)).
Proof.
  unfold await. destruct (future_outcome c future); try (by intros ?).
  pose proof (run_events_cache events c) as Hrun.
  by destruct (run_events c events) as [c' []].
Qed.

Lemma send_cache c req :
  _ws_jsonrpc_cache (fst (_send c req)) = _ws_jsonrpc_cache c.
Proof. unfold _send. by destruct (_ws c). Qed.

Lemma send_and_cache_cache req events c :
  cache_kept c (fst (send_and_cache req events c)).
Proof.
  unfold send_and_cache.
  pose proof (send_cache c req) as Hsend.
  destruct (_send c req) as [c1 future]. simpl in Hsend.
  pose proof (await_cache c1 future events) as Haw.
  destruct (await c1 future events) as [c2 [result|e|]]; simpl in *.
  - destruct (Ledger._cache_jsonrpc_request (_ws_jsonrpc_cache c2) req)
      as [cache|e] eqn:Hrec; simpl.
    + intros Hc. eapply Ledger.reachable_record; [|exact Hrec].
      apply Haw. by rewrite Hsend.
    + intros Hc. apply Haw. by rewrite Hsend.
  - intros Hc. apply Haw. by rewrite Hsend.
  - intros Hc. apply Haw. by rewrite Hsend.
Qed.

Lemma resend_cache reqs : forall script c,
  cache_kept c (fst (resend reqs script c)).
Proof.
  induction reqs as [|req rest IH]; intros script c; simpl; [by intros ?|].
  pose proof (send_cache (add_log (LogResending req) c) req) as Hsend.
  destruct (_send (add_log (LogResending req) c) req) as [c1 future].
  simpl in Hsend.
  pose proof (await_cache c1 future (hd [] script)) as Haw.
  destruct (await c1 future (hd [] script)) as [c2 [result|e|]]; simpl in *.
  - eapply cache_kept_trans; [|apply IH].
    intros Hc. apply Haw. by rewrite Hsend.
  - intros Hc. apply Haw. by rewrite Hsend.
  - intros Hc. apply Haw. by rewrite Hsend.
Qed.

Lemma connect_cache reconnecting attempt script c :
  cache_kept c (fst (_connect reconnecting attempt script c)).
Proof.
  unfold _connect. destruct (_ws_connecting_lock c); [by intros ?|].
  destruct (is_connected (set_disconnect_issued false c)); [by intros ?|].
  set (c1 := if _heart_beat_timer _ then _ else _).
  assert (H1 : _ws_jsonrpc_cache c1 = _ws_jsonrpc_cache c)
    by (subst c1; simpl; by destruct (_heart_beat_timer c)).
  clearbody c1.
  destruct attempt as [conn|].
  - destruct reconnecting.
    + unfold _resend_subscriptions_and_strategies.
      pose proof (resend_cache
                    (_ws_jsonrpc_cache
                       (set_ws_connecting_lock true (set_ws (Some conn) c1)))
                    script
                    (set_ws_connecting_lock true (set_ws (Some conn) c1)))
        as Hre.
      destruct (resend _ script _) as [c2 [[]|e|]]; simpl in *;
        intros Hc; rewrite <- H1 in Hc; apply Hre in Hc;
        by rewrite ?andb_false_r.
    + apply cache_kept_same. simpl. exact H1.
  - apply cache_kept_same. destruct reconnecting; simpl;
      rewrite ?andb_false_r, ?andb_true_r; simpl; try exact H1.
    by destruct (negb (is_connected (add_log LogCouldNotConnect c1))).
Qed.

Lemma websocket_message_cache o c msg c' r :
  _websocket_message o c msg = Some (c', r) -> cache_kept c c'.
Proof.
  unfold _websocket_message, websocket_message_with.
  destruct msg as [|raw|msg]; simpl.
  - destruct (_disconnect_issued c);
      [intros [= <- <-]; by apply cache_kept_same|].
    set (c1 := match _ws c with Some _ => _ | None => _ end).
    assert (H1 : _ws_jsonrpc_cache c1 = _ws_jsonrpc_cache c)
      by (subst c1; by destruct (_ws c)).
    pose proof (connect_cache true (connect_result o) (resend_script o) c1)
      as Hco.
    intros [= Heq]. rewrite Heq in Hco. simpl in Hco.
    intros Hc. apply Hco. by rewrite H1.
  - intros [= <- <-]. apply cache_kept_same, on_exception_cache.
  - destruct (json_getitem msg "id") as [v|].
    + destruct (py_str v) as [msg_id|]; [|done].
      destruct (String.prefix "redis-pubsub" msg_id).
      { intros [= <- <-]. apply cache_kept_same.
        by rewrite process_redis_cache. }
      destruct (String.prefix "redis-reconnect" msg_id).
      * pose proof (resend_cache
                      (filter (fun req => method req = "subscribe")
                         (_ws_jsonrpc_cache
                            (add_log (LogMessageReceived msg) c)))
                      (resend_script o)
                      (add_log (LogMessageReceived msg) c)) as Hre.
        unfold _resend_subscriptions.
        destruct (resend _ (resend_script o) _) as [c2 [[]|e|]];
          simpl in *; intros [= <- <-]; try exact Hre.
        eapply cache_kept_trans; [exact Hre|].
        apply cache_kept_same, on_exception_cache.
      * intros [= <- <-]. apply cache_kept_same.
        by rewrite process_json_rpc_cache.
    + intros [= <- <-]. apply cache_kept_same.
      by rewrite on_exception_cache.
Qed.

Lemma sensor_history_cache sensor_name start_time_sec end_time_sec
    include_value_ts timeout_sec o c :
  cache_kept c (fst (sensor_history sensor_name start_time_sec end_time_sec
                       include_value_ts timeout_sec o c)).
Proof.
  unfold sensor_history.
  set (c0 := set_sensor_history_states _ c).
  pose proof (connect_cache false (h_connect_result o) [] c0) as Hco.
  fold (connect (h_connect_result o) c0) in Hco.
  destruct (connect (h_connect_result o) c0) as [c1 [[]|e|]]; simpl in *;
    try exact Hco.
  unfold subscribe.
  pose proof (send_and_cache_cache
                (mkRequest (h_subscribe_id o) "subscribe"
                   [PStr (h_namespace o); PStrs ["*"]])
                (h_subscribe_events o) c1) as Hsub.
  destruct (send_and_cache _ (h_subscribe_events o) c1) as [c2 [r|e|]];
    simpl in *; try (eapply cache_kept_trans; [exact Hco|exact Hsub]).
  eapply cache_kept_trans; [exact Hco|].
  eapply cache_kept_trans; [exact Hsub|].
  unfold history_download.
  set (c3 := add_log LogHistoryRequest _).
  pose proof (run_events_cache (h_fetch_events o) c3) as Hrun.
  destruct (run_events c3 (h_fetch_events o)) as [c4 [|]]; simpl in *;
    [|exact Hrun].
  eapply cache_kept_trans; [exact Hrun|].
  destruct (res_bind (h_fetch_result o) request_accepted) as [[|]|e]; simpl;
    try (by intros ?).
  pose proof (wait_done_cache (h_namespace o) timeout_sec
                (h_download_events o) c4) as Hwait.
  destruct (wait_done c4 (h_namespace o) timeout_sec (h_download_events o))
    as [c5 [| |]]; simpl in *; try exact Hwait.
  eapply cache_kept_trans; [exact Hwait|].
  unfold history_finish, unsubscribe.
  set (c6 := if (_ <=? _)%Z then _ else _).
  assert (H6 : _ws_jsonrpc_cache c6 = _ws_jsonrpc_cache c5)
    by (subst c6; by case_match).
  pose proof (send_and_cache_cache
                (mkRequest (h_unsubscribe_id o) "unsubscribe"
                   [PStr (h_namespace o); PStrs ["*"]])
                (h_unsubscribe_events o) c6) as Hun.
  destruct (send_and_cache _ (h_unsubscribe_events o) c6) as [c7 [r'|e|]];
    simpl in *; intros Hc; apply Hun; by rewrite H6.
Qed.

Lemma histories_loop_cache sensors : forall start_sec end_sec budget_sec
    began_sec runs histories c,
  cache_kept c (fst (histories_loop sensors start_sec end_sec budget_sec
                       began_sec runs histories c)).
Proof.
  induction sensors as [|sensor rest IH];
    intros start_sec end_sec budget_sec began_sec runs histories c; simpl;
    [by intros ?|].
  destruct runs as [|[now o] runs']; [by intros ?|].
  pose proof (sensor_history_cache sensor start_sec end_sec
                (PyNum (budget_sec - (now - began_sec))%Q)
                default_timeout_sec o c) as Hh.
  destruct (sensor_history _ _ _ _ _ o c) as [c1 [history|e|]]; simpl in *;
    try exact Hh.
  eapply cache_kept_trans; [exact Hh|apply IH].
Qed.

(** Whatever is called on the client, its cache stays one of the caches
    that recording and disconnecting reach. *)
Lemma client_cache_reachable c :
  Ledger.reachable (_ws_jsonrpc_cache c) ->
  Ledger.reachable (_ws_jsonrpc_cache (disconnect c)) /\
  (forall attempt,
      Ledger.reachable (_ws_jsonrpc_cache (fst (connect attempt c)))) /\
  (forall req events,
      Ledger.reachable (_ws_jsonrpc_cache (fst (send_and_cache req events c))))
  /\
  (forall o msg c' r,
      _websocket_message o c msg = Some (c', r) ->
      Ledger.reachable (_ws_jsonrpc_cache c')) /\
  (forall sensor_name start_time_sec end_time_sec include_value_ts
          timeout_sec o,
      Ledger.reachable
        (_ws_jsonrpc_cache
           (fst (sensor_history sensor_name start_time_sec end_time_sec
                   include_value_ts timeout_sec o c)))) /\
  (forall filters start_time_sec end_time_sec include_value_ts timeout_sec o,
      Ledger.reachable
        (_ws_jsonrpc_cache
           (fst (sensors_histories filters start_time_sec end_time_sec
                   include_value_ts timeout_sec o c)))).
Proof.
  intros Hc. split; [by apply disconnect_cache|].
  split; [intros; by apply connect_cache|].
  split; [intros; by apply send_and_cache_cache|].
  split; [intros o msg c' r Hrun; by eapply websocket_message_cache|].
  split; [intros; by apply sensor_history_cache|].
  intros. unfold sensors_histories.
  destruct (sensor_names_result o); [|done].
  by apply histories_loop_cache.
Qed.

(** * Further properties *)

(** ** More about the cache of requests *)

(** X1.  A [set_sampling_strategy] or [set_sampling_strategies] request
    with the strategy ["none"] is not cached: it takes out of the cache
    every entry of the same method for the same namespace and sensor (or
    filter), whatever the strategy and the [persist_to_redis] flag of the
    entry, and leaves the other entries in their order.  So a strategy that
    is set and then cleared leaves the cache as it was before, less the
    entries for that sensor.  The cached entries of that method have at
    least two params, as the ones the client makes have. *)
Theorem strategy_none_clears (cache : list JSONRPCRequest) (m : string)
    (namespace target : pyval) (strategy : string) (persist persist' : bool)
    (id1 id2 : string) :
  String.prefix "set_sampling_strat" m = true ->
  strategy <> "none" ->
  Forall (fun req => method req = m -> (2 <= length (params req))%nat) cache ->
  exists cache1,
    Ledger._cache_jsonrpc_request cache
      (mkRequest id1 m [namespace; target; PStr strategy; PBool persist])
    = Ok cache1 /\
    Ledger._cache_jsonrpc_request cache1
      (mkRequest id2 m [namespace; target; PStr "none"; PBool persist'])
    = Ok (filter (fun req => ~ strategy_of m namespace target req) cache).
Proof.
  intros Hpre Hstrat Hall.
  assert (Hun : m <> "unsubscribe").
  { intros ->. by vm_compute in Hpre. }
  set (set := mkRequest id1 m [namespace; target; PStr strategy; PBool persist]).
  assert (Happ : Ledger.appended set).
  { split; [done|]. intros _. exists (PStr strategy). split; [done|].
    by intros [= ?]. }
  exists (if Ledger.duplicate_found set cache then cache else cache ++ [set]).
  split; [by apply appended_recorded|].
  unfold Ledger._cache_jsonrpc_request. simpl.
  rewrite bool_decide_eq_false_2 by done. rewrite Hpre. simpl.
  set (cache1 := if Ledger.duplicate_found set cache then _ else _).
  assert (Hall1 : Forall (fun req => method req = m ->
                                     (2 <= length (params req))%nat) cache1).
  { subst cache1. destruct (Ledger.duplicate_found set cache); [done|].
    apply Forall_app. split; [done|]. apply Forall_singleton. simpl. lia. }
  rewrite (strategy_matches_total
             (mkRequest id2 m [namespace; target; PStr "none"; PBool persist'])
             namespace target [PStr "none"; PBool persist'] cache1 eq_refl Hall1).
  simpl. rewrite remove_all_filter. f_equal.
  subst cache1. destruct (Ledger.duplicate_found set cache); [done|].
  rewrite filter_app, filter_cons_False, filter_nil, app_nil_r; [done|].
  intros Hnot. apply Hnot. by split.
Qed.

Lemma strategy_none_clears_witness :
  exists cache1,
    Ledger._cache_jsonrpc_request [example_subscribe; example_strategy]
      (mkRequest "c1" "set_sampling_strategy"
         [PStr "ns"; PStr "s"; PStr "event"; PBool true])
    = Ok cache1 /\
    Ledger._cache_jsonrpc_request cache1
      (mkRequest "c2" "set_sampling_strategy"
         [PStr "ns"; PStr "s"; PStr "none"; PBool false])
    = Ok (filter (fun req => ~ strategy_of "set_sampling_strategy"
                                 (PStr "ns") (PStr "s") req)
            [example_subscribe; example_strategy]).
Proof.
  apply (strategy_none_clears [example_subscribe; example_strategy]
           "set_sampling_strategy" (PStr "ns") (PStr "s") "event" true false
           "c1" "c2" eq_refl).
  - discriminate.
  - repeat constructor; simpl; intros; lia.
Defined.

(** X2.  Recording a request never reorders the cache: the result is the
    old cache with some entries taken out, or the old cache with the
    request at its end, and then no entry had its method and params. *)
Theorem recording_keeps_the_order (cache cache' : list JSONRPCRequest)
    (req : JSONRPCRequest) :
  Ledger._cache_jsonrpc_request cache req = Ok cache' ->
  cache' `sublist_of` cache \/
  (cache' = cache ++ [req] /\ Ledger.entries_like req cache = 0%nat).
Proof.
  intros Hrec.
  destruct (cache_request_cases _ _ _ Hrec) as [(P & HP & ->)|(-> & Hnone & _)].
  - left. apply sublist_filter.
  - by right.
Qed.

Lemma recording_keeps_the_order_witness :
  [example_subscribe] `sublist_of` [example_subscribe; example_strategy] \/
  ([example_subscribe] = [example_subscribe; example_strategy] ++
                         [mkRequest "c2" "set_sampling_strategy"
                            [PStr "ns"; PStr "s"; PStr "none"; PBool false]] /\
   Ledger.entries_like (mkRequest "c2" "set_sampling_strategy"
                          [PStr "ns"; PStr "s"; PStr "none"; PBool false])
                       [example_subscribe; example_strategy] = 0%nat).
Proof.
  exact (recording_keeps_the_order [example_subscribe; example_strategy]
           [example_subscribe]
           (mkRequest "c2" "set_sampling_strategy"
              [PStr "ns"; PStr "s"; PStr "none"; PBool false]) eq_refl).
Defined.

(** ** Connecting and disconnecting *)

(** X3.  After [disconnect] the frame that tells that the connection has
    closed starts no reconnect: the client stays without a connection, with
    the flag set, the heart beat stopped and the cache empty; nothing is
    written, no retry is put on the IOLoop, and the one connection there
    was has been closed once. *)
Theorem no_reconnect_after_disconnect (o : reconnect_oracle) (c : client) :
  exists c',
    _websocket_message o (disconnect c) FClosed = Some (c', Returned tt) /\
    _ws c' = None /\
    _disconnect_issued c' = true /\
    _heart_beat_timer c' = false /\
    _ws_jsonrpc_cache c' = [] /\
    written c' = written c /\
    call_later c' = call_later c /\
    closed c' = closed c ++ match _ws c with Some conn => [conn] | None => [] end.
Proof.
  unfold _websocket_message, websocket_message_with, disconnect.
  destruct c as [ws lk ou pr fu hs di ca hb wr cl up la fe lo].
  destruct ws as [conn|], hb; simpl; eexists; (split; [reflexivity|]);
    simpl; rewrite ?app_nil_r; repeat split; reflexivity.
Qed.

(** X4.  When [websocket_connect] raises, [_connect] returns normally and
    leaves the client without a connection and without a heart beat.  Only
    a reconnect puts a retry on the IOLoop, after [WS_RECONNECT_INTERVAL]
    seconds; a first connect logs that it failed and is not tried again. *)
Theorem failed_connect_retries_only_when_reconnecting (reconnecting : bool)
    (script : list (list event)) (c : client) :
  _ws c = None ->
  _ws_connecting_lock c = false ->
  exists c',
    _connect reconnecting None script c = (c', Returned tt) /\
    _ws c' = None /\
    _heart_beat_timer c' = false /\
    call_later c' = (if reconnecting
                     then call_later c ++ [WS_RECONNECT_INTERVAL]
                     else call_later c) /\
    written c' = written c /\
    (reconnecting = false -> LogFailedToConnect ∈ log c').
Proof.
  intros Hws Hlock.
  destruct c as [ws lk ou pr fu hs di ca hb wr cl up la fe lo].
  simpl in *. subst ws lk. unfold _connect. simpl.
  destruct hb, reconnecting; simpl; eexists; (split; [reflexivity|]);
    simpl; repeat split; try reflexivity; try discriminate;
    intros _; rewrite !elem_of_app, ?list_elem_of_singleton; auto.
Qed.

Lemma failed_connect_retries_only_when_reconnecting_witness :
  exists c',
    _connect true None [] (new_client true) = (c', Returned tt) /\
    _ws c' = None /\
    _heart_beat_timer c' = false /\
    call_later c' = call_later (new_client true) ++ [WS_RECONNECT_INTERVAL] /\
    written c' = written (new_client true) /\
    (true = false -> LogFailedToConnect ∈ log c').
Proof.
  exact (failed_connect_retries_only_when_reconnecting true [] (new_client true)
           eq_refl eq_refl).
Defined.

(** X5.  [connect] on a client without a connection opens one and starts
    the heart beat without writing anything; a second [connect] then
    returns at once and leaves the client as it is, whatever
    [websocket_connect] would have given. *)
Theorem a_second_connect_does_nothing (conn : nat) (attempt : option nat)
    (c : client) :
  _ws c = None ->
  _ws_connecting_lock c = false ->
  let c1 := fst (connect (Some conn) c) in
  connect (Some conn) c = (c1, Returned tt) /\
  _ws c1 = Some conn /\
  _heart_beat_timer c1 = true /\
  written c1 = written c /\
  connect attempt c1 = (c1, Returned tt).
Proof.
  intros Hws Hlock.
  destruct c as [ws lk ou pr fu hs di ca hb wr cl up la fe lo].
  simpl in *. subst ws lk.
  unfold connect, _connect. simpl. destruct hb; simpl; repeat split.
Qed.

Lemma a_second_connect_does_nothing_witness :
  let c1 := fst (connect (Some 1%nat) (new_client true)) in
  connect (Some 1%nat) (new_client true) = (c1, Returned tt) /\
  _ws c1 = Some 1%nat /\
  _heart_beat_timer c1 = true /\
  written c1 = written (new_client true) /\
  connect None c1 = (c1, Returned tt).
Proof.
  exact (a_second_connect_does_nothing 1 None (new_client true)
           eq_refl eq_refl).
Defined.

(** ** Frames *)

Lemma on_exception_only_notified c upd :
  only_notified c (on_exception c upd) upd.
Proof.
  unfold only_notified, on_exception. simpl.
  destruct (_on_update c); simpl; repeat split; reflexivity.
Qed.

Lemma only_notified_log c c' r upd :
  only_notified (add_log r c) c' upd -> only_notified c c' upd.
Proof. done. Qed.

(** X6.  A frame that is not JSON, and a JSON frame that has no [id], is
    handed to the update callback as it is (the text, or the parsed value),
    when there is a callback; the handler returns normally, and the
    connection, the futures, the pending requests, the history states and
    the cache are as before. *)
Theorem frame_without_id_goes_to_the_callback (o : reconnect_oracle)
    (c : client) (raw : string) (msg : json) (e : exn) :
  json_getitem msg "id" = Raise e ->
  (exists c', _websocket_message o c (FMalformed raw) = Some (c', Returned tt) /\
              only_notified c c' (UpdRaw raw)) /\
  (exists c', _websocket_message o c (FJson msg) = Some (c', Returned tt) /\
              only_notified c c' (UpdJson msg)).
Proof.
  intros Hid. split.
  - eexists. split; [reflexivity|]. apply on_exception_only_notified.
  - unfold _websocket_message, websocket_message_with. rewrite Hid.
    eexists. split; [reflexivity|].
    apply (only_notified_log c _ (LogMessageReceived msg)).
    apply on_exception_only_notified.
Qed.

Lemma frame_without_id_goes_to_the_callback_witness :
  (exists c', _websocket_message disconnected_meanwhile connected_client
                (FMalformed "{") = Some (c', Returned tt) /\
              only_notified connected_client c' (UpdRaw "{")) /\
  (exists c', _websocket_message disconnected_meanwhile connected_client
                (FJson (JObj [("result", JInt 1)])) = Some (c', Returned tt) /\
              only_notified connected_client c'
                (UpdJson (JObj [("result", JInt 1)]))).
Proof.
  exact (frame_without_id_goes_to_the_callback disconnected_meanwhile
           connected_client "{" (JObj [("result", JInt 1)]) KeyError eq_refl).
Defined.

(** The handler of a frame with a plain id. *)
Lemma websocket_message_plain o c fields v msg_id :
  assoc "id" fields = Some v ->
  py_str v = Some msg_id ->
  plain_id msg_id ->
  _websocket_message o c (FJson (JObj fields))
  = Some (_process_json_rpc_message
            (add_log (LogMessageReceived (JObj fields)) c)
            (JObj fields) msg_id, Returned tt).
Proof.
  intros Hid Hstr [Hpub Hre].
  unfold _websocket_message, websocket_message_with. simpl.
  rewrite Hid, Hstr, Hpub, Hre. reflexivity.
Qed.

(** X7.  A response, a frame whose id is neither a publication nor a
    redis-reconnect notice, changes no future but the one that is pending
    under its id; when no request is pending under the id no future changes
    at all.  Nothing is written, and the update callback is not called. *)
Theorem response_resolves_only_its_future (o : reconnect_oracle) (c : client)
    (fields : list (string * json)) (v : json) (msg_id : string) :
  assoc "id" fields = Some v ->
  py_str v = Some msg_id ->
  plain_id msg_id ->
  exists c',
    _websocket_message o c (FJson (JObj fields)) = Some (c', Returned tt) /\
    length (futures c') = length (futures c) /\
    (forall future,
        _pending_requests c !! msg_id <> Some future ->
        futures c' !! future = futures c !! future) /\
    _ws c' = _ws c /\
    written c' = written c /\
    updates c' = updates c /\
    _ws_jsonrpc_cache c' = _ws_jsonrpc_cache c.
Proof.
  intros Hid Hstr Hplain.
  rewrite (websocket_message_plain o c fields v msg_id Hid Hstr Hplain).
  eexists. split; [reflexivity|].
  unfold _process_json_rpc_message. simpl.
  destruct (_pending_requests c !! msg_id) as [future|] eqn:Hp.
  - unfold set_result.
    destruct (json_truthy (json_get fields "error")); simpl;
      rewrite length_insert; repeat split; try reflexivity;
      intros future' Hne; apply list_lookup_insert_ne; congruence.
  - simpl. repeat split; reflexivity.
Qed.

Lemma response_resolves_only_its_future_witness :
  exists c',
    _websocket_message disconnected_meanwhile
      (fst (_send connected_client example_subscribe))
      (FJson example_response) = Some (c', Returned tt) /\
    length (futures c')
    = length (futures (fst (_send connected_client example_subscribe))) /\
    (forall future,
        _pending_requests (fst (_send connected_client example_subscribe))
          !! "a1" <> Some future ->
        futures c' !! future
        = futures (fst (_send connected_client example_subscribe)) !! future) /\
    _ws c' = _ws (fst (_send connected_client example_subscribe)) /\
    written c' = written (fst (_send connected_client example_subscribe)) /\
    updates c' = updates (fst (_send connected_client example_subscribe)) /\
    _ws_jsonrpc_cache c'
    = _ws_jsonrpc_cache (fst (_send connected_client example_subscribe)).
Proof.
  apply (response_resolves_only_its_future disconnected_meanwhile
           (fst (_send connected_client example_subscribe))
           [("id", JStr "a1"); ("result", JInt 1)] (JStr "a1") "a1"
           eq_refl eq_refl).
  split; reflexivity.
Defined.

(** X8.  Two requests with different ids that are sent on an open
    connection are both pending; when the responses come in the other
    order, each future is resolved with the payload of the response that
    has its id. *)
Theorem responses_in_any_order (c : client) (conn : nat)
    (req1 req2 : JSONRPCRequest) (fields1 fields2 : list (string * json)) :
  _ws c = Some conn ->
  id req1 <> id req2 ->
  plain_id (id req1) -> plain_id (id req2) ->
  assoc "id" fields1 = Some (JStr (id req1)) ->
  assoc "id" fields2 = Some (JStr (id req2)) ->
  let sent1 := _send c req1 in
  let sent2 := _send (fst sent1) req2 in
  exists c',
    run_events (fst sent2) [EvFrame (FJson (JObj fields2));
                            EvFrame (FJson (JObj fields1))] = (c', true) /\
    future_outcome (fst sent2) (snd sent1) = Suspended /\
    future_outcome (fst sent2) (snd sent2) = Suspended /\
    future_outcome c' (snd sent1) = Returned (response_payload fields1) /\
    future_outcome c' (snd sent2) = Returned (response_payload fields2).
Proof.
  intros Hws Hne Hp1 Hp2 Hid1 Hid2 sent1 sent2.
  subst sent1 sent2.
  rewrite (send_connected c conn req1 Hws). cbn [fst snd].
  set (c1 := set_written _ _).
  assert (Hws1 : _ws c1 = Some conn) by exact Hws.
  rewrite (send_connected c1 conn req2 Hws1). cbn [fst snd].
  set (c2 := set_written _ _).
  assert (Hpend1 : _pending_requests c2 !! id req1 = Some (length (futures c))).
  { subst c2 c1. simpl. rewrite lookup_insert_ne by done.
    apply lookup_insert_eq. }
  assert (Hpend2 : _pending_requests c2 !! id req2
                   = Some (length (futures c1))).
  { subst c2. simpl. apply lookup_insert_eq. }
  assert (Hf1 : futures c1 = futures c ++ [FPending]) by reflexivity.
  assert (Hf2 : futures c2 = (futures c ++ [FPending]) ++ [FPending])
    by reflexivity.
  unfold run_events.
  rewrite (handle_response c2 fields2 (id req2) Hid2 Hp2).
  rewrite (process_response _ fields2 (id req2) (length (futures c1)))
    by exact Hpend2.
  set (c3 := set_result _ _ _).
  rewrite (handle_response c3 fields1 (id req1) Hid1 Hp1).
  rewrite (process_response _ fields1 (id req1) (length (futures c)))
    by exact Hpend1.
  eexists. split; [reflexivity|].
  unfold future_outcome. subst c3 c2 c1. clear. simpl.
  rewrite !length_app. simpl.
  generalize (futures c). intros l.
  rewrite <-(app_assoc l [FPending] [FPending]). simpl.
  repeat split.
  - rewrite lookup_app_r by lia. by rewrite Nat.sub_diag.
  - rewrite lookup_app_r by lia.
    by replace (length l + 1 - length l)%nat with 1%nat by lia.
  - rewrite list_lookup_insert_eq; [done|].
    rewrite length_insert, length_app. simpl. lia.
  - rewrite list_lookup_insert_ne by lia.
    rewrite list_lookup_insert_eq; [done|].
    rewrite length_app. simpl. lia.
Qed.

Lemma responses_in_any_order_witness :
  let sent1 := _send connected_client example_subscribe in
  let sent2 := _send (fst sent1) example_strategy in
  exists c',
    run_events (fst sent2)
      [EvFrame (FJson (JObj [("id", JStr "a2"); ("result", JInt 2)]));
       EvFrame (FJson (JObj [("id", JStr "a1"); ("result", JInt 1)]))]
    = (c', true) /\
    future_outcome (fst sent2) (snd sent1) = Suspended /\
    future_outcome (fst sent2) (snd sent2) = Suspended /\
    future_outcome c' (snd sent1)
    = Returned (response_payload [("id", JStr "a1"); ("result", JInt 1)]) /\
    future_outcome c' (snd sent2)
    = Returned (response_payload [("id", JStr "a2"); ("result", JInt 2)]).
Proof.
  apply (responses_in_any_order connected_client 1 example_subscribe
           example_strategy [("id", JStr "a1"); ("result", JInt 1)]
           [("id", JStr "a2"); ("result", JInt 2)] eq_refl).
  - discriminate.
  - split; reflexivity.
  - split; reflexivity.
  - reflexivity.
  - reflexivity.
Defined.

(** The handler of a frame that tells that the portal has connected to
    redis again. *)
Lemma websocket_message_redis_reconnect o c fields tail :
  assoc "id" fields = Some (JStr ("redis-reconnect" ++ tail)%string) ->
  _websocket_message o c (FJson (JObj fields))
  = match _resend_subscriptions (resend_script o)
            (add_log (LogMessageReceived (JObj fields)) c) with
    | (c', Raised _) => Some (on_exception c' (UpdJson (JObj fields)), Returned tt)
    | r => Some r
    end.
Proof.
  intros Hid. unfold _websocket_message, websocket_message_with.
  cbn [json_getitem]. rewrite Hid. cbn [py_str].
  change (String.prefix "redis-pubsub" ("redis-reconnect" ++ tail)%string)
    with false.
  replace (String.prefix "redis-reconnect" ("redis-reconnect" ++ tail)%string)
    with true by (by destruct tail).
  cbv iota.
  destruct (_resend_subscriptions _ _) as [c' [[]|e|]]; reflexivity.
Qed.

Lemma send_updates c req : updates (fst (_send c req)) = updates c.
Proof. unfold _send. by destruct (_ws c). Qed.

Lemma resent_updates reqs : forall payloads c,
  updates (resent reqs payloads c) = updates c.
Proof.
  induction reqs as [|req reqs IH]; intros [|fields payloads] c;
    try reflexivity.
  simpl. rewrite IH. unfold answered. simpl.
  apply (send_updates (add_log (LogResending req) c)).
Qed.

(** X9.  On a [redis-reconnect] frame the client writes the cached
    [subscribe] requests again, in the order of the cache, and no sampling
    strategy; when each is answered in turn the handler returns, and the
    cache, the connection and the updates are as before. *)
Theorem redis_reconnect_resends_the_subscriptions (o : reconnect_oracle)
    (c : client) (conn : nat) (fields : list (string * json)) (tail : string)
    (payloads : list (list (string * json))) :
  _ws c = Some conn ->
  assoc "id" fields = Some (JStr ("redis-reconnect" ++ tail)%string) ->
  resend_script o
  = answers (filter (fun req => method req = "subscribe") (_ws_jsonrpc_cache c))
            payloads ->
  length payloads
  = length (filter (fun req => method req = "subscribe") (_ws_jsonrpc_cache c)) ->
  Forall (fun req => plain_id (id req)) (_ws_jsonrpc_cache c) ->
  exists c',
    _websocket_message o c (FJson (JObj fields)) = Some (c', Returned tt) /\
    written c'
    = written c ++
      ((fun req => (conn, WRequest req)) <$>
         filter (fun req => method req = "subscribe") (_ws_jsonrpc_cache c)) /\
    _ws_jsonrpc_cache c' = _ws_jsonrpc_cache c /\
    _ws c' = Some conn /\
    closed c' = closed c /\
    updates c' = updates c.
Proof.
  intros Hws Hid Hscript Hlen Hplain.
  rewrite (websocket_message_redis_reconnect o c fields tail Hid).
  unfold _resend_subscriptions. rewrite Hscript.
  set (c0 := add_log _ c).
  change (_ws_jsonrpc_cache c0) with (_ws_jsonrpc_cache c).
  set (subs := filter _ (_ws_jsonrpc_cache c)) in *.
  assert (Hsubs : Forall (fun req => plain_id (id req)) subs).
  { apply Forall_forall. intros req Hin.
    apply list_elem_of_filter in Hin as [_ Hin].
    revert req Hin. by apply Forall_forall. }
  rewrite (resend_answers subs payloads c0 conn Hws Hlen Hsubs).
  eexists. split; [reflexivity|].
  destruct (resent_fields subs payloads c0 conn Hws Hlen)
    as (Hws' & Hwr & _ & _ & Hcache & _ & _ & _ & _ & Hclosed).
  repeat split; try assumption.
  exact (resent_updates subs payloads c0).
Qed.

Lemma redis_reconnect_resends_the_subscriptions_witness :
  exists c',
    _websocket_message
      (mkReconnectOracle None
         [[EvFrame (FJson (JObj [("id", JStr "a1"); ("result", JInt 1)]))]])
      subscribed_client
      (FJson (JObj [("id", JStr "redis-reconnect")])) = Some (c', Returned tt) /\
    written c'
    = written subscribed_client ++
      ((fun req => (1%nat, WRequest req)) <$>
         filter (fun req => method req = "subscribe")
                (_ws_jsonrpc_cache subscribed_client)) /\
    _ws_jsonrpc_cache c' = _ws_jsonrpc_cache subscribed_client /\
    _ws c' = Some 1%nat /\
    closed c' = closed subscribed_client /\
    updates c' = updates subscribed_client.
Proof.
  apply (redis_reconnect_resends_the_subscriptions
           (mkReconnectOracle None
              [[EvFrame (FJson (JObj [("id", JStr "a1"); ("result", JInt 1)]))]])
           subscribed_client 1 [("id", JStr "redis-reconnect")] ""
           [[("result", JInt 1)]] eq_refl eq_refl eq_refl eq_refl).
  repeat constructor.
Defined.

(** ** Publications *)

Lemma not_processed_only_notified c msg_result :
  only_notified c (not_processed c msg_result) (UpdJson msg_result).
Proof.
  unfold only_notified, not_processed.
  destruct (_on_update c); simpl; repeat split; reflexivity.
Qed.

(** The handler of a publication. *)
Lemma websocket_message_publication o c fields tail :
  assoc "id" fields = Some (JStr ("redis-pubsub" ++ tail)%string) ->
  _websocket_message o c (FJson (JObj fields))
  = Some (_process_redis_message
            (add_log (LogMessageReceived (JObj fields)) c) (JObj fields)
            ("redis-pubsub" ++ tail)%string, Returned tt).
Proof.
  intros Hid. unfold _websocket_message, websocket_message_with.
  cbn [json_getitem]. rewrite Hid. cbn [py_str].
  replace (String.prefix "redis-pubsub" ("redis-pubsub" ++ tail)%string)
    with true by (by destruct tail).
  reflexivity.
Qed.

Lemma pubsub_init tail :
  ("redis-pubsub" ++ tail)%string = "redis-pubsub-init" <-> tail = "-init".
Proof.
  split; [|by intros ->]. intros H. by injection H.
Qed.

(** X10.  A publication, other than [redis-pubsub-init], that has no
    [msg_channel] or whose channel is in no namespace of a history query in
    progress goes to the update callback: the callback gets the [result] of
    the message, and nothing else of the client changes. *)
Theorem other_publications_go_to_the_callback (o : reconnect_oracle)
    (c : client) (fields rfields : list (string * json)) (tail : string) :
  assoc "id" fields = Some (JStr ("redis-pubsub" ++ tail)%string) ->
  tail <> "-init" ->
  assoc "result" fields = Some (JObj rfields) ->
  (assoc "msg_channel" rfields = None \/
   exists channel,
     assoc "msg_channel" rfields = Some (JStr channel) /\
     _sensor_history_states c !! before_colon channel = None) ->
  exists c',
    _websocket_message o c (FJson (JObj fields)) = Some (c', Returned tt) /\
    only_notified c c' (UpdJson (JObj rfields)).
Proof.
  intros Hid Htail Hres Hchan.
  rewrite (websocket_message_publication o c fields tail Hid).
  eexists. split; [reflexivity|].
  unfold _process_redis_message. cbn [json_getitem]. rewrite Hres.
  rewrite bool_decide_eq_false_2 by (by rewrite pubsub_init).
  cbn [json_contains].
  set (c0 := add_log _ c).
  assert (Hc0 : forall c', only_notified c0 c' (UpdJson (JObj rfields)) ->
                           only_notified c c' (UpdJson (JObj rfields))) by done.
  apply Hc0.
  destruct Hchan as [Hnone|(channel & Hsome & Hns)].
  - rewrite Hnone.
    rewrite bool_decide_eq_false_2 by (by intros [? ?]).
    apply not_processed_only_notified.
  - rewrite Hsome. rewrite bool_decide_eq_true_2 by eauto.
    cbn [json_getitem]. rewrite Hsome.
    change (_sensor_history_states c0) with (_sensor_history_states c).
    rewrite Hns. apply not_processed_only_notified.
Qed.

Lemma other_publications_go_to_the_callback_witness :
  exists c',
    _websocket_message disconnected_meanwhile connected_client
      (FJson (publication "ns:sensor" (JInt 7))) = Some (c', Returned tt) /\
    only_notified connected_client c'
      (UpdJson (JObj [("msg_channel", JStr "ns:sensor");
                      ("msg_data", JInt 7)])).
Proof.
  apply (other_publications_go_to_the_callback disconnected_meanwhile
           connected_client
           [("id", JStr "redis-pubsub");
            ("result", JObj [("msg_channel", JStr "ns:sensor");
                             ("msg_data", JInt 7)])]
           [("msg_channel", JStr "ns:sensor"); ("msg_data", JInt 7)] ""
           eq_refl).
  - discriminate.
  - reflexivity.
  - right. exists "ns:sensor". split; reflexivity.
Defined.

(** X11.  A publication on a channel of a history query in progress is
    kept from the update callback: it changes the state of its own
    namespace, by its [msg_data] (not at all when there is none), and
    leaves the states of all other namespaces, the futures and the
    connection as they are. *)
Theorem history_publication_stays_in_its_namespace (o : reconnect_oracle)
    (c : client) (fields rfields : list (string * json)) (tail : string)
    (channel : string) (st : history_state) :
  assoc "id" fields = Some (JStr ("redis-pubsub" ++ tail)%string) ->
  tail <> "-init" ->
  assoc "result" fields = Some (JObj rfields) ->
  assoc "msg_channel" rfields = Some (JStr channel) ->
  _sensor_history_states c !! before_colon channel = Some st ->
  exists c',
    _websocket_message o c (FJson (JObj fields)) = Some (c', Returned tt) /\
    _sensor_history_states c' !! before_colon channel
    = Some (match assoc "msg_data" rfields with
            | Some msg_data => fst (receive_history st msg_data)
            | None => st
            end) /\
    (forall namespace,
        namespace <> before_colon channel ->
        _sensor_history_states c' !! namespace
        = _sensor_history_states c !! namespace) /\
    updates c' = updates c /\
    futures c' = futures c /\
    written c' = written c /\
    _ws c' = _ws c.
Proof.
  intros Hid Htail Hres Hchan Hst.
  rewrite (websocket_message_publication o c fields tail Hid).
  eexists. split; [reflexivity|].
  unfold _process_redis_message. cbn [json_getitem]. rewrite Hres.
  rewrite bool_decide_eq_false_2 by (by rewrite pubsub_init).
  cbn [json_contains]. rewrite Hchan.
  rewrite bool_decide_eq_true_2 by eauto.
  cbn [json_getitem]. rewrite Hchan.
  set (c0 := add_log _ c).
  change (_sensor_history_states c0) with (_sensor_history_states c).
  rewrite Hst.
  destruct (assoc "msg_data" rfields) as [msg_data|]; [|by repeat split].
  destruct (receive_history st msg_data) as [st' warn].
  destruct warn; simpl; rewrite lookup_insert_eq;
    repeat split; try reflexivity;
    intros namespace Hne; by rewrite lookup_insert_ne.
Qed.

Lemma history_publication_stays_in_its_namespace_witness :
  exists c',
    _websocket_message disconnected_meanwhile
      (set_sensor_history_states
         {[ "ns-1" := mkHistoryState "anc_mean_wind_speed" false 0
                        (PyBool false) [] ]} connected_client)
      (FJson (samples_message "ns-1" [example_row])) = Some (c', Returned tt) /\
    _sensor_history_states c' !! before_colon "ns-1:anc_mean_wind_speed"
    = Some (match assoc "msg_data"
                    [("msg_channel", JStr "ns-1:anc_mean_wind_speed");
                     ("msg_data", JArr [example_row])] with
            | Some msg_data =>
                fst (receive_history
                       (mkHistoryState "anc_mean_wind_speed" false 0
                          (PyBool false) []) msg_data)
            | None => mkHistoryState "anc_mean_wind_speed" false 0
                        (PyBool false) []
            end) /\
    (forall namespace,
        namespace <> before_colon "ns-1:anc_mean_wind_speed" ->
        _sensor_history_states c' !! namespace
        = _sensor_history_states
            (set_sensor_history_states
               {[ "ns-1" := mkHistoryState "anc_mean_wind_speed" false 0
                              (PyBool false) [] ]} connected_client)
          !! namespace) /\
    updates c' = updates connected_client /\
    futures c' = futures connected_client /\
    written c' = written connected_client /\
    _ws c' = _ws connected_client.
Proof.
  apply (history_publication_stays_in_its_namespace disconnected_meanwhile
           (set_sensor_history_states
              {[ "ns-1" := mkHistoryState "anc_mean_wind_speed" false 0
                             (PyBool false) [] ]} connected_client)
           [("id", JStr "redis-pubsub");
            ("result", JObj [("msg_channel", JStr "ns-1:anc_mean_wind_speed");
                             ("msg_data", JArr [example_row])])]
           [("msg_channel", JStr "ns-1:anc_mean_wind_speed");
            ("msg_data", JArr [example_row])] ""
           "ns-1:anc_mean_wind_speed"
           (mkHistoryState "anc_mean_wind_speed" false 0 (PyBool false) [])
           eq_refl).
  - discriminate.
  - reflexivity.
  - reflexivity.
  - reflexivity.
Defined.

Lemma receive_samples_counts ivt rows : forall acc k,
  acc `prefix_of` fst (receive_samples ivt rows acc k) /\
  forall k', snd (receive_samples ivt rows acc k) = Ok k' ->
    (k' - k = Z.of_nat (length (fst (receive_samples ivt rows acc k)))
              - Z.of_nat (length acc))%Z.
Proof.
  induction rows as [|row rows IH]; intros acc k; simpl.
  - split; [done|]. intros k' [= <-]. lia.
  - destruct (convert_sample ivt row) as [[x|]|e]; simpl.
    + destruct (IH (acc ++ [x]) (k + 1)%Z) as [Hpre Hcount]. split.
      * etrans; [|exact Hpre]. by apply prefix_app_r.
      * intros k' Hk. specialize (Hcount k' Hk).
        rewrite length_app in Hcount. simpl in Hcount. lia.
    + apply IH.
    + split; [done|]. discriminate.
Qed.

Lemma convert_sample_six ivt row r :
  convert_sample ivt row = Ok r ->
  (is_Some r <-> json_len row = Ok 6%nat).
Proof.
  unfold convert_sample. destruct (json_len row) as [n|e]; simpl; [|done].
  case_bool_decide as Hn.
  - subst n. intros Hr. split; [done|]. intros _.
    destruct ivt;
      repeat match type of Hr with
             | context [res_bind ?m _] => destruct m; simpl in Hr; try done
             end; inversion Hr; eauto.
  - intros [= <-]. split; [by intros [? ?]|]. intros [= ?]. done.
Qed.

Lemma receive_samples_accepts ivt rows : forall acc k,
  Forall (fun row => exists r, convert_sample ivt row = Ok r) rows ->
  exists k',
    snd (receive_samples ivt rows acc k) = Ok k' /\
    length (fst (receive_samples ivt rows acc k))
    = (length acc
       + length (filter (fun row => json_len row = Ok 6%nat) rows))%nat.
Proof.
  induction rows as [|row rows IH]; intros acc k Hall; simpl.
  - exists k. split; [done|]. lia.
  - apply Forall_cons in Hall as [[r Hr] Hall].
    pose proof (convert_sample_six ivt row r Hr) as Hsix.
    rewrite Hr. destruct r as [x|].
    + rewrite filter_cons_True by (apply Hsix; eauto).
      destruct (IH (acc ++ [x]) (k + 1)%Z Hall) as (k' & Hk & Hlen).
      exists k'. split; [done|]. rewrite Hlen, length_app. simpl. lia.
    + rewrite filter_cons_False; [by apply IH|].
      intros H6. apply Hsix in H6 as [? ?]. done.
Qed.

(** X12.  A message with rows adds one sample for each row of six fields,
    after the samples there are, and drops the other rows;
    [num_samples_pending] goes down by the number of samples added, and
    [done_event] is as before.  The rows are ones whose fields convert
    without an exception. *)
Theorem samples_are_counted (st : history_state) (rows : list json) :
  Forall (fun row => exists r,
            convert_sample (pynum_truthy (include_value_ts st)) row = Ok r)
         rows ->
  let st' := fst (receive_history st (JArr rows)) in
  samples st `prefix_of` samples st' /\
  (length (samples st')
   = length (samples st)
     + length (filter (fun row => json_len row = Ok 6%nat) rows))%nat /\
  (num_samples_pending st' + Z.of_nat (length (samples st'))
   = num_samples_pending st + Z.of_nat (length (samples st)))%Z /\
  done_event st' = done_event st.
Proof.
  intros Hall. simpl.
  destruct (receive_samples_counts (pynum_truthy (include_value_ts st)) rows
              (samples st) 0) as [Hpre Hcount].
  destruct (receive_samples_accepts (pynum_truthy (include_value_ts st)) rows
              (samples st) 0 Hall) as (k' & Hk & Hlen).
  specialize (Hcount k' Hk).
  destruct (receive_samples _ rows (samples st) 0) as [acc r].
  simpl in *. subst r. simpl. repeat split; try done. lia.
Qed.

Lemma samples_are_counted_witness :
  let st := mkHistoryState "anc_mean_wind_speed" false 2 (PyBool false) [] in
  let st' := fst (receive_history st (JArr [example_row; JArr []; example_row])) in
  samples st `prefix_of` samples st' /\
  (length (samples st')
   = length (samples st)
     + length (filter (fun row => json_len row = Ok 6%nat)
                      [example_row; JArr []; example_row]))%nat /\
  (num_samples_pending st' + Z.of_nat (length (samples st'))
   = num_samples_pending st + Z.of_nat (length (samples st)))%Z /\
  done_event st' = done_event st.
Proof.
  apply (samples_are_counted
           (mkHistoryState "anc_mean_wind_speed" false 2 (PyBool false) [])
           [example_row; JArr []; example_row]).
  repeat constructor; eexists; reflexivity.
Defined.

Lemma done_kept_refl c : done_kept c c.
Proof. by intros ns. Qed.

Lemma done_kept_trans c1 c2 c3 :
  done_kept c1 c2 -> done_kept c2 c3 -> done_kept c1 c3.
Proof. intros H1 H2 ns Hd. by apply H2, H1. Qed.

Lemma done_kept_states c c' :
  _sensor_history_states c' = _sensor_history_states c -> done_kept c c'.
Proof. intros Heq ns. unfold is_done. by rewrite Heq. Qed.

Lemma receive_inform_done st msg_data :
  done_event st = true -> done_event (receive_inform st msg_data) = true.
Proof.
  intros Hd. unfold receive_inform.
  destruct (res_bind _ _) as [[inform pending]|e]; [|done].
  destruct (json_getitem inform "done") as [flag|e]; [|done].
  by destruct (json_truthy flag).
Qed.

Lemma receive_history_done st msg_data :
  done_event st = true ->
  done_event (fst (receive_history st msg_data)) = true.
Proof.
  intros Hd. unfold receive_history.
  destruct msg_data as [| | | |items|fields]; try done.
  - by destruct (receive_samples _ items (samples st) 0) as [acc [k|e]].
  - destruct (_ && _); [|done]. by apply receive_inform_done.
Qed.

Lemma process_redis_done c msg msg_id :
  done_kept c (_process_redis_message c msg msg_id).
Proof.
  unfold _process_redis_message.
  destruct (json_getitem msg "result") as [msg_result|e];
    [|apply done_kept_refl].
  case_bool_decide; [apply done_kept_refl|].
  destruct (json_contains "msg_channel" msg_result) as [[]|e];
    [| |apply done_kept_refl].
  - destruct (json_getitem msg_result "msg_channel")
      as [[| | |channel| |]|e]; try apply done_kept_refl.
    destruct (_sensor_history_states c !! before_colon channel)
      as [st|] eqn:Hst.
    + destruct (json_getitem msg_result "msg_data") as [msg_data|e];
        [|apply done_kept_refl].
      pose proof (receive_history_done st msg_data) as Hdone.
      destruct (receive_history st msg_data) as [st' warn]. simpl in Hdone.
      intros ns Hd. unfold is_done in *.
      destruct warn; simpl;
        (destruct (decide (ns = before_colon channel)) as [->|Hne];
         [rewrite lookup_insert_eq; rewrite Hst in Hd; by apply Hdone
         |by rewrite lookup_insert_ne]).
    + apply done_kept_states. unfold not_processed.
      by destruct (_on_update c).
  - apply done_kept_states. unfold not_processed. by destruct (_on_update c).
Qed.

Lemma on_exception_done c upd : done_kept c (on_exception c upd).
Proof.
  apply done_kept_states. unfold on_exception. simpl.
  by destruct (_on_update c).
Qed.

Lemma process_json_rpc_done c msg msg_id :
  done_kept c (_process_json_rpc_message c msg msg_id).
Proof.
  apply done_kept_states. unfold _process_json_rpc_message.
  destruct (_pending_requests c !! msg_id); [|done].
  destruct msg; try done. by destruct (json_truthy _).
Qed.

Lemma disconnect_done c : done_kept c (disconnect c).
Proof.
  apply done_kept_states. unfold disconnect.
  destruct (_heart_beat_timer c), (_ws c) eqn:Hws; simpl; rewrite ?Hws; done.
Qed.

Lemma websocket_message_with_done reconnect resend c msg c' r :
  (forall c0 c1 r1, reconnect c0 = Some (c1, r1) -> done_kept c0 c1) ->
  (forall c0 c1 r1, resend c0 = Some (c1, r1) -> done_kept c0 c1) ->
  websocket_message_with reconnect resend c msg = Some (c', r) ->
  done_kept c c'.
Proof.
  intros Hreconnect Hresend. unfold websocket_message_with.
  destruct msg as [|raw|msg].
  - simpl. destruct (_disconnect_issued c).
    + intros [= <- _]. by apply done_kept_states.
    + intros Hrun. apply Hreconnect in Hrun.
      eapply done_kept_trans; [|exact Hrun].
      apply done_kept_states. by destruct (_ws c).
  - intros [= <- _]. apply on_exception_done.
  - destruct (json_getitem msg "id") as [v|e].
    + destruct (py_str v) as [msg_id|]; [|done].
      destruct (String.prefix "redis-pubsub" msg_id).
      { intros [= <- _].
        eapply done_kept_trans; [|apply process_redis_done].
        by apply done_kept_states. }
      destruct (String.prefix "redis-reconnect" msg_id).
      * destruct (resend _) as [[c1 [[]|e|]]|] eqn:Hrun; [| | |done];
          apply Hresend in Hrun; intros [= <- _];
          (eapply done_kept_trans; [|try exact Hrun]);
          try (by apply done_kept_states).
        eapply done_kept_trans; [exact Hrun|apply on_exception_done].
      * intros [= <- _].
        eapply done_kept_trans; [|apply process_json_rpc_done].
        by apply done_kept_states.
    + intros [= <- _].
      eapply done_kept_trans; [|apply on_exception_done].
      by apply done_kept_states.
Qed.

Lemma handle_event_done c ev c' :
  handle_event c ev = Some c' -> done_kept c c'.
Proof.
  destruct ev as [msg|]; simpl.
  - destruct (websocket_message_with _ _ c msg) as [[c1 [[]|e|]]|] eqn:Hrun;
      try done.
    intros [= <-]. by eapply websocket_message_with_done, Hrun.
  - intros [= <-]. apply disconnect_done.
Qed.

Lemma run_events_done events : forall c,
  done_kept c (fst (run_events c events)).
Proof.
  induction events as [|ev events IH]; intros c; simpl;
    [apply done_kept_refl|].
  destruct (handle_event c ev) as [c1|] eqn:Hev; [|apply done_kept_refl].
  eapply done_kept_trans; [by eapply handle_event_done|apply IH].
Qed.

Lemma await_done c future events :
  done_kept c (fst (await c future events)).
Proof.
  unfold await. destruct (future_outcome c future); try apply done_kept_refl.
  pose proof (run_events_done events c) as Hrun.
  by destruct (run_events c events) as [c1 []].
Qed.

Lemma send_done c req : done_kept c (fst (_send c req)).
Proof. apply done_kept_states. unfold _send. by destruct (_ws c). Qed.

Lemma resend_done reqs : forall script c,
  done_kept c (fst (resend reqs script c)).
Proof.
  induction reqs as [|req reqs IH]; intros script c; simpl;
    [apply done_kept_refl|].
  pose proof (send_done (add_log (LogResending req) c) req) as Hsend.
  destruct (_send _ req) as [c1 future]. simpl in Hsend.
  pose proof (await_done c1 future (hd [] script)) as Hawait.
  destruct (await c1 future _) as [c2 [v|e|]]; simpl in *;
    try (eapply done_kept_trans; [|exact Hawait]; exact Hsend).
  eapply done_kept_trans; [|apply IH].
  eapply done_kept_trans; [exact Hsend|].
  eapply done_kept_trans; [exact Hawait|]. by apply done_kept_states.
Qed.

Lemma connect_done reconnecting attempt script c :
  done_kept c (fst (_connect reconnecting attempt script c)).
Proof.
  unfold _connect. destruct (_ws_connecting_lock c); [apply done_kept_refl|].
  destruct (is_connected _); [by apply done_kept_states|].
  set (c0 := if _heart_beat_timer _ then _ else _).
  assert (H0 : done_kept c c0).
  { apply done_kept_states. subst c0. simpl.
    by destruct (_heart_beat_timer c). }
  assert (Hfailed : forall c1, done_kept c1 (connect_failed reconnecting c1)).
  { intros c1. apply done_kept_states. unfold connect_failed.
    by destruct reconnecting. }
  assert (Hlast : forall c1 (b : bool),
             done_kept c c1 ->
             done_kept c
               (fst (if b then (add_log LogFailedToConnect c1, Returned tt)
                     else (c1, @Returned unit tt)))).
  { intros c1 [] H ns Hd; exact (H ns Hd). }
  destruct attempt as [conn|].
  - destruct reconnecting.
    + unfold _resend_subscriptions_and_strategies.
      pose proof (resend_done (_ws_jsonrpc_cache c0) script
                    (set_ws_connecting_lock true (set_ws (Some conn) c0)))
        as Hre.
      change (_ws_jsonrpc_cache (set_ws_connecting_lock true
                                   (set_ws (Some conn) c0)))
        with (_ws_jsonrpc_cache c0).
      destruct (resend _ script _) as [c1 [[]|e|]]; simpl in Hre.
      * apply Hlast. eapply done_kept_trans; [exact H0|].
        eapply done_kept_trans; [|by apply done_kept_states].
        exact Hre.
      * apply Hlast. eapply done_kept_trans; [exact H0|].
        eapply done_kept_trans; [exact Hre|].
        eapply done_kept_trans; [|apply Hfailed]. by apply done_kept_states.
      * simpl. eapply done_kept_trans; [exact H0|exact Hre].
    + apply Hlast. eapply done_kept_trans; [exact H0|].
      by apply done_kept_states.
  - apply Hlast. eapply done_kept_trans; [exact H0|apply Hfailed].
Qed.

(** X13.  [done_event] is only ever set: when the download of a namespace
    is done, it is still done after any frame, a reconnect and the resend
    that goes with it included. *)
Theorem a_finished_download_stays_finished (o : reconnect_oracle)
    (c c' : client) (msg : frame) (r : outcome unit) (namespace : string) :
  _websocket_message o c msg = Some (c', r) ->
  is_done c namespace = true ->
  is_done c' namespace = true.
Proof.
  intros Hrun. revert namespace.
  change (done_kept c c').
  eapply websocket_message_with_done; [| |exact Hrun].
  - intros c0 c1 r1 [= Heq].
    pose proof (connect_done true (connect_result o) (resend_script o) c0)
      as Hdone.
    by rewrite Heq in Hdone.
  - intros c0 c1 r1 [= Heq].
    pose proof (resend_done
                  (filter (fun req => method req = "subscribe")
                          (_ws_jsonrpc_cache c0)) (resend_script o) c0)
      as Hdone.
    unfold _resend_subscriptions in Heq. by rewrite Heq in Hdone.
Qed.

Lemma a_finished_download_stays_finished_witness :
  is_done
    (published
       (set_sensor_history_states
          {[ "ns-1" := mkHistoryState "anc_mean_wind_speed" true 0
                         (PyBool false) [] ]} connected_client)
       "ns-1"
       (mkHistoryState "anc_mean_wind_speed" true 0 (PyBool false) [])
       "ns-1:anc_mean_wind_speed" (JArr [example_row]))
    "ns-1" = true.
Proof.
  apply (a_finished_download_stays_finished disconnected_meanwhile
           (set_sensor_history_states
              {[ "ns-1" := mkHistoryState "anc_mean_wind_speed" true 0
                             (PyBool false) [] ]} connected_client)
           _ (FJson (samples_message "ns-1" [example_row])) (Returned tt)
           "ns-1").
  - vm_compute. reflexivity.
  - vm_compute. reflexivity.
Defined.

(** ** The result of a download *)

Lemma insert_sample_perm x l : insert_sample x l ≡ₚ x :: l.
Proof.
  induction l as [|y l IH]; simpl; [done|].
  destruct (Qle_bool _ _); [done|].
  rewrite IH. apply Permutation_swap.
Qed.

Lemma sorted_by_timestamp_perm l : sorted_by_timestamp l ≡ₚ l.
Proof.
  induction l as [|x l IH]; simpl; [done|].
  rewrite insert_sample_perm. by constructor.
Qed.

(** X14.  The list that the end of [sensor_history] returns has the
    samples that the state of the query has when the download is over,
    each as often as the state has it: the sort drops no sample and adds
    none.  Nothing is said of their order. *)
Theorem the_result_has_the_samples_of_the_state (namespace : string)
    (o : history_oracle) (c c' : client) (st : history_state)
    (result : list sample) :
  _sensor_history_states c !! namespace = Some st ->
  history_finish namespace o c = (c', Returned result) ->
  result ≡ₚ samples st /\
  length result = length (samples st).
Proof.
  intros Hst. unfold history_finish. rewrite Hst.
  destruct (unsubscribe _ _ _ _ _) as [c1 [v|e|]]; [|done|done].
  intros [= _ <-]. split.
  - apply sorted_by_timestamp_perm.
  - apply sorted_by_timestamp_length.
Qed.

Lemma the_result_has_the_samples_of_the_state_witness :
  let st := mkHistoryState "anc_mean_wind_speed" true 0 (PyBool false)
              [SensorSample 3 (JStr "c") (JStr "nominal");
               SensorSample 1 (JStr "a") (JStr "nominal");
               SensorSample 2 (JStr "b") (JStr "warn")] in
  let c := set_sensor_history_states {[ "ns-1" := st ]} connected_client in
  let run := history_finish "ns-1" (history_run []) c in
  let result := match snd run with
                | Returned result => result
                | _ => []
                end in
  result ≡ₚ samples st /\
  length result = length (samples st).
Proof.
  refine (the_result_has_the_samples_of_the_state "ns-1" (history_run [])
            (set_sensor_history_states
               {[ "ns-1" := mkHistoryState "anc_mean_wind_speed" true 0
                              (PyBool false)
                              [SensorSample 3 (JStr "c") (JStr "nominal");
                               SensorSample 1 (JStr "a") (JStr "nominal");
                               SensorSample 2 (JStr "b") (JStr "warn")] ]}
               connected_client)
            _
            (mkHistoryState "anc_mean_wind_speed" true 0 (PyBool false)
               [SensorSample 3 (JStr "c") (JStr "nominal");
                SensorSample 1 (JStr "a") (JStr "nominal");
                SensorSample 2 (JStr "b") (JStr "warn")])
            _ _ _).
  - vm_compute. reflexivity.
  - vm_compute. reflexivity.
Defined.

Lemma unsubscribe_removes_the_subscription rid p events c c' v :
  send_and_cache (mkRequest rid "unsubscribe" p) events c = (c', Returned v) ->
  Forall (fun req => ~ (method req = "subscribe" /\ params req = p))
         (_ws_jsonrpc_cache c').
Proof.
  unfold send_and_cache.
  destruct (_send c _) as [c1 future].
  destruct (await c1 future events) as [c2 [r|e|]]; [|done|done].
  unfold Ledger._cache_jsonrpc_request. simpl.
  unfold Ledger.unsubscribe_matches. rewrite remove_all_filter. simpl.
  intros [= <- _]. simpl.
  apply Forall_forall. intros req Hin.
  by apply list_elem_of_filter in Hin as [Hnot _].
Qed.

(** X15.  When [sensor_history] returns, the state of the query is no
    longer registered, and the cache has no [subscribe] for its namespace
    that a reconnect would send again. *)
Theorem sensor_history_cleans_up_when_it_returns (sensor_name : string)
    (start_time_sec end_time_sec : Q) (include_value_ts : pynum)
    (timeout_sec : Q) (o : history_oracle) (c c' : client)
    (result : list sample) :
  sensor_history sensor_name start_time_sec end_time_sec include_value_ts
                 timeout_sec o c = (c', Returned result) ->
  _sensor_history_states c' !! h_namespace o = None /\
  Forall (fun req => ~ (method req = "subscribe" /\
                        params req = [PStr (h_namespace o); PStrs ["*"]]))
         (_ws_jsonrpc_cache c').
Proof.
  unfold sensor_history.
  destruct (connect _ _) as [c1 [[]|e|]]; [|done|done].
  destruct (subscribe _ _ _ _ c1) as [c2 [r|e|]]; [|done|done].
  unfold history_download.
  destruct (run_events _ (h_fetch_events o)) as [c3 []]; [|done].
  destruct (res_bind (h_fetch_result o) request_accepted) as [[]|e];
    [|done|done].
  destruct (wait_done c3 _ _ _) as [c4 []]; [|done|done].
  unfold history_finish, unsubscribe.
  set (c0 := if (_ <=? _)%Z then _ else _).
  destruct (send_and_cache _ _ c0) as [c5 [v|e|]] eqn:Hun; [|done|done].
  intros [= <- _]. split.
  - simpl. apply lookup_delete_eq.
  - exact (unsubscribe_removes_the_subscription _ _ _ _ _ _ Hun).
Qed.

Lemma sensor_history_cleans_up_when_it_returns_witness :
  let c' := fst (sensor_history "anc_mean_wind_speed" 0 100 (PyBool false) 300
                   (history_run (done_after 40)) subscribed_client) in
  _sensor_history_states c' !! "ns-1" = None /\
  Forall (fun req => ~ (method req = "subscribe" /\
                        params req = [PStr "ns-1"; PStrs ["*"]]))
         (_ws_jsonrpc_cache c').
Proof.
  refine (sensor_history_cleans_up_when_it_returns
            "anc_mean_wind_speed" 0 100 (PyBool false) 300
            (history_run (done_after 40)) subscribed_client _
            [example_sample] _).
  vm_compute. reflexivity.
Defined.

(** X16.  When the client, which has its sitemap, has no connection and
    [websocket_connect] raises, [sensor_history] raises the exception of
    [_send] from its [subscribe], before it asks the portal for samples: no
    request for samples is made, nothing is written to the websocket, the
    cache is as before, and no retry is put on the IOLoop. *)
Theorem sensor_history_needs_a_connection (sensor_name : string)
    (start_time_sec end_time_sec : Q) (include_value_ts : pynum)
    (timeout_sec : Q) (o : history_oracle) (c : client) :
  _ws c = None ->
  _ws_connecting_lock c = false ->
  h_connect_result o = None ->
  exists c',
    sensor_history sensor_name start_time_sec end_time_sec include_value_ts
                   timeout_sec o c = (c', Raised not_connected_error) /\
    fetched c' = fetched c /\
    written c' = written c /\
    _ws_jsonrpc_cache c' = _ws_jsonrpc_cache c /\
    call_later c' = call_later c.
Proof.
  intros Hws Hlock Hconn.
  destruct c as [ws lk ou pr fu hs di ca hb wr cl up la fe lo].
  simpl in *. subst ws lk.
  unfold sensor_history, connect, _connect. rewrite Hconn. simpl.
  destruct hb; simpl;
    unfold subscribe, send_and_cache, _send; simpl;
    unfold await, future_outcome; simpl;
    rewrite lookup_app_r by lia; rewrite Nat.sub_diag; simpl;
    eexists; (split; [reflexivity|]); simpl; repeat split; reflexivity.
Qed.

Lemma sensor_history_needs_a_connection_witness :
  exists c',
    sensor_history "anc_mean_wind_speed" 0 100 (PyBool false) 300
      (history_run []) (set_ws None subscribed_client)
    = (c', Raised not_connected_error) /\
    fetched c' = fetched (set_ws None subscribed_client) /\
    written c' = written (set_ws None subscribed_client) /\
    _ws_jsonrpc_cache c' = _ws_jsonrpc_cache (set_ws None subscribed_client) /\
    call_later c' = call_later (set_ws None subscribed_client).
Proof.
  exact (sensor_history_needs_a_connection "anc_mean_wind_speed" 0 100
           (PyBool false) 300 (history_run [])
           (set_ws None subscribed_client) eq_refl eq_refl eq_refl).
Defined.

Lemma histories_loop_returned sensors : forall start_sec end_sec budget_sec
    began_sec runs histories c c' hs,
  histories_loop sensors start_sec end_sec budget_sec began_sec runs
                 histories c = (c', Returned hs) ->
  forall s, is_Some (hs !! s) <-> s ∈ sensors \/ is_Some (histories !! s).
Proof.
  induction sensors as [|sensor sensors IH];
    intros start_sec end_sec budget_sec began_sec runs histories c c' hs;
    simpl.
  - intros [= _ <-] s. rewrite elem_of_nil. tauto.
  - destruct runs as [|[now o] runs]; [done|].
    destruct (sensor_history _ _ _ _ _ o c) as [c1 [history|e|]] eqn:Hone;
      [|done|done].
    intros Hloop s. rewrite (IH _ _ _ _ _ _ _ _ _ Hloop s), elem_of_cons.
    destruct (decide (s = sensor)) as [->|Hne].
    + rewrite lookup_insert_eq. split; eauto.
    + rewrite lookup_insert_ne by done. tauto.
Qed.

(** X17.  When [sensors_histories] returns, the dict has a history for
    each name that [sensor_names] found and for nothing else. *)
Theorem sensors_histories_one_history_per_sensor (filters : pyval)
    (start_time_sec end_time_sec : Q) (include_value_ts : bool)
    (timeout_sec : Q) (o : histories_oracle) (c c' : client)
    (histories : gmap string (list sample)) :
  sensors_histories filters start_time_sec end_time_sec include_value_ts
                    timeout_sec o c = (c', Returned histories) ->
  exists sensors,
    sensor_names_result o = Ok sensors /\
    forall sensor, is_Some (histories !! sensor) <-> sensor ∈ sensors.
Proof.
  unfold sensors_histories.
  destruct (sensor_names_result o) as [sensors|e]; [|done].
  intros Hloop. exists sensors. split; [done|]. intros sensor.
  rewrite (histories_loop_returned _ _ _ _ _ _ _ _ _ _ Hloop sensor).
  rewrite lookup_empty. split; [|by left].
  intros [?|[? ?]]; done.
Qed.

Lemma sensors_histories_one_history_per_sensor_witness :
  let o := mkHistoriesOracle 1000%Q
             (Ok ["anc_mean_wind_speed"; "anc_gust_wind_speed"])
             [(1002%Q, history_run (done_after 50%Q));
              (1060%Q, history_run (done_after 50%Q))] in
  let run := sensors_histories (PStr "anc_.*_wind_speed") 0 100 false 600
               o connected_client in
  let histories := match snd run with
                   | Returned histories => histories
                   | _ => ∅
                   end in
  exists sensors,
    sensor_names_result o = Ok sensors /\
    forall sensor, is_Some (histories !! sensor) <-> sensor ∈ sensors.
Proof.
  intros o run histories.
  apply (sensors_histories_one_history_per_sensor
           (PStr "anc_.*_wind_speed") 0 100 false 600 o connected_client
           (fst run) histories).
  vm_compute. reflexivity.
Defined.

(** ** Other requests *)

Lemma same_or_cleared_trans c1 c2 c3 :
  cache_same_or_cleared c1 c2 -> cache_same_or_cleared c2 c3 ->
  cache_same_or_cleared c1 c3.
Proof.
  unfold cache_same_or_cleared. intros [H1|H1] [H2|H2]; rewrite ?H2, ?H1; auto.
Qed.

Lemma process_redis_same_cache c msg msg_id :
  _ws_jsonrpc_cache (_process_redis_message c msg msg_id) = _ws_jsonrpc_cache c.
Proof.
  unfold _process_redis_message, not_processed.
  repeat (match goal with
          | |- context [match ?x with _ => _ end] => destruct x
          end; simpl; try reflexivity).
Qed.

Lemma process_json_rpc_same_cache c msg msg_id :
  _ws_jsonrpc_cache (_process_json_rpc_message c msg msg_id)
  = _ws_jsonrpc_cache c.
Proof.
  unfold _process_json_rpc_message.
  destruct (_pending_requests c !! msg_id); [|done].
  destruct msg; try done. by destruct (json_truthy _).
Qed.

Lemma on_exception_same_cache c upd :
  _ws_jsonrpc_cache (on_exception c upd) = _ws_jsonrpc_cache c.
Proof. unfold on_exception. simpl. by destruct (_on_update c). Qed.

Lemma handle_event_same_or_cleared c ev c' :
  handle_event c ev = Some c' -> cache_same_or_cleared c c'.
Proof.
  destruct ev as [[|raw|msg]|]; simpl.
  - destruct (_disconnect_issued c); [|done]. intros [= <-]. by left.
  - intros [= <-]. left. apply on_exception_same_cache.
  - destruct (json_getitem msg "id") as [v|e].
    + destruct (py_str v) as [msg_id|]; [|done].
      destruct (String.prefix "redis-pubsub" msg_id).
      { intros [= <-]. left. by rewrite process_redis_same_cache. }
      destruct (String.prefix "redis-reconnect" msg_id); [done|].
      intros [= <-]. left. by rewrite process_json_rpc_same_cache.
    + intros [= <-]. left. by rewrite on_exception_same_cache.
  - intros [= <-]. right. unfold disconnect.
    by destruct (_heart_beat_timer c), (_ws c) eqn:Hws; simpl; rewrite ?Hws.
Qed.

Lemma run_events_same_or_cleared events : forall c,
  cache_same_or_cleared c (fst (run_events c events)).
Proof.
  induction events as [|ev events IH]; intros c; simpl; [by left|].
  destruct (handle_event c ev) as [c1|] eqn:Hev; [|by left].
  eapply same_or_cleared_trans; [by eapply handle_event_same_or_cleared|].
  apply IH.
Qed.

Lemma await_same_or_cleared c future events :
  cache_same_or_cleared c (fst (await c future events)).
Proof.
  unfold await. destruct (future_outcome c future); try by left.
  pose proof (run_events_same_or_cleared events c) as Hrun.
  by destruct (run_events c events) as [c1 []].
Qed.

Lemma send_same_cache c req :
  _ws_jsonrpc_cache (fst (_send c req)) = _ws_jsonrpc_cache c.
Proof. unfold _send. by destruct (_ws c). Qed.

(** X18.  [add] writes its request when there is a connection, and
    nothing when there is none; unlike a subscription it is never put in
    the cache, which is as before or, after a [disconnect] during the wait,
    empty. *)
Theorem add_is_not_cached (x y : pyval) (req_id : string)
    (events : list event) (c : client) :
  cache_same_or_cleared c (fst (add x y req_id events c)) /\
  written (fst (add x y req_id events c))
  = written c ++ match _ws c with
                 | Some conn => [(conn, WRequest (mkRequest req_id "add" [x; y]))]
                 | None => []
                 end.
Proof.
  unfold add.
  pose proof (send_same_cache c (mkRequest req_id "add" [x; y])) as Hsend.
  assert (Hwritten : written (fst (_send c (mkRequest req_id "add" [x; y])))
                     = written c ++ match _ws c with
                                    | Some conn =>
                                        [(conn, WRequest (mkRequest req_id "add" [x; y]))]
                                    | None => []
                                    end).
  { unfold _send. destruct (_ws c); simpl; [done|]. by rewrite app_nil_r. }
  destruct (_send c _) as [c1 future]. simpl in *.
  pose proof (await_same_or_cleared c1 future events) as Hawait.
  pose proof (await_steady c1 future events) as (_ & _ & Hw & _).
  split.
  - unfold cache_same_or_cleared in *. by rewrite <-Hsend.
  - by rewrite Hw.
Qed.

(** ** The sitemap *)

Lemma dict_update_keeps_keys d v d' k :
  dict_update d v = Some (Ok d') -> is_Some (d !! k) -> is_Some (d' !! k).
Proof.
  destruct v as [| | |s|[|x items]|fields]; simpl; try done.
  - case_bool_decide; [|done]. by intros [= <-].
  - by intros [= <-].
  - intros [= <-] Hk. induction fields as [|[k' v'] fields IH]; simpl; [done|].
    destruct (decide (k' = k)) as [->|Hne].
    + rewrite lookup_insert_eq. eauto.
    + by rewrite lookup_insert_ne.
Qed.

Lemma sitemap_defaults_endpoints k :
  k ∈ endpoints -> is_Some (sitemap_defaults !! k).
Proof.
  unfold endpoints. rewrite !elem_of_cons, elem_of_nil.
  intros [->|[->|[->|[->|[->|[->|[->|[]]]]]]]]; vm_compute; eauto.
Qed.

Lemma get_sitemap_endpoints fetch url urls m k :
  _get_sitemap fetch url = (urls, Some (Ok m)) ->
  k ∈ endpoints -> is_Some (m !! k).
Proof.
  intros Hget Hk. pose proof (sitemap_defaults_endpoints k Hk) as Hdef.
  unfold _get_sitemap in Hget. destruct (is_http url).
  - injection Hget as _ Hget.
    destruct (fetch url) as [[|response]|e].
    + by injection Hget as <-.
    + destruct (json_getitem response "client") as [client|e].
      * by eapply dict_update_keeps_keys.
      * destruct e; try done. by injection Hget as <-.
    + destruct e; try done; by injection Hget as <-.
  - injection Hget as _ <-.
    destruct (decide (k = "websocket")) as [->|Hne].
    + rewrite lookup_insert_eq. eauto.
    + by rewrite lookup_insert_ne.
Qed.

(** X19.  Whatever the portal answers, a sitemap that [_get_sitemap]
    returns has the seven endpoints of the defaults. *)
Theorem sitemap_has_every_endpoint (fetch : string -> res http_body)
    (url : string) (urls : list string) (m : gmap string json) (k : string) :
  _get_sitemap fetch url = (urls, Some (Ok m)) ->
  k ∈ endpoints ->
  is_Some (m !! k).
Proof.
  intros Hget Hk. pose proof (sitemap_defaults_endpoints k Hk) as Hdef.
  unfold _get_sitemap in Hget. destruct (is_http url).
  - injection Hget as _ Hget.
    destruct (fetch url) as [[|response]|e].
    + by injection Hget as <-.
    + destruct (json_getitem response "client") as [client|e].
      * by eapply dict_update_keeps_keys.
      * destruct e; try done. by injection Hget as <-.
    + destruct e; try done; by injection Hget as <-.
  - injection Hget as _ <-.
    destruct (decide (k = "websocket")) as [->|Hne].
    + rewrite lookup_insert_eq. eauto.
    + by rewrite lookup_insert_ne.
Qed.

Lemma sitemap_has_every_endpoint_witness :
  let answer := fun _ : string =>
    Ok (Parsed (JObj [("client",
                       JObj [("websocket", JStr "ws://portal/ws");
                             ("extra", JInt 1)])])) in
  let m := match snd (_get_sitemap answer "http://portal/api/client/2") with
           | Some (Ok m) => m
           | _ => ∅
           end in
  is_Some (m !! "sub_nr").
Proof.
  intros answer m.
  apply (sitemap_has_every_endpoint answer "http://portal/api/client/2"
           ["http://portal/api/client/2"] m "sub_nr").
  - vm_compute. reflexivity.
  - unfold endpoints. rewrite !elem_of_cons. auto 10.
Defined.

Lemma sitemap_cached fetch p m :
  _sitemap p = Some m -> m <> ∅ -> sitemap fetch p = (p, Some (Ok m)).
Proof.
  intros Hm Hne. unfold sitemap. rewrite Hm.
  by rewrite bool_decide_eq_false_2.
Qed.

Lemma get_sitemap_not_empty fetch url urls m :
  _get_sitemap fetch url = (urls, Some (Ok m)) -> m <> ∅.
Proof.
  intros Hget Hempty.
  destruct (get_sitemap_endpoints fetch url urls m "websocket" Hget)
    as [v Hv].
  - unfold endpoints. rewrite !elem_of_cons. auto.
  - by rewrite Hempty, lookup_empty in Hv.
Qed.

Lemma sitemap_first fetch p urls m :
  match _sitemap p with Some m0 => m0 = ∅ | None => True end ->
  _get_sitemap fetch (_url p) = (urls, Some (Ok m)) ->
  sitemap fetch p
  = (mkPortal (_url p) (Some m) (requests p ++ urls), Some (Ok m)).
Proof.
  intros Hnone Hget. unfold sitemap.
  destruct (_sitemap p) as [m0|].
  - rewrite bool_decide_eq_true_2 by done. by rewrite Hget.
  - by rewrite Hget.
Qed.

Lemma sitemap_again fetch fetch' p p1 m :
  sitemap fetch p = (p1, Some (Ok m)) ->
  sitemap fetch' p1 = (p1, Some (Ok m)).
Proof.
  unfold sitemap at 1.
  assert (Hfetch : forall urls r,
             _get_sitemap fetch (_url p) = (urls, r) ->
             match r with
             | Some (Ok m') =>
                 (mkPortal (_url p) (Some m') (requests p ++ urls), r)
             | _ => (mkPortal (_url p) (_sitemap p) (requests p ++ urls), r)
             end = (p1, Some (Ok m)) ->
             sitemap fetch' p1 = (p1, Some (Ok m))).
  { intros urls [[m'|e]|] Hget; [|done|done]. intros [= <- <-].
    apply sitemap_cached; [done|]. by eapply get_sitemap_not_empty. }
  destruct (_sitemap p) as [m0|] eqn:Hm0.
  - case_bool_decide as Hempty.
    + destruct (_get_sitemap fetch (_url p)) as [urls r] eqn:Hget.
      by apply Hfetch.
    + intros [= <- <-]. by apply sitemap_cached.
  - destruct (_get_sitemap fetch (_url p)) as [urls r] eqn:Hget.
    by apply Hfetch.
Qed.

(** X20.  Once the [sitemap] property has returned a sitemap, it returns
    the same one without a request, whatever the portal would answer then;
    the first access made one request to the URL of the client at most. *)
Theorem sitemap_is_fetched_once (fetch fetch' : string -> res http_body)
    (p p1 : portal) (m : gmap string json) :
  sitemap fetch p = (p1, Some (Ok m)) ->
  sitemap fetch' p1 = (p1, Some (Ok m)) /\
  (requests p1 = requests p \/ requests p1 = requests p ++ [_url p]).
Proof.
  intros Hfirst. split; [by eapply sitemap_again|].
  unfold sitemap in Hfirst.
  assert (Hurls : forall urls r,
             _get_sitemap fetch (_url p) = (urls, r) ->
             urls = [] \/ urls = [_url p]).
  { intros urls r. unfold _get_sitemap.
    destruct (is_http (_url p)); intros [= <- _]; auto. }
  assert (Hfetch : forall urls r,
             _get_sitemap fetch (_url p) = (urls, r) ->
             match r with
             | Some (Ok m') =>
                 (mkPortal (_url p) (Some m') (requests p ++ urls), r)
             | _ => (mkPortal (_url p) (_sitemap p) (requests p ++ urls), r)
             end = (p1, Some (Ok m)) ->
             requests p1 = requests p \/ requests p1 = requests p ++ [_url p]).
  { intros urls [[m'|e]|] Hget; [|done|done]. intros [= <- <-]. simpl.
    destruct (Hurls _ _ Hget) as [->| ->]; [left|right]; [|done].
    by rewrite app_nil_r. }
  destruct (_sitemap p) as [m0|].
  - case_bool_decide.
    + destruct (_get_sitemap fetch (_url p)) as [urls r] eqn:Hget.
      by eapply Hfetch.
    + injection Hfirst as <- _. by left.
  - destruct (_get_sitemap fetch (_url p)) as [urls r] eqn:Hget.
    by eapply Hfetch.
Qed.

Lemma sitemap_is_fetched_once_witness :
  let answer := fun _ : string =>
    Ok (Parsed (JObj [("client",
                       JObj [("websocket", JStr "ws://portal/ws")])])) in
  let p := mkPortal "http://portal/api/client/2" None [] in
  let p1 := fst (sitemap answer p) in
  let m := match snd (sitemap answer p) with
           | Some (Ok m) => m
           | _ => ∅
           end in
  sitemap (fun _ => Raise TypeError) p1 = (p1, Some (Ok m)) /\
  (requests p1 = requests p \/ requests p1 = requests p ++ [_url p]).
Proof.
  intros answer p p1 m.
  apply (sitemap_is_fetched_once answer (fun _ => Raise TypeError) p p1 m).
  vm_compute. reflexivity.
Defined.

(** X21.  When the request for the sitemap fails with [HTTPError], or the
    body is not JSON, or it has no [client], the property returns the
    defaults, in which every endpoint is the empty string, and keeps them:
    the next access makes no request, so the failure is not tried again. *)
Theorem a_failed_sitemap_is_kept (fetch fetch' : string -> res http_body)
    (p : portal) :
  _sitemap p = None ->
  is_http (_url p) = true ->
  (fetch (_url p) = Raise HTTPError \/
   fetch (_url p) = Ok Unparsable \/
   exists fields, fetch (_url p) = Ok (Parsed (JObj fields)) /\
                  assoc "client" fields = None) ->
  let p1 := mkPortal (_url p) (Some sitemap_defaults)
                     (requests p ++ [_url p]) in
  sitemap fetch p = (p1, Some (Ok sitemap_defaults)) /\
  sitemap fetch' p1 = (p1, Some (Ok sitemap_defaults)) /\
  forall k, k ∈ endpoints -> sitemap_defaults !! k = Some (JStr "").
Proof.
  intros Hnone Hhttp Hfail p1.
  assert (Hget : _get_sitemap fetch (_url p)
                 = ([_url p], Some (Ok sitemap_defaults))).
  { unfold _get_sitemap. rewrite Hhttp.
    destruct Hfail as [-> |[-> |(fields & -> & Hclient)]]; try done.
    simpl. by rewrite Hclient. }
  assert (Hfirst : sitemap fetch p = (p1, Some (Ok sitemap_defaults))).
  { apply sitemap_first; [by rewrite Hnone|done]. }
  split; [done|]. split; [by eapply sitemap_again|].
  intros k. unfold endpoints. rewrite !elem_of_cons, elem_of_nil.
  intros [->|[->|[->|[->|[->|[->|[->|[]]]]]]]]; reflexivity.
Qed.

Lemma a_failed_sitemap_is_kept_witness :
  let p1 := mkPortal "http://portal/api/client/2" (Some sitemap_defaults)
                     ([] ++ ["http://portal/api/client/2"]) in
  sitemap (fun _ => Raise HTTPError)
          (mkPortal "http://portal/api/client/2" None [])
  = (p1, Some (Ok sitemap_defaults)) /\
  sitemap (fun _ => Ok (Parsed (JObj [("client", JObj [])]))) p1
  = (p1, Some (Ok sitemap_defaults)) /\
  forall k, k ∈ endpoints -> sitemap_defaults !! k = Some (JStr "").
Proof.
  apply (a_failed_sitemap_is_kept (fun _ => Raise HTTPError)
           (fun _ => Ok (Parsed (JObj [("client", JObj [])])))
           (mkPortal "http://portal/api/client/2" None [])
           eq_refl eq_refl).
  left. reflexivity.
Defined.

Lemma dict_update_lookup (d : gmap string json) fields k :
  foldr (fun kv m => <[kv.1 := kv.2]> m) d fields !! k
  = match assoc k fields with
    | Some v => Some v
    | None => d !! k
    end.
Proof.
  induction fields as [|[k' v'] fields IH]; simpl; [done|].
  case_bool_decide as Hk.
  - subst k'. apply lookup_insert_eq.
  - by rewrite lookup_insert_ne.
Qed.

(** X22.  With a [client] dict in the answer of the portal to an HTTP
    URL, an entry of the sitemap is what the dict has for its key, a key
    that is not among the defaults included, and the default where the dict
    has nothing. *)
Theorem the_portal_overrides_the_defaults (fetch : string -> res http_body)
    (url : string) (fields client : list (string * json)) :
  is_http url = true ->
  fetch url = Ok (Parsed (JObj fields)) ->
  assoc "client" fields = Some (JObj client) ->
  exists m,
    _get_sitemap fetch url = ([url], Some (Ok m)) /\
    forall k, m !! k = match assoc k client with
                       | Some v => Some v
                       | None => sitemap_defaults !! k
                       end.
Proof.
  intros Hhttp Hfetch Hclient. unfold _get_sitemap.
  rewrite Hhttp, Hfetch. simpl. rewrite Hclient. simpl.
  eexists. split; [reflexivity|]. intros k. apply dict_update_lookup.
Qed.

Lemma the_portal_overrides_the_defaults_witness :
  exists m,
    _get_sitemap
      (fun _ => Ok (Parsed (JObj [("client",
                                   JObj [("websocket", JStr "ws://portal/ws");
                                         ("sub_nr", JStr "2")])])))
      "HTTP://portal/api/client/2"
    = (["HTTP://portal/api/client/2"], Some (Ok m)) /\
    forall k, m !! k = match assoc k [("websocket", JStr "ws://portal/ws");
                                      ("sub_nr", JStr "2")] with
                       | Some v => Some v
                       | None => sitemap_defaults !! k
                       end.
Proof.
  exact (the_portal_overrides_the_defaults
           (fun _ => Ok (Parsed (JObj [("client",
                                        JObj [("websocket", JStr "ws://portal/ws");
                                              ("sub_nr", JStr "2")])])))
           "HTTP://portal/api/client/2"
           [("client", JObj [("websocket", JStr "ws://portal/ws");
                             ("sub_nr", JStr "2")])]
           [("websocket", JStr "ws://portal/ws"); ("sub_nr", JStr "2")]
           eq_refl eq_refl eq_refl).
Defined.

(** ** Schedule blocks *)

Lemma schedule_blocks_loop_complete n blocks : forall results,
  Forall complete_block blocks ->
  schedule_blocks_loop blocks n results
  = Ok (results ++ omap (observation_of n) blocks).
Proof.
  induction blocks as [|b blocks IH]; intros results Hall; simpl.
  - by rewrite app_nil_r.
  - apply Forall_cons in Hall as [(fields & -> & [s Hs] & [t Ht] & [i Hi]) Hall].
    simpl. unfold json_get. rewrite Hs, Ht, Hi. simpl.
    destruct (json_eq_int s n); simpl.
    + destruct (is_json_str "OBSERVATION" t); simpl.
      * rewrite IH by done. by rewrite <-app_assoc.
      * by apply IH.
    + by apply IH.
Qed.

(** X23.  For a list of schedule blocks that have the fields [sub_nr],
    [type] and [id_code], [_extract_schedule_blocks] returns the [id_code]
    of the blocks of the subarray whose type is [OBSERVATION], in the order
    of the list. *)
Theorem schedule_blocks_in_the_order_of_the_portal
    (loads : json -> res json) (json_text text : string)
    (subarray_number : Z) (fields : list (string * json))
    (blocks : list json) :
  loads (JStr json_text) = Ok (JObj fields) ->
  assoc "result" fields = Some (JStr text) ->
  text <> "" ->
  loads (JStr text) = Ok (JArr blocks) ->
  Forall complete_block blocks ->
  _extract_schedule_blocks loads json_text subarray_number
  = Ok (omap (observation_of subarray_number) blocks).
Proof.
  intros Hdata Hresult Htext Hblocks Hall.
  unfold _extract_schedule_blocks. rewrite Hdata. simpl.
  rewrite Hresult. simpl.
  rewrite bool_decide_eq_false_2 by done. simpl.
  rewrite Hblocks. simpl.
  by rewrite schedule_blocks_loop_complete.
Qed.

Lemma schedule_blocks_in_the_order_of_the_portal_witness :
  _extract_schedule_blocks
    (fun text =>
       if is_json_str "outer" text
       then Ok (JObj [("result", JStr "inner")])
       else Ok (JArr [JObj [("sub_nr", JInt 2); ("type", JStr "OBSERVATION");
                            ("id_code", JStr "20160908-0010")];
                      JObj [("sub_nr", JInt 1); ("type", JStr "OBSERVATION");
                            ("id_code", JStr "20160908-0011")];
                      JObj [("sub_nr", JInt 2); ("type", JStr "MAINTENANCE");
                            ("id_code", JStr "20160908-0012")];
                      JObj [("sub_nr", JInt 2); ("type", JStr "OBSERVATION");
                            ("id_code", JStr "20160908-0013")]]))
    "outer" 2
  = Ok (omap (observation_of 2)
          [JObj [("sub_nr", JInt 2); ("type", JStr "OBSERVATION");
                 ("id_code", JStr "20160908-0010")];
           JObj [("sub_nr", JInt 1); ("type", JStr "OBSERVATION");
                 ("id_code", JStr "20160908-0011")];
           JObj [("sub_nr", JInt 2); ("type", JStr "MAINTENANCE");
                 ("id_code", JStr "20160908-0012")];
           JObj [("sub_nr", JInt 2); ("type", JStr "OBSERVATION");
                 ("id_code", JStr "20160908-0013")]]).
Proof.
  apply (schedule_blocks_in_the_order_of_the_portal _ "outer" "inner" 2
           [("result", JStr "inner")]); try reflexivity.
  - discriminate.
  - repeat constructor; eexists; (split; [reflexivity|]); simpl; eauto.
Defined.

(** ** Requests that fail *)

Lemma send_and_cache_not_connected req events c :
  _ws c = None ->
  exists c',
    send_and_cache req events c = (c', Raised not_connected_error) /\
    _ws_jsonrpc_cache c' = _ws_jsonrpc_cache c /\
    written c' = written c /\
    _pending_requests c' = _pending_requests c.
Proof.
  intros Hws. unfold send_and_cache.
  destruct (send_not_connected c req Hws) as (_ & Hawait & Hwritten & Hpending).
  assert (Hcache : _ws_jsonrpc_cache (fst (_send c req)) = _ws_jsonrpc_cache c).
  { unfold _send. by rewrite Hws. }
  specialize (Hawait events).
  destruct (_send c req) as [c1 future]. simpl in *.
  rewrite Hawait. eauto.
Qed.

(** X24.  On a client without a connection [subscribe], [unsubscribe],
    [set_sampling_strategy] and [set_sampling_strategies] raise the
    exception of [_send] and record nothing: the cache, a cached
    subscription that the [unsubscribe] names included, the pending
    requests and what has been written are as before. *)
Theorem a_request_that_is_not_sent_is_not_cached (namespace : string)
    (strings : pyval) (sensor_name strategy_and_params : string)
    (persist_to_redis : bool) (req_id : string) (events : list event)
    (c : client) :
  _ws c = None ->
  Forall (fun run : client * outcome json =>
            snd run = Raised not_connected_error /\
            _ws_jsonrpc_cache (fst run) = _ws_jsonrpc_cache c /\
            written (fst run) = written c /\
            _pending_requests (fst run) = _pending_requests c)
    [subscribe namespace strings req_id events c;
     unsubscribe namespace strings req_id events c;
     set_sampling_strategy namespace sensor_name strategy_and_params
       persist_to_redis req_id events c;
     set_sampling_strategies namespace strings strategy_and_params
       persist_to_redis req_id events c].
Proof.
  intros Hws.
  unfold subscribe, unsubscribe, set_sampling_strategy,
    set_sampling_strategies.
  repeat constructor;
    match goal with
    | |- context [send_and_cache ?req events c] =>
        destruct (send_and_cache_not_connected req events c Hws)
          as (c' & -> & ? & ? & ?)
    end; done.
Qed.

Lemma a_request_that_is_not_sent_is_not_cached_witness :
  Forall (fun run : client * outcome json =>
            snd run = Raised not_connected_error /\
            _ws_jsonrpc_cache (fst run)
            = _ws_jsonrpc_cache (set_ws None subscribed_client) /\
            written (fst run) = written (set_ws None subscribed_client) /\
            _pending_requests (fst run)
            = _pending_requests (set_ws None subscribed_client))
    [subscribe "ns" (PStrs ["x"]) "b1" [] (set_ws None subscribed_client);
     unsubscribe "ns" (PStrs ["x"]) "b1" [] (set_ws None subscribed_client);
     set_sampling_strategy "ns" "s" "none" false "b1" []
       (set_ws None subscribed_client);
     set_sampling_strategies "ns" (PStrs ["x"]) "none" false "b1" []
       (set_ws None subscribed_client)].
Proof.
  exact (a_request_that_is_not_sent_is_not_cached "ns" (PStrs ["x"]) "s"
           "none" false "b1" [] (set_ws None subscribed_client) eq_refl).
Defined.

(** X25.  A [subscribe] that the portal answers with an error returns
    the error as its result and is cached all the same: afterwards the
    cache has a [subscribe] with these params, which a reconnect sends
    again. *)
Theorem a_rejected_subscription_is_cached (namespace : string)
    (sub_strings : pyval) (req_id : string) (fields : list (string * json))
    (conn : nat) (c : client) :
  _ws c = Some conn ->
  assoc "id" fields = Some (JStr req_id) ->
  plain_id req_id ->
  json_truthy (json_get fields "error") = true ->
  exists c',
    subscribe namespace sub_strings req_id
              [EvFrame (FJson (JObj fields))] c
    = (c', Returned (json_get fields "error")) /\
    exists req,
      req ∈ _ws_jsonrpc_cache c' /\
      method req = "subscribe" /\
      params req = [PStr namespace; sub_strings].
Proof.
  intros Hws Hid Hplain Herror. unfold subscribe.
  set (req := mkRequest req_id "subscribe" [PStr namespace; sub_strings]).
  rewrite (send_and_cache_response c conn req fields Hws Hid Hplain).
  assert (Happ : Ledger.appended req).
  { split; [done|]. by intros [=]. }
  rewrite (appended_recorded (_ws_jsonrpc_cache c) req Happ).
  unfold response_payload. rewrite Herror.
  eexists. split; [reflexivity|]. simpl.
  destruct (answered_fields c conn req fields Hws)
    as (_ & _ & _ & Hcache & _).
  destruct (Ledger.duplicate_found req (_ws_jsonrpc_cache c)) eqn:Hdup.
  - unfold Ledger.duplicate_found in Hdup.
    apply existsb_exists in Hdup as (r & Hin & Heq).
    apply bool_decide_eq_true in Heq. injection Heq as Hm Hp.
    exists r. split; [|done]. by apply list_elem_of_In.
  - exists req. split; [|done].
    rewrite elem_of_app, list_elem_of_singleton. by right.
Qed.

Lemma a_rejected_subscription_is_cached_witness :
  exists c',
    subscribe "ns" (PStrs ["x"]) "a1"
              [EvFrame (FJson example_error_response)] connected_client
    = (c', Returned (json_get [("id", JStr "a1");
                               ("error",
                                JObj [("code", JInt (-32601));
                                      ("message", JStr "Method not found")])]
                              "error")) /\
    exists req,
      req ∈ _ws_jsonrpc_cache c' /\
      method req = "subscribe" /\
      params req = [PStr "ns"; PStrs ["x"]].
Proof.
  apply (a_rejected_subscription_is_cached "ns" (PStrs ["x"]) "a1"
           [("id", JStr "a1");
            ("error", JObj [("code", JInt (-32601));
                            ("message", JStr "Method not found")])]
           1 connected_client eq_refl eq_refl).
  - split; reflexivity.
  - reflexivity.
Defined.
